(** * Day-0 network setup: a shallow embedding of the provisioning engine

    The development follows the Python sources:
    - [utils.py]            reference resolution, custom-field separation and
                            the section appliers;
    - [meraki_functions.py] the wrappers around the dashboard SDK;
    - [setup.py]            the network builder and the completion report.

    Python values are JSON-shaped; a [dict] is an association list that keeps
    insertion order.  Backend operations are calls to an oracle that sees the
    events issued so far; every call is appended to a trace.  Python
    exceptions that escape a function are the outcome [Raise].  The log
    buffer and the progress bar carry no decision and are left out;
    [apply_config_template] and [warm_spare_config] are not reached from
    the builder and are not embedded. *)

From Stdlib Require Import List String Ascii ZArith Bool Lia PeanoNat.
From Stdlib Require Import Sorting.Sorted Sorting.Permutation Sorting.Mergesort Orders.
Import ListNotations.
Local Open Scope string_scope.
Local Open Scope list_scope.

Set Warnings "-register-all".

(* ================================================================= *)
(** ** Python values *)

Inductive json : Type :=
| JNull
| JBool (b : bool)
| JNum (n : Z)
| JStr (s : string)
| JList (l : list json)
| JDict (d : list (string * json)).

(** An insertion-ordered mapping with string keys. *)
Definition dict_of (V : Type) := list (string * V).
Definition dict := dict_of json.

Module Dict.
Section WithValues.
Context {V : Type}.

Definition keys (d : dict_of V) : list string := map fst d.

(** [d.get(k)] *)
Fixpoint get (k : string) (d : dict_of V) : option V :=
  match d with
  | [] => None
  | (k', v) :: rest => if String.eqb k k' then Some v else get k rest
  end.

(** [k in d] *)
Definition has (k : string) (d : dict_of V) : bool :=
  match get k d with Some _ => true | None => false end.

(** [d[k] = v]: an existing key keeps its position, a new key goes last. *)
Fixpoint set (k : string) (v : V) (d : dict_of V) : dict_of V :=
  match d with
  | [] => [(k, v)]
  | (k', v') :: rest =>
      if String.eqb k k' then (k', v) :: rest else (k', v') :: set k v rest
  end.

(** [del d[k]] on a key that is present. *)
Definition del (k : string) (d : dict_of V) : dict_of V :=
  filter (fun kv => negb (String.eqb k (fst kv))) d.

(** Keys of a Python dict are pairwise distinct. *)
Definition wf (d : dict_of V) : Prop := NoDup (keys d).
End WithValues.
End Dict.

(** [s.startswith(p)] *)
Definition startswith (p s : string) : bool := String.prefix p s.

(** [needle in hay] on strings. *)
Fixpoint contains (needle hay : string) : bool :=
  String.prefix needle hay ||
  match hay with
  | EmptyString => false
  | String _ rest => contains needle rest
  end.

(** Truth value of a Python object ([if v:], [not v]). *)
Definition truthy (v : json) : bool :=
  match v with
  | JNull => false
  | JBool b => b
  | JNum n => negb (Z.eqb n 0)
  | JStr s => negb (String.eqb s "")
  | JList l => match l with [] => false | _ => true end
  | JDict d => match d with [] => false | _ => true end
  end.

(** [k in v] for a string [k]: key test on a dict, element test on a list,
    substring test on a string; a [TypeError] ([None]) on anything else. *)
Definition py_in (k : string) (v : json) : option bool :=
  match v with
  | JDict d => Some (Dict.has k d)
  | JList l =>
      Some (existsb (fun x => match x with JStr s => String.eqb s k | _ => false end) l)
  | JStr s => Some (contains k s)
  | _ => None
  end.

(** [v[k]] for a string [k]: only a dict holding [k] answers. *)
Definition py_getitem (k : string) (v : json) : option json :=
  match v with
  | JDict d => Dict.get k d
  | _ => None
  end.

(* ================================================================= *)
(** ** utils.py: custom fields *)

Definition is_custom (key : string) : bool := startswith "_" key.

(** [separate_custom_fields]: one pass over [config.items()], each entry
    stored in one of two fresh dicts. *)
Definition separate_custom_fields (config : dict) : dict * dict :=
  fold_left
    (fun (acc : dict * dict) (item : string * json) =>
       let '(custom_fields, remaining_fields) := acc in
       let '(key, value) := item in
       if is_custom key
       then (Dict.set key value custom_fields, remaining_fields)
       else (custom_fields, Dict.set key value remaining_fields))
    config ([], []).

(* ================================================================= *)
(** ** Backend, files and effects *)

(** The operations of the dashboard SDK that the program invokes
    ([dashboard.<scope>.<operation>(...)]); keyword arguments are a dict.
    The organisation id is a constant of the run and is left out. *)
Inductive call : Type :=
| createOrganizationNetwork (kwargs : dict)
| updateNetwork (network_id : json) (kwargs : dict)
| claimNetworkDevices (network_id : json) (serials : json)
| getNetworkFirmwareUpgrades (network_id : json)
| updateNetworkFirmwareUpgrades (network_id : json) (kwargs : dict)
| updateNetworkApplianceVpnSiteToSiteVpn (network_id : json) (kwargs : dict)
| getNetworkApplianceVpnSiteToSiteVpn (network_id : json)
| updateNetworkSyslogServers (network_id : json) (kwargs : dict)
| updateNetworkSnmp (network_id : json) (kwargs : dict)
| updateNetworkApplianceSecurityMalware (network_id : json) (kwargs : dict)
| getNetworkApplianceContentFilteringCategories (network_id : json)
| updateNetworkApplianceContentFiltering (network_id : json) (kwargs : dict)
| getNetworkGroupPolicies (network_id : json)
| updateNetworkApplianceVlansSettings (network_id : json)
| createNetworkApplianceVlan (network_id : json) (kwargs : dict)
| updateNetworkApplianceVlan (network_id : json) (vlan_id : json) (kwargs : dict)
| getNetworkApplianceVlans (network_id : json)
| updateNetworkAppliancePort (network_id : json) (kwargs : dict)
| getNetworkAppliancePorts (network_id : json)
| updateDevice (serial : json) (kwargs : dict)
| updateDeviceApplianceUplinksSettings (serial : json) (kwargs : dict)
| getNetworkDevices (network_id : json)
| updateNetworkApplianceTrafficShapingUplinkBandwidth (network_id : json) (kwargs : dict)
| getNetworkApplianceTrafficShapingUplinkBandwidth (network_id : json).

(** [meraki.APIError]: [e.status], [e.message['errors'][0]] (absent when the
    message has no such entry) and [str(e)]. *)
Record APIError : Type := mkAPIError {
  status_code : positive;
  first_error : option string;
  text : string
}.

(** What an SDK operation does when invoked. *)
Inductive sdk_result : Type :=
| Returns (response : json)
| RaisesAPIError (e : APIError)
| RaisesException (text : string).

(** Observable events of one builder task.  [Enter] marks the entry of a
    section applier and [Sleep] a call of [time.sleep]. *)
Inductive event : Type :=
| Call (c : call)
| Enter (applier : string)
| Sleep (seconds : Z).

Definition trace := list event.

(** The backend answers a call knowing what the task did before. *)
Definition oracle := trace -> call -> sdk_result.

(** A file of the configuration directory. *)
Inductive file : Type :=
| Missing
| Malformed
| Fragment (content : json).

Record world : Type := mkWorld {
  backend : oracle;
  files : string -> file;
  net_name_to_id : dict
}.

(** A function returns a value or lets an exception escape. *)
Inductive outcome (A : Type) : Type :=
| Ret (a : A)
| Raise.
Arguments Ret {A} a.
Arguments Raise {A}.

Definition M (A : Type) : Type := trace -> outcome A * trace.

Definition ret {A} (a : A) : M A := fun tr => (Ret a, tr).
Definition raise {A} : M A := fun tr => (Raise, tr).
Definition bind {A B} (m : M A) (k : A -> M B) : M B :=
  fun tr =>
    match m tr with
    | (Ret a, tr') => k a tr'
    | (Raise, tr') => (Raise, tr')
    end.
Definition emit (e : event) : M unit := fun tr => (Ret tt, tr ++ [e]).
Definition lift {A} (o : option A) : M A :=
  match o with Some a => ret a | None => raise end.

Declare Scope py_scope.
Delimit Scope py_scope with py.
Notation "x <- m ;; k" := (bind m (fun x => k))
  (at level 100, m at next level, right associativity) : py_scope.
Notation "' p <- m ;; k" := (bind m (fun x => let p := x in k))
  (at level 100, p pattern, m at next level, right associativity) : py_scope.
Notation "m ;;; k" := (bind m (fun _ => k))
  (at level 100, right associativity) : py_scope.
Local Open Scope py_scope.

(** [for x in xs: acc = body(acc, x)] *)
Fixpoint foreach {A S} (xs : list A) (acc : S) (body : S -> A -> M S) : M S :=
  match xs with
  | [] => ret acc
  | x :: rest => acc' <- body acc x ;; foreach rest acc' body
  end.

(** [for x in v]: the elements of a list, the keys of a dict, the characters
    of a string (one byte each here). *)
Fixpoint chars (s : string) : list json :=
  match s with
  | EmptyString => []
  | String c rest => JStr (String c EmptyString) :: chars rest
  end.

Definition py_iter (v : json) : option (list json) :=
  match v with
  | JList l => Some l
  | JDict d => Some (map JStr (Dict.keys d))
  | JStr s => Some (chars s)
  | _ => None
  end.

(** [l[i]] on a list, negative indices counting from the end. *)
Definition list_index (l : list json) (i : Z) : option json :=
  let n := Z.of_nat (List.length l) in
  if (0 <=? i)%Z && (i <? n)%Z then nth_error l (Z.to_nat i)
  else if (- n <=? i)%Z && (i <? 0)%Z then nth_error l (Z.to_nat (n + i))
  else None.

(** [c[k]] for the container and key shapes met when a loop subscripts the
    container it iterates: a dict by its key, a list by an integer. *)
Definition py_subscript (c k : json) : option json :=
  match c, k with
  | JDict d, JStr s => Dict.get s d
  | JList l, JNum i => list_index l i
  | JList l, JBool b => list_index l (if b then 1%Z else 0%Z)
  | _, _ => None
  end.

(** Keys of the small lookup tables built from backend replies: Python
    hashes and compares them, which fails on lists and dicts. *)
Definition hashable (v : json) : bool :=
  match v with JList _ | JDict _ => false | _ => true end.

Definition as_int (v : json) : option Z :=
  match v with
  | JNum n => Some n
  | JBool b => Some (if b then 1%Z else 0%Z)
  | _ => None
  end.

Definition key_eqb (a b : json) : bool :=
  match a, b with
  | JNull, JNull => true
  | JStr s, JStr t => String.eqb s t
  | _, _ =>
      match as_int a, as_int b with
      | Some m, Some n => Z.eqb m n
      | _, _ => false
      end
  end.

Definition table := list (json * json).

Fixpoint table_get (k : json) (t : table) : option json :=
  match t with
  | [] => None
  | (k', v) :: rest => if key_eqb k k' then Some v else table_get k rest
  end.

Fixpoint table_set (k v : json) (t : table) : table :=
  match t with
  | [] => [(k, v)]
  | (k', v') :: rest =>
      if key_eqb k k' then (k', v) :: rest else (k', v') :: table_set k v rest
  end.

(** [t[k] = v], raising on an unhashable key. *)
Definition table_store (k v : json) (t : table) : M table :=
  if hashable k then ret (table_set k v t) else raise.

(** [k in t], raising on an unhashable key. *)
Definition table_has (k : json) (t : table) : M bool :=
  if hashable k
  then ret (match table_get k t with Some _ => true | None => false end)
  else raise.

(** [v == s] for a string literal [s]. *)
Definition eq_str (v : json) (s : string) : bool :=
  match v with JStr t => String.eqb t s | _ => false end.

(** [v.get(k, default)]: only a dict has [.get]. *)
Definition get_default (k : string) (default : json) (v : json) : option json :=
  match v with
  | JDict d => Some (match Dict.get k d with Some x => x | None => default end)
  | _ => None
  end.

(** [c[k] = v], the store that matches [py_subscript]. *)
Fixpoint list_store (l : list json) (i : nat) (v : json) : list json :=
  match l, i with
  | [], _ => []
  | _ :: rest, O => v :: rest
  | x :: rest, S j => x :: list_store rest j v
  end.

Definition py_store (c k v : json) : json :=
  match c, k with
  | JDict d, JStr s => JDict (Dict.set s v d)
  | JList l, _ =>
      match as_int k with
      | Some i =>
          let n := Z.of_nat (List.length l) in
          JList (list_store l (Z.to_nat (if (i <? 0)%Z then n + i else i)%Z) v)
      | None => c
      end
  | _, _ => c
  end.

(* ================================================================= *)
(** ** meraki_functions.py *)

(** The [(error_code, response)] pair of every wrapper: no error code and
    the response, or an error code and the error text. *)
Inductive errcode : Type :=
| HttpStatus (n : positive)   (* [e.status] *)
| Code500.                    (* the literal ["500"] *)

Inductive reply : Type :=
| Ok (response : json)
| Err (error_code : errcode) (message : string).

(** The second component of the pair, whatever the first. *)
Definition response_of (r : reply) : json :=
  match r with
  | Ok response => response
  | Err _ message => JStr message
  end.

(** Text of the [TypeError] raised when a payload passed as keyword
    arguments is not a mapping: the part of the message that does not
    depend on the callee and on the type of the payload, which Python
    names before and after it. *)
Definition mapping_error : string := "argument after ** must be a mapping".

(** The first key of a payload that repeats a keyword the call site
    already passes by name. *)
Definition repeated_keyword (named : list string) (kwargs : dict) : option string :=
  find (fun key => existsb (String.eqb key) named) (Dict.keys kwargs).

(** Text of the [TypeError] raised for such a key, after the name of the
    callee. *)
Definition repeated_keyword_error (key : string) : string :=
  "got multiple values for keyword argument '" ++ key ++ "'".

Module meraki_functions.
Section Wrappers.
Variable w : world.

(** Invoke an SDK operation: the backend answers, the call is recorded. *)
Definition sdk (c : call) : M sdk_result :=
  fun tr => (Ret (backend w tr c), tr ++ [Call c]).

(** [try: ... return None, response / except meraki.APIError / except Exception] *)
Definition guarded (r : sdk_result) : reply :=
  match r with
  | Returns response => Ok response
  | RaisesAPIError e => Err (HttpStatus (status_code e)) (text e)
  | RaisesException t => Err Code500 t
  end.

(** A wrapper whose payload is passed as [**payload] inside the [try]. *)
Definition with_kwargs (op : dict -> call) (payload : json) : M reply :=
  match payload with
  | JDict kwargs => r <- sdk (op kwargs) ;; ret (guarded r)
  | _ => ret (Err Code500 mapping_error)
  end.

Definition plain (op : call) : M reply :=
  r <- sdk op ;; ret (guarded r).

Definition update_network (network_id : json) (network_config : json) : M reply :=
  with_kwargs (updateNetwork network_id) network_config.

Definition create_network (network_config : json) (net_name_to_id : dict) : M reply :=
  match network_config with
  | JDict kwargs =>
      r <- sdk (createOrganizationNetwork kwargs) ;;
      match r with
      | Returns response => ret (Ok response)
      | RaisesAPIError e =>
          first <- lift (first_error e) ;;
          if contains "taken" first then
            match Dict.get "name" kwargs with
            | Some (JStr name) =>
                network_id <- lift (Dict.get name net_name_to_id) ;;
                update_network network_id network_config
            | _ => raise
            end
          else ret (Err (HttpStatus (status_code e)) (text e))
      | RaisesException t => ret (Err Code500 t)
      end
  | _ => ret (Err Code500 mapping_error)
  end.

Definition get_network_group_policies (network_id : json) : M reply :=
  plain (getNetworkGroupPolicies network_id).

Definition get_content_filtering_categories (network_id : json) : M reply :=
  plain (getNetworkApplianceContentFilteringCategories network_id).

Definition get_vlans (network_id : json) : M reply :=
  plain (getNetworkApplianceVlans network_id).

(** [update_vlan] passes [networkId=] and [vlanId=] by name next to
    [**vlan_config]: a payload that holds one of the two names makes the
    call itself a [TypeError], caught by [except Exception], and the SDK
    operation is not invoked. *)
Definition update_vlan (network_id vlan_id : json) (vlan_config : json) : M reply :=
  match vlan_config with
  | JDict kwargs =>
      match repeated_keyword ["networkId"; "vlanId"] kwargs with
      | Some key => ret (Err Code500 (repeated_keyword_error key))
      | None =>
          r <- sdk (updateNetworkApplianceVlan network_id vlan_id kwargs) ;;
          ret (guarded r)
      end
  | _ => ret (Err Code500 mapping_error)
  end.

(** The [except meraki.APIError] clause of [create_vlan]. *)
Definition create_vlan_conflict (network_id : json) (vlan_config : dict)
           (e : APIError) : M reply :=
  first <- lift (first_error e) ;;
  if contains "taken" first || contains "bound" first then
    vlan_id <- lift (Dict.get "id" vlan_config) ;;
    update_vlan network_id vlan_id (JDict (Dict.del "id" vlan_config))
  else ret (Err (HttpStatus (status_code e)) (text e)).

Definition create_vlan (network_id : json) (vlan_config : dict) : M reply :=
  r <- sdk (updateNetworkApplianceVlansSettings network_id) ;;
  match r with
  | Returns _ =>
      r <- sdk (createNetworkApplianceVlan network_id vlan_config) ;;
      match r with
      | Returns response => ret (Ok response)
      | RaisesAPIError e => create_vlan_conflict network_id vlan_config e
      | RaisesException t => ret (Err Code500 t)
      end
  | RaisesAPIError e => create_vlan_conflict network_id vlan_config e
  | RaisesException t => ret (Err Code500 t)
  end.

Definition get_network_devices (network_id : json) : M reply :=
  plain (getNetworkDevices network_id).

Definition update_device (serial : json) (device_config : json) : M reply :=
  with_kwargs (updateDevice serial) device_config.

Definition update_site_to_site_vpn (network_id : json) (site2site_configs : json) : M reply :=
  with_kwargs (updateNetworkApplianceVpnSiteToSiteVpn network_id) site2site_configs.

Definition get_site_to_site_vpn (network_id : json) : M reply :=
  plain (getNetworkApplianceVpnSiteToSiteVpn network_id).

Definition update_sys_log_servers (network_id : json) (syslog_config : json) : M reply :=
  with_kwargs (updateNetworkSyslogServers network_id) syslog_config.

Definition update_snmp (network_id : json) (snmp_config : json) : M reply :=
  with_kwargs (updateNetworkSnmp network_id) snmp_config.

Definition update_malware_settings (network_id : json) (amp_config : json) : M reply :=
  with_kwargs (updateNetworkApplianceSecurityMalware network_id) amp_config.

Definition update_content_filtering_settings (network_id : json)
           (content_filtering_config : json) : M reply :=
  with_kwargs (updateNetworkApplianceContentFiltering network_id) content_filtering_config.

Definition get_uplink_bandwidth (network_id : json) : M reply :=
  plain (getNetworkApplianceTrafficShapingUplinkBandwidth network_id).

Definition update_traffic_shaping_uplink_bandwidth_settings (network_id : json)
           (traffic_shaping_uplink_bandwidth_config : json) : M reply :=
  with_kwargs (updateNetworkApplianceTrafficShapingUplinkBandwidth network_id)
              traffic_shaping_uplink_bandwidth_config.

Definition claim_devices (network_id : json) (serials : json) : M reply :=
  plain (claimNetworkDevices network_id serials).

Definition get_network_firmware_upgrades (network_id : json) : M reply :=
  plain (getNetworkFirmwareUpgrades network_id).

Definition up_to_date : string :=
  "Firmware is up to date with specified version already. Skipping.".

Definition trigger_network_firmware_upgrades (network_id : json)
           (firmware_upgrade_config : json) : M reply :=
  match firmware_upgrade_config with
  | JDict kwargs =>
      r <- sdk (updateNetworkFirmwareUpgrades network_id kwargs) ;;
      match r with
      | Returns response => ret (Ok response)
      | RaisesAPIError e =>
          first <- lift (first_error e) ;;
          if contains "already on this version" first
          then ret (Ok (JStr up_to_date))
          else ret (Err (HttpStatus (status_code e)) (text e))
      | RaisesException t => ret (Err Code500 t)
      end
  | _ => ret (Err Code500 mapping_error)
  end.

Definition get_network_appliance_ports (network_id : json) : M reply :=
  plain (getNetworkAppliancePorts network_id).

Definition update_network_appliance_port (network_id : json)
           (appliance_port_config : json) : M reply :=
  with_kwargs (updateNetworkAppliancePort network_id) appliance_port_config.

Definition update_mx_uplinks (serial : json) (uplink_config : json) : M reply :=
  with_kwargs (updateDeviceApplianceUplinksSettings serial) uplink_config.
End Wrappers.
End meraki_functions.

(* ================================================================= *)
(** ** utils.py: the section appliers *)

Inductive Status : Type := Skipped | Success | Partial | Failure.

(** The second component of an applier's result: a value, or a formatted
    string kept as its literal pieces and interpolated values. *)
Inductive part : Type :=
| Lit (s : string)
| Interp (v : json)
| InterpTable (t : table).

Inductive Output : Type :=
| Value (v : json)
| FString (parts : list part).

Definition ref_not_found : Output := Value (JStr "Ref File not found... skipping.").

Module utils.
Section Appliers.
Variable w : world.

Definition enter (applier : string) : M unit := emit (Enter applier).

(** [load_ref_config]: the parsed fragment, or [None] ([JNull]) when the
    file does not exist. *)
Definition load_ref_config (filename : json) : M json :=
  match filename with
  | JStr f =>
      match files w f with
      | Missing => ret JNull
      | Malformed => raise
      | Fragment ref_config => ret ref_config
      end
  | _ => raise
  end.

(** The block repeated at every attachment point:
    [if "_ref" in config: config = load_ref_config(config["_ref"]);
     if not config: <not_found>], followed by the rest [k]. *)
Definition with_ref {A} (config : json) (not_found : M A) (k : json -> M A) : M A :=
  has_ref <- lift (py_in "_ref" config) ;;
  if has_ref : bool then
    filename <- lift (py_getitem "_ref" config) ;;
    config <- load_ref_config filename ;;
    if truthy config then k config else not_found
  else k config.

(** [separate_custom_fields(config)]: [.items()] needs a dict. *)
Definition separate (config : json) : M (dict * dict) :=
  match config with
  | JDict d => ret (separate_custom_fields d)
  | _ => raise
  end.

(** Result of a single update call. *)
Definition update_result (r : reply) : Status * Output :=
  match r with
  | Err _ message => (Failure, Value (JStr message))
  | Ok response => (Success, Value response)
  end.

Definition claim_devices (net_id : json) (config : json) : M (Status * Output) :=
  enter "claim" ;;;
  with_ref config (ret (Failure, ref_not_found)) (fun config =>
    serials <- lift (get_default "serials" (JList []) config) ;;
    r <- meraki_functions.claim_devices w net_id serials ;;
    match r with
    | Err _ message => ret (Failure, Value (JStr message))
    | Ok response =>
        emit (Sleep 120) ;;;
        ret (Success, Value response)
    end).

(** The name-to-id table of [firmware_upgrade], from the current and the
    available versions of every product of the reply. *)
Definition add_version (firmware_name_to_id : table) (version : json) : M table :=
  id <- lift (py_getitem "id" version) ;;
  shortName <- lift (py_getitem "shortName" version) ;;
  table_store shortName id firmware_name_to_id.

Definition firmware_table (response : json) : M table :=
  products <- lift (py_getitem "products" response) ;;
  names <- lift (py_iter products) ;;
  foreach names [] (fun firmware_name_to_id product =>
    info <- lift (py_subscript products product) ;;
    current_version <- lift (py_getitem "currentVersion" info) ;;
    firmware_name_to_id <- add_version firmware_name_to_id current_version ;;
    info <- lift (py_subscript products product) ;;
    available_versions <- lift (py_getitem "availableVersions" info) ;;
    versions <- lift (py_iter available_versions) ;;
    foreach versions firmware_name_to_id add_version).

(** State of the translation loop: the products (updated in place by the
    source), the short names translated so far, and the early return. *)
Record translation : Type := mkTranslation {
  tr_products : json;
  firmware_shortnames : list json;
  not_found : option json
}.

Definition translate_product (firmware_name_to_id : table)
           (acc : translation) (product : json) : M translation :=
  match not_found acc with
  | Some _ => ret acc
  | None =>
      let products := tr_products acc in
      product_upgrade <- lift (py_subscript products product) ;;
      has_next <- lift (py_in "nextUpgrade" product_upgrade) ;;
      if has_next : bool then
        nextUpgrade <- lift (py_getitem "nextUpgrade" product_upgrade) ;;
        has_to <- lift (py_in "toVersion" nextUpgrade) ;;
        if has_to : bool then
          toVersion <- lift (py_getitem "toVersion" nextUpgrade) ;;
          has_name <- lift (py_in "_name_id" toVersion) ;;
          if has_name : bool then
            shortname <- lift (py_getitem "_name_id" toVersion) ;;
            found <- table_has shortname firmware_name_to_id ;;
            if found : bool then
              match toVersion, nextUpgrade, product_upgrade,
                    table_get shortname firmware_name_to_id with
              | JDict tv, JDict nu, JDict pu, Some id =>
                  let tv := Dict.set "id" id (Dict.del "_name_id" tv) in
                  let nu := Dict.set "toVersion" (JDict tv) nu in
                  let pu := Dict.set "nextUpgrade" (JDict nu) pu in
                  ret {| tr_products := py_store products product (JDict pu);
                         firmware_shortnames := firmware_shortnames acc ++ [shortname];
                         not_found := None |}
              | _, _, _, _ => raise
              end
            else ret {| tr_products := products;
                        firmware_shortnames := firmware_shortnames acc;
                        not_found := Some shortname |}
          else ret acc
        else ret acc
      else ret acc
  end.

Definition firmware_upgrade (net_id : json) (config : json) : M (Status * Output) :=
  enter "firmware" ;;;
  with_ref config (ret (Failure, ref_not_found)) (fun config =>
    r <- meraki_functions.get_network_firmware_upgrades w net_id ;;
    match r with
    | Err _ message => ret (Failure, Value (JStr message))
    | Ok response =>
        firmware_name_to_id <- firmware_table response ;;
        has_products <- lift (py_in "products" config) ;;
        t <- (if has_products : bool then
                products <- lift (py_getitem "products" config) ;;
                names <- lift (py_iter products) ;;
                foreach names {| tr_products := products;
                                 firmware_shortnames := [];
                                 not_found := None |}
                        (translate_product firmware_name_to_id)
              else ret {| tr_products := JNull;
                          firmware_shortnames := [];
                          not_found := None |}) ;;
        match not_found t with
        | Some shortname =>
            ret (Failure,
                 FString [Lit "Unable to find version `"; Interp shortname;
                          Lit "` in available versions: ";
                          InterpTable firmware_name_to_id])
        | None =>
            let config := if has_products : bool
                          then py_store config (JStr "products") (tr_products t)
                          else config in
            r <- meraki_functions.trigger_network_firmware_upgrades w net_id config ;;
            match r with
            | Err _ message => ret (Failure, Value (JStr message))
            | Ok _ => ret (Success, Value (JList (firmware_shortnames t)))
            end
        end
    end).

(** One hub of [site_to_site_vpn_config]: the hub as left in the list
    (its [hubId] translated in place when known) and [valid_hubs]. *)
Definition translate_hub (net_name_to_id : dict)
           (acc : list json * list json) (hub : json) : M (list json * list json) :=
  let '(hubs, valid_hubs) := acc in
  hubId <- lift (get_default "hubId" JNull hub) ;;
  known <- (if truthy hubId
            then match hubId with
                 | JStr name => ret (Dict.has name net_name_to_id)
                 | JList _ | JDict _ => raise
                 | _ => ret false
                 end
            else ret false) ;;
  if known : bool then
    match hubId, hub with
    | JStr name, JDict h =>
        id <- lift (Dict.get name net_name_to_id) ;;
        let hub := JDict (Dict.set "hubId" id h) in
        ret (hubs ++ [hub], valid_hubs ++ [hub])
    | _, _ => raise
    end
  else ret (hubs ++ [hub], valid_hubs).

Definition site_to_site_vpn_config (net_id : json) (net_name_to_id : dict)
           (config : json) : M (Status * Output) :=
  enter "siteToSiteVPN" ;;;
  with_ref config (ret (Failure, ref_not_found)) (fun config =>
    mode <- lift (get_default "mode" (JStr "hub") config) ;;
    hubs <- lift (get_default "hubs" JNull config) ;;
    config <- (if eq_str mode "spoke" then
                 if truthy hubs then
                   match hubs with
                   | JList l =>
                       '(hubs, valid_hubs) <- foreach l ([], []) (translate_hub net_name_to_id) ;;
                       ret (py_store config (JStr "hubs") (JList hubs))
                   | _ => raise
                   end
                 else ret (py_store config (JStr "mode") (JStr "hub"))
               else ret config) ;;
    r <- meraki_functions.update_site_to_site_vpn w net_id config ;;
    ret (update_result r)).

Definition syslog_server_config (net_id : json) (config : json) : M (Status * Output) :=
  enter "syslog" ;;;
  with_ref config (ret (Failure, ref_not_found)) (fun config =>
    r <- meraki_functions.update_sys_log_servers w net_id config ;;
    ret (update_result r)).

(** The loaded fragment is bound to [syslog_config]; the update call
    receives [config]. *)
Definition snmp_config (net_id : json) (config : json) : M (Status * Output) :=
  enter "snmp" ;;;
  with_ref config (ret (Failure, ref_not_found)) (fun syslog_config =>
    r <- meraki_functions.update_snmp w net_id config ;;
    ret (update_result r)).

Definition amp_config (net_id : json) (config : json) : M (Status * Output) :=
  enter "amp" ;;;
  with_ref config (ret (Failure, ref_not_found)) (fun config =>
    r <- meraki_functions.update_malware_settings w net_id config ;;
    ret (update_result r)).

(** [{category['name']: category['id'] for category in ...}] and the
    like: a table from two fields of every element. *)
Definition table_of (key_field value_field : string) (elements : json) : M table :=
  items <- lift (py_iter elements) ;;
  foreach items [] (fun t item =>
    k <- lift (py_getitem key_field item) ;;
    v <- lift (py_getitem value_field item) ;;
    table_store k v t).

Definition content_filtering_config (net_id : json) (config : json) : M (Status * Output) :=
  enter "content_filtering" ;;;
  with_ref config (ret (Failure, ref_not_found)) (fun config =>
    '(custom_fields, remaining_fields) <- separate config ;;
    match Dict.get "_name_blockedUrlCategories" custom_fields with
    | Some blocked =>
        r <- meraki_functions.get_content_filtering_categories w net_id ;;
        match r with
        | Err _ message => ret (Failure, Value (JStr message))
        | Ok response =>
            categories <- lift (py_getitem "categories" response) ;;
            categories_map <- table_of "name" "id" categories ;;
            names <- lift (py_iter blocked) ;;
            ids <- foreach names [] (fun ids name =>
                     known <- table_has name categories_map ;;
                     match table_get name categories_map with
                     | Some id => ret (if known : bool then ids ++ [id] else ids)
                     | None => ret ids
                     end) ;;
            let remaining_fields :=
              Dict.set "blockedUrlCategories" (JList ids) remaining_fields in
            r <- meraki_functions.update_content_filtering_settings w net_id
                   (JDict remaining_fields) ;;
            ret (update_result r)
        end
    | None =>
        r <- meraki_functions.update_content_filtering_settings w net_id
               (JDict remaining_fields) ;;
        ret (update_result r)
    end).

(** The [_dhcp] part of one VLAN. *)
Definition vlan_dhcp (net_id : json) (custom_fields : dict) (new_vlan : json)
           (status : Status) (vpn_subnets : list json) : M (Status * list json) :=
  match Dict.get "_dhcp" custom_fields with
  | Some dhcp_config =>
      with_ref dhcp_config (ret (Partial, vpn_subnets)) (fun dhcp_config =>
        vlan_id <- lift (py_getitem "id" new_vlan) ;;
        r <- meraki_functions.update_vlan w net_id vlan_id dhcp_config ;;
        match r with
        | Err _ _ => ret (Partial, vpn_subnets)
        | Ok _ => ret (status, vpn_subnets)
        end)
  | None => ret (status, vpn_subnets)
  end.

(** The [_vpn] part of one VLAN, followed by its [_dhcp] part. *)
Definition vlan_vpn (net_id : json) (custom_fields : dict) (new_vlan : json)
           (status : Status) (vpn_subnets : list json) : M (Status * list json) :=
  match Dict.get "_vpn" custom_fields with
  | Some vpn_config =>
      with_ref vpn_config (ret (Partial, vpn_subnets)) (fun vpn_config =>
        useVpn <- lift (get_default "useVpn" (JBool false) vpn_config) ;;
        subnet <- lift (py_getitem "subnet" new_vlan) ;;
        vlan_dhcp net_id custom_fields new_vlan status
          (vpn_subnets ++ [JDict [("localSubnet", subnet); ("useVpn", useVpn)]]))
  | None => vlan_dhcp net_id custom_fields new_vlan status vpn_subnets
  end.

(** Body of the loop of [vlans_config]; every [continue] returns the
    state for the next item. *)
Definition vlan_item (net_id : json) (net_policy_groups : table)
           (acc : Status * list json) (vlan_config : json) : M (Status * list json) :=
  let '(status, vpn_subnets) := acc in
  with_ref vlan_config (ret (Partial, vpn_subnets)) (fun vlan_config =>
    '(custom_fields, remaining_fields) <- separate vlan_config ;;
    remaining_fields <-
      match Dict.get "_name_groupPolicyId" custom_fields with
      | Some name =>
          known <- table_has name net_policy_groups ;;
          match table_get name net_policy_groups with
          | Some id =>
              ret (if known : bool
                   then Dict.set "groupPolicyId" id remaining_fields
                   else remaining_fields)
          | None => ret remaining_fields
          end
      | None => ret remaining_fields
      end ;;
    r <- meraki_functions.create_vlan w net_id remaining_fields ;;
    match r with
    | Err _ _ => ret (Partial, vpn_subnets)
    | Ok new_vlan =>
        _ <- lift (py_getitem "id" new_vlan) ;;
        vlan_vpn net_id custom_fields new_vlan status vpn_subnets
    end).

(** The batched VPN-subnet update after the loop. *)
Definition vlans_vpn (net_id : json) (status : Status) (vpn_subnets : list json) : M Status :=
  match vpn_subnets with
  | [] => ret status
  | _ :: _ =>
      r <- meraki_functions.get_site_to_site_vpn w net_id ;;
      match r with
      | Err _ _ => ret Partial
      | Ok response =>
          mode <- lift (py_getitem "mode" response) ;;
          if eq_str mode "none" then ret Partial
          else
            subnets <- lift (py_getitem "subnets" response) ;;
            match subnets with
            | JList l =>
                r <- meraki_functions.update_site_to_site_vpn w net_id
                       (py_store response (JStr "subnets") (JList (l ++ vpn_subnets))) ;;
                match r with
                | Err _ _ => ret Partial
                | Ok _ => ret status
                end
            | _ => raise
            end
      end
  end.

Definition vlans_config (net_id : json) (config : json) : M (Status * Output) :=
  enter "vlans" ;;;
  r <- meraki_functions.get_network_group_policies w net_id ;;
  match r with
  | Err _ net_policies =>
      ret (Failure, FString [Lit "Group Policies (Failure): ";
                             Interp (JStr net_policies); Lit (String "010" "")])
  | Ok net_policies =>
      net_policy_groups <- table_of "name" "groupPolicyId" net_policies ;;
      items <- lift (py_iter config) ;;
      '(status, vpn_subnets) <- foreach items (Success, []) (vlan_item net_id net_policy_groups) ;;
      status <- vlans_vpn net_id status vpn_subnets ;;
      r <- meraki_functions.get_vlans w net_id ;;
      ret (status, Value (response_of r))
  end.

Definition per_port_item (net_id : json) (status : Status) (per_port_config : json) : M Status :=
  with_ref per_port_config (ret Partial) (fun per_port_config =>
    r <- meraki_functions.update_network_appliance_port w net_id per_port_config ;;
    match r with
    | Err _ _ => ret Partial
    | Ok _ => ret status
    end).

Definition vlan_per_port_config (net_id : json) (config : json) : M (Status * Output) :=
  enter "vlan_per_port" ;;;
  items <- lift (py_iter config) ;;
  status <- foreach items Success (per_port_item net_id) ;;
  r <- meraki_functions.get_network_appliance_ports w net_id ;;
  ret (status, Value (response_of r)).

(** The [_mx_uplinks] part of one device. *)
Definition device_uplinks (serial : json) (custom_fields : dict) (status : Status) : M Status :=
  match Dict.get "_mx_uplinks" custom_fields with
  | Some mx_uplink_config =>
      with_ref mx_uplink_config (ret Partial) (fun mx_uplink_config =>
        r <- meraki_functions.update_mx_uplinks w serial mx_uplink_config ;;
        match r with
        | Err _ _ => ret Partial
        | Ok _ => ret status
        end)
  | None => ret status
  end.

Definition device_item (status : Status) (device_config : json) : M Status :=
  with_ref device_config (ret Partial) (fun device_config =>
    has_serial <- lift (py_in "serial" device_config) ;;
    if has_serial : bool then
      serial <- lift (py_getitem "serial" device_config) ;;
      '(custom_fields, remaining_fields) <-
        separate (match device_config with
                  | JDict d => JDict (Dict.del "serial" d)
                  | other => other
                  end) ;;
      r <- meraki_functions.update_device w serial (JDict remaining_fields) ;;
      match r with
      | Err _ _ => ret Partial
      | Ok _ => device_uplinks serial custom_fields status
      end
    else ret Partial).

Definition devices_config (net_id : json) (config : json) : M (Status * Output) :=
  enter "devices" ;;;
  items <- lift (py_iter config) ;;
  status <- foreach items Success device_item ;;
  r <- meraki_functions.get_network_devices w net_id ;;
  ret (status, Value (response_of r)).

(** The [_uplink_bandwidth] part: a fragment that is not found sets
    [Partial] and the update call is still made, with what was loaded. *)
Definition uplink_bandwidth (net_id : json) (bandwidth_config : json) : M Status :=
  has_ref <- lift (py_in "_ref" bandwidth_config) ;;
  '(status, bandwidth_config) <-
    (if has_ref : bool then
       filename <- lift (py_getitem "_ref" bandwidth_config) ;;
       bandwidth_config <- load_ref_config filename ;;
       ret (if truthy bandwidth_config then Success else Partial, bandwidth_config)
     else ret (Success, bandwidth_config)) ;;
  r <- meraki_functions.update_traffic_shaping_uplink_bandwidth_settings w net_id
         bandwidth_config ;;
  match r with
  | Err _ _ => ret Partial
  | Ok _ => ret status
  end.

Definition traffic_shaping_config (net_id : json) (config : json) : M (Status * Output) :=
  enter "traffic_shaping" ;;;
  with_ref config (ret (Failure, ref_not_found)) (fun config =>
    '(custom_fields, remaining_fields) <- separate config ;;
    status <- match Dict.get "_uplink_bandwidth" custom_fields with
              | Some bandwidth_config => uplink_bandwidth net_id bandwidth_config
              | None => ret Success
              end ;;
    r <- meraki_functions.get_uplink_bandwidth w net_id ;;
    ret (status, Value (JDict [("uplink_bandwidth", response_of r)]))).
End Appliers.
End utils.

(* ================================================================= *)
(** ** setup.py: the network builder *)

(** [{"status": ..., "output": ...}] *)
Record entry : Type := mkEntry {
  status : Status;
  output : option Output
}.

(** [{"_name": ..., "settings": {...}}] *)
Record completion : Type := mkCompletion {
  _name : json;
  settings : dict_of entry
}.

(** The sections the builder knows. *)
Inductive section : Type :=
| claim | firmware | siteToSiteVPN | amp | content_filtering | syslog | snmp
| vlans | vlan_per_port | devices | traffic_shaping.

Module setup.
Section Builder.
Variable w : world.

(** The [if setting == ... elif ...] chain: the section a key names, none
    for an unknown option. *)
Definition section_of (setting : string) : option section :=
  if String.eqb setting "claim" then Some claim
  else if String.eqb setting "firmware" then Some firmware
  else if String.eqb setting "siteToSiteVPN" then Some siteToSiteVPN
  else if String.eqb setting "amp" then Some amp
  else if String.eqb setting "content_filtering" then Some content_filtering
  else if String.eqb setting "syslog" then Some syslog
  else if String.eqb setting "snmp" then Some snmp
  else if String.eqb setting "vlans" then Some vlans
  else if String.eqb setting "vlan_per_port" then Some vlan_per_port
  else if String.eqb setting "devices" then Some devices
  else if String.eqb setting "traffic_shaping" then Some traffic_shaping
  else None.

(** The applier each branch of the chain calls. *)
Definition applier (s : section) : json -> json -> M (Status * Output) :=
  match s with
  | claim => utils.claim_devices w
  | firmware => utils.firmware_upgrade w
  | siteToSiteVPN =>
      fun net_id config =>
        utils.site_to_site_vpn_config w net_id (net_name_to_id w) config
  | amp => utils.amp_config w
  | content_filtering => utils.content_filtering_config w
  | syslog => utils.syslog_server_config w
  | snmp => utils.snmp_config w
  | vlans => utils.vlans_config w
  | vlan_per_port => utils.vlan_per_port_config w
  | devices => utils.devices_config w
  | traffic_shaping => utils.traffic_shaping_config w
  end.

(** Body of [for setting in remaining_settings]. *)
Definition apply_setting (net_id : json) (network_config : dict)
           (completion_status : completion) (setting : string) : M completion :=
  match section_of setting with
  | Some s =>
      config <- lift (Dict.get setting network_config) ;;
      '(status, output) <- applier s net_id config ;;
      ret {| _name := _name completion_status;
             settings := Dict.set setting {| status := status; output := Some output |}
                                  (settings completion_status) |}
  | None => ret completion_status
  end.

Definition skipped : entry := {| status := Skipped; output := None |}.

(** [if copy_from_id: metadata['copyFromNetworkId'] = copy_from_id] *)
Definition attach_copy_from (copy_from_id : json) (metadata : json) : json :=
  if truthy copy_from_id
  then py_store metadata (JStr "copyFromNetworkId") copy_from_id
  else metadata.

(** The record before the section loop: creation recorded, every
    remaining key [Skipped]. *)
Definition initial_status (name response : json) (remaining_settings : list string) : completion :=
  {| _name := name;
     settings := fold_left (fun s setting => Dict.set setting skipped s)
                           remaining_settings
                           [("creation", {| status := Success;
                                            output := Some (Value response) |})] |}.

(** The record returned when the metadata check fails. *)
Definition not_created : completion :=
  {| _name := JStr "N/A";
     settings := [("creation", {| status := Failure; output := None |})] |}.

Definition build_new_network (copy_from_id : json) (network_config : dict) : M completion :=
  let completion_status := not_created in
  let metadata := match Dict.get "metadata" network_config with
                  | Some m => m
                  | None => JNull
                  end in
  if negb (truthy metadata) then ret completion_status
  else
    has_name <- lift (py_in "name" metadata) ;;
    has_fields <- (if has_name : bool
                   then lift (py_in "productTypes" metadata)
                   else ret false) ;;
    if negb has_fields then ret completion_status
    else
      name <- lift (py_getitem "name" metadata) ;;
      let metadata := attach_copy_from copy_from_id metadata in
      r <- meraki_functions.create_network w metadata (net_name_to_id w) ;;
      match r with
      | Err _ response =>
          ret {| _name := name;
                 settings := [("creation", {| status := Failure;
                                              output := Some (Value (JStr response)) |})] |}
      | Ok response =>
          net_id <- lift (py_getitem "id" response) ;;
          let network_config := Dict.del "metadata" network_config in
          let remaining_settings := Dict.keys network_config in
          name <- lift (py_getitem "name" response) ;;
          foreach remaining_settings (initial_status name response remaining_settings)
                  (apply_setting net_id network_config)
      end.
End Builder.

(** *** The completion report of [main] *)

Module StringOrder <: TotalLeBool.
Definition t := string.
Definition leb := String.leb.
Definition leb_total : forall a1 a2, leb a1 a2 = true \/ leb a2 a1 = true :=
  String.leb_total.
End StringOrder.

Module StringSort := Sort StringOrder.

(** [sorted(...)] on strings. *)
Definition sorted (l : list string) : list string := StringSort.sort l.

(** [unique_settings.update(keys)] on a set kept as a duplicate-free list. *)
Definition update (unique_settings keys : list string) : list string :=
  fold_left (fun acc k => if existsb (String.eqb k) acc then acc else acc ++ [k])
            keys unique_settings.

Definition unique_settings (completions : list completion) : list string :=
  fold_left (fun acc completion_result => update acc (Dict.keys (settings completion_result)))
            completions [].

(** The columns after the network name. *)
Definition columns (completions : list completion) : list string :=
  sorted (unique_settings completions).

Definition status_text (value : Status) : string :=
  match value with
  | Skipped => "Skipped"
  | Success => "Success"
  | Partial => "Partial"
  | Failure => "Failure"
  end.

Definition value_style (value : Status) : string :=
  match value with
  | Success => "green"
  | Partial => "yellow"
  | _ => "red"
  end.

(** One cell: the styled status, or the empty string when the network has
    no entry under that column. *)
Definition cell (completion : completion) (key : string) : string :=
  match Dict.get key (settings completion) with
  | Some e =>
      let value := status e in
      "[" ++ value_style value ++ "]" ++ status_text value ++ "[/" ++ value_style value ++ "]"
  | None => ""
  end.

Definition row (headers : list string) (completion : completion) : json * list string :=
  (_name completion, map (cell completion) headers).

Definition rows (completions : list completion) : list (json * list string) :=
  map (row (columns completions)) completions.
End setup.

(* ================================================================= *)
(** ** Configuration templates: binding a network to a template *)

(** [a == b] on parsed values: lists element by element, dicts key by
    key whatever the order, [True] and [1] alike. *)
Fixpoint py_eq (a b : json) {struct a} : bool :=
  match a, b with
  | JNull, JNull => true
  | JStr s, JStr t => String.eqb s t
  | JList l, JList m =>
      (fix elements (l m : list json) {struct l} : bool :=
         match l, m with
         | [], [] => true
         | x :: l', y :: m' => py_eq x y && elements l' m'
         | _, _ => false
         end) l m
  | JDict d, JDict e =>
      Nat.eqb (List.length d) (List.length e) &&
      (fix entries (d : list (string * json)) {struct d} : bool :=
         match d with
         | [] => true
         | (k, x) :: d' =>
             match Dict.get k e with
             | Some y => py_eq x y && entries d'
             | None => false
             end
         end) d
  | _, _ =>
      match as_int a, as_int b with
      | Some m, Some n => Z.eqb m n
      | _, _ => false
      end
  end.

Module config_templates.
Section Templates.
Variable w : world.

(** The two SDK operations of the template binding,
    [dashboard.networks.unbindNetwork] and [dashboard.networks.bindNetwork]:
    what the backend answers to the call, knowing what the task did
    before. *)
Variable unbindNetwork bindNetwork : json -> dict -> trace -> sdk_result.

Definition unbind_network (network_id : json) (unbind_config : json) : M reply :=
  match unbind_config with
  | JDict kwargs =>
      fun tr => (Ret (meraki_functions.guarded (unbindNetwork network_id kwargs tr)), tr)
  | _ => ret (Err Code500 mapping_error)
  end.

Definition bind_network (network_id : json) (bind_config : json) : M reply :=
  match bind_config with
  | JDict kwargs =>
      fun tr => (Ret (meraki_functions.guarded (bindNetwork network_id kwargs tr)), tr)
  | _ => ret (Err Code500 mapping_error)
  end.

(** [apply_config_template]: the two mappings are tables from network id
    to the name of the template bound to it and from template name to
    template id. *)
Definition apply_config_template (net_id : json)
           (net_id_to_config_template template_name_to_id : table)
           (config : json) : M (Status * Output) :=
  utils.enter "apply_config_template" ;;;
  utils.with_ref w config (ret (Failure, ref_not_found)) (fun config =>
    '(custom_fields, remaining_fields) <- utils.separate config ;;
    bound <- table_has net_id net_id_to_config_template ;;
    returned <-
      (if bound : bool then
         current <- lift (table_get net_id net_id_to_config_template) ;;
         name <- lift (Dict.get "_name_template" custom_fields) ;;
         if negb (py_eq current name) then
           let unbind_payload :=
             match Dict.get "_unbind" custom_fields with
             | Some p => p
             | None => JDict []
             end in
           r <- unbind_network net_id unbind_payload ;;
           match r with
           | Err _ message => ret (Some (Failure, Value (JStr message)))
           | Ok _ => ret None
           end
         else
           name <- lift (Dict.get "_name_template" custom_fields) ;;
           ret (Some (Success,
                      FString [Lit "Template `"; Interp name; Lit "` Already Applied."]))
       else ret None) ;;
    match returned with
    | Some result => ret result
    | None =>
        name <- lift (Dict.get "_name_template" custom_fields) ;;
        if py_eq name (JStr "") then ret (Success, Value (JStr "Unbind Only"))
        else
          known <- table_has name template_name_to_id ;;
          if negb known
          then ret (Failure, Value (JStr "Template Not Found... skipping."))
          else
            id <- lift (table_get name template_name_to_id) ;;
            let remaining_fields := Dict.set "configTemplateId" id remaining_fields in
            r <- bind_network net_id (JDict remaining_fields) ;;
            ret (utils.update_result r)
    end).

End Templates.
End config_templates.

(* ================================================================= *)
(** ** drivers/minified_mx_mg.py: ordering the sections of a network *)

Module minified_mx_mg.

(** The largest index a list method takes ([sys.maxsize] on a 64-bit
    build); an integer beyond it in either direction makes the method
    raise [OverflowError]. *)
Definition ssize_max : Z := 2 ^ 63 - 1.

(** [l.insert(pos, x)]: a negative position counts from the end, and a
    position beyond either end is clamped to it. *)
Definition list_insert {A} (pos : Z) (x : A) (l : list A) : option (list A) :=
  if ((- ssize_max - 1 <=? pos) && (pos <=? ssize_max))%Z then
    let n := Z.of_nat (List.length l) in
    let i := Z.to_nat (if (pos <? 0)%Z then Z.max 0 (pos + n) else Z.min pos n) in
    Some (firstn i l ++ x :: skipn i l)
  else None.

(** [dict(items)]: a key met again keeps its place and takes the later
    value. *)
Definition dict_of_items (items : list (string * json)) : dict :=
  fold_left (fun d kv => Dict.set (fst kv) (snd kv) d) items [].

Definition insert_into_specific_dict_position
           (current_dict : dict) (pos : Z) (key : string) (value : json) : option dict :=
  let items := current_dict in
  match list_insert pos (key, value) items with
  | Some items => Some (dict_of_items items)
  | None => None
  end.

(** The final actions of [parse_excel_to_json] on the network being
    assembled, before it is appended to the document. *)
Definition final_actions (current_network : dict) (claim_serials devices : list json)
           (firmware : json) : option dict :=
  match
    (if (0 <? List.length claim_serials)%nat
     then insert_into_specific_dict_position current_network 1 "claim"
            (JDict [("serials", JList claim_serials)])
     else Some current_network)
  with
  | Some current_network =>
      match
        (if (0 <? List.length devices)%nat
         then insert_into_specific_dict_position current_network 2 "devices" (JList devices)
         else Some current_network)
      with
      | Some current_network => Some (Dict.set "firmware" firmware current_network)
      | None => None
      end
  | None => None
  end.

End minified_mx_mg.

(* ================================================================= *)
(** ** Vocabulary of the statements *)

(** The two sides of the custom-field partition. *)
Definition custom_entry (kv : string * json) : bool := is_custom (fst kv).
Definition plain_entry (kv : string * json) : bool := negb (is_custom (fst kv)).

(** The appliers entered along a trace, in order. *)
Definition entered (tr : trace) : list string :=
  flat_map (fun e => match e with Enter a => [a] | _ => [] end) tr.

(** The SDK operations invoked along a trace, in order. *)
Definition calls (tr : trace) : list call :=
  flat_map (fun e => match e with Call c => [c] | _ => [] end) tr.

(** A computation that enters no applier. *)
Definition quiet {A} (m : M A) : Prop :=
  forall tr, entered (snd (m tr)) = entered tr.

(** A computation that touches neither the backend nor the trace. *)
Definition silent {A} (m : M A) : Prop :=
  forall tr, snd (m tr) = tr.


(** [{"_ref": f, ...}] where file [f] holds the (truthy) fragment [content]. *)
Definition loads (w : world) (v content : json) : Prop :=
  exists d f, v = JDict d /\ Dict.get "_ref" d = Some (JStr f) /\
              files w f = Fragment content /\ truthy content = true.

(** A computation that enters exactly the applier [name]. *)
Definition enters {A} (name : string) (m : M A) : Prop :=
  forall tr, entered (snd (m tr)) = entered tr ++ [name].

(** The key under which the builder dispatches to a section. *)
Definition section_key (s : section) : string :=
  match s with
  | claim => "claim"
  | firmware => "firmware"
  | siteToSiteVPN => "siteToSiteVPN"
  | amp => "amp"
  | content_filtering => "content_filtering"
  | syslog => "syslog"
  | snmp => "snmp"
  | vlans => "vlans"
  | vlan_per_port => "vlan_per_port"
  | devices => "devices"
  | traffic_shaping => "traffic_shaping"
  end.

(** The keys of a document that name a section. *)
Definition is_section (setting : string) : bool :=
  match setup.section_of setting with Some _ => true | None => false end.

(** The precedence list of the specification, and the test that a
    sequence of section keys follows it. *)
Definition spec_precedence : list string :=
  ["claim"; "firmware"; "siteToSiteVPN"; "amp"; "content_filtering"; "syslog";
   "snmp"; "vlans"; "vlan_per_port"; "devices"; "traffic_shaping"].

Fixpoint rank_in (l : list string) (s : string) : nat :=
  match l with
  | [] => 0
  | x :: rest => if String.eqb s x then 0 else S (rank_in rest s)
  end.

Fixpoint follows_precedence (l : list string) : bool :=
  match l with
  | a :: (b :: _) as rest =>
      Nat.ltb (rank_in spec_precedence a) (rank_in spec_precedence b)
      && follows_precedence rest
  | _ => true
  end.

(** *** Sample worlds *)

(** A backend that accepts everything; a created network gets an id. *)
Definition accepting : oracle := fun _ c =>
  match c with
  | createOrganizationNetwork kwargs => Returns (JDict (("id", JStr "N_1") :: kwargs))
  | createNetworkApplianceVlan _ kwargs => Returns (JDict kwargs)
  | getNetworkGroupPolicies _ => Returns (JList [])
  | _ => Returns (JDict [])
  end.

(** A backend whose every operation fails in the client. *)
Definition unreachable : oracle := fun _ _ => RaisesException "connection refused".

(** A backend that rejects every request with a 400. *)
Definition rejecting : oracle := fun _ _ =>
  RaisesAPIError {| status_code := 400%positive;
                    first_error := Some "Invalid request";
                    text := "400 Bad Request" |}.

Definition no_files : string -> file := fun _ => Missing.

Definition fresh_org : world :=
  {| backend := accepting; files := no_files; net_name_to_id := [] |}.

Definition offline_org : world :=
  {| backend := unreachable; files := no_files; net_name_to_id := [] |}.

Definition strict_org : world :=
  {| backend := rejecting; files := no_files; net_name_to_id := [] |}.

(** An organisation where the network exists already: creation answers
    that the name is taken, the update answers [update_answer]. *)
Definition taken_error : APIError :=
  {| status_code := 400%positive;
     first_error := Some "Name has already been taken";
     text := "400 Bad Request, Name has already been taken" |}.

Definition existing (update_answer : sdk_result) : oracle := fun _ c =>
  match c with
  | createOrganizationNetwork _ => RaisesAPIError taken_error
  | updateNetwork _ _ => update_answer
  | getNetworkGroupPolicies _ => Returns (JList [])
  | _ => Returns (JDict [])
  end.

Definition known_org (update_answer : sdk_result) : world :=
  {| backend := existing update_answer;
     files := no_files;
     net_name_to_id := [("Branch1", JStr "N_7")] |}.

(** A configuration directory holding the single fragment [name]. *)
Definition only_file (name : string) (content : json) : string -> file :=
  fun f => if String.eqb f name then Fragment content else Missing.

Definition org_with_file (name : string) (content : json) : world :=
  {| backend := accepting; files := only_file name content; net_name_to_id := [] |}.

Definition snmp_fragment : json :=
  JDict [("access", JStr "community"); ("communityString", JStr "public")].

(** A completion record with the given statuses and no outputs. *)
Definition recorded (name : string) (statuses : list (string * Status)) : completion :=
  {| _name := JStr name;
     settings := map (fun ks => (fst ks, {| status := snd ks; output := None |})) statuses |}.

(** The text of a cell that shows a status. *)
Definition styled (value : Status) : string :=
  "[" ++ setup.value_style value ++ "]" ++ setup.status_text value
      ++ "[/" ++ setup.value_style value ++ "]".

(** An organisation whose appliance runs MX 17 and may go to MX 18.1. *)
Definition firmware_catalog : json :=
  JDict [("products",
          JDict [("appliance",
                  JDict [("currentVersion",
                          JDict [("id", JNum 2000); ("shortName", JStr "MX 17")]);
                         ("availableVersions",
                          JList [JDict [("id", JNum 2128);
                                        ("shortName", JStr "MX 18.1")]])])])].

Definition firmware_versions : table :=
  [(JStr "MX 17", JNum 2000); (JStr "MX 18.1", JNum 2128)].

Definition firmware_backend : oracle := fun _ c =>
  match c with
  | getNetworkFirmwareUpgrades _ => Returns firmware_catalog
  | _ => Returns (JDict [])
  end.

Definition firmware_org : world :=
  {| backend := firmware_backend; files := no_files; net_name_to_id := [] |}.

(** The appliance asked to go to the version called [name]. *)
Definition appliance_request (name : string) : json :=
  JDict [("nextUpgrade", JDict [("toVersion", JDict [("_name_id", JStr name)])])].

Definition upgrade_section (name : string) : dict :=
  [("products", JDict [("appliance", appliance_request name)])].

Definition branch_metadata : json :=
  JDict [("name", JStr "Branch1"); ("productTypes", JList [JStr "appliance"])].

(** Every value a computation returns satisfies [P]. *)
Definition ends {A} (P : A -> Prop) (m : M A) : Prop :=
  forall tr a tr', m tr = (Ret a, tr') -> P a.

(** The sections whose applier resolves a [_ref] at its entry; the other
    three take a list and resolve it per item. *)
Definition entry_ref (s : section) : bool :=
  match s with
  | vlans | vlan_per_port | devices => false
  | _ => true
  end.






(** A computation whose result does not depend on the trace and that adds
    nothing to it. *)
Definition pure {A} (m : M A) : Prop :=
  forall tr, m tr = (fst (m []), tr).

(** The payload an applier works on after the check for [_ref]: the
    payload itself when it is a dict without [_ref], or the fragment it
    names. *)
Definition resolves_to (w : world) (config resolved : json) : Prop :=
  (exists d, config = JDict d /\ Dict.has "_ref" d = false /\ resolved = config) \/
  loads w config resolved.

(** *** Firmware requests *)

(** [product_upgrade['nextUpgrade']['toVersion']], when both keys exist. *)
Definition to_version (product_upgrade : json) : option json :=
  match py_getitem "nextUpgrade" product_upgrade with
  | Some nextUpgrade => py_getitem "toVersion" nextUpgrade
  | None => None
  end.

(** The version name a product asks for, if it asks by name. *)
Definition requested (product_upgrade : json) : option json :=
  match to_version product_upgrade with
  | Some toVersion => py_getitem "_name_id" toVersion
  | None => None
  end.

(** The id a product's target version carries. *)
Definition version_id (product_upgrade : json) : option json :=
  match to_version product_upgrade with
  | Some toVersion => py_getitem "id" toVersion
  | None => None
  end.

(** A product entry made of JSON objects down to the requested name. *)
Definition request_shape (product_upgrade : json) : bool :=
  match product_upgrade with
  | JDict pu =>
      match Dict.get "nextUpgrade" pu with
      | None => true
      | Some (JDict nu) =>
          match Dict.get "toVersion" nu with
          | None => true
          | Some (JDict tv) =>
              match Dict.get "_name_id" tv with
              | None => true
              | Some shortname => hashable shortname
              end
          | Some _ => false
          end
      | Some _ => false
      end
  | _ => false
  end.

(** The product entry with [_name_id] removed and [id] set. *)
Definition with_version_id (id : json) (product_upgrade : json) : json :=
  match product_upgrade with
  | JDict pu =>
      match Dict.get "nextUpgrade" pu with
      | Some (JDict nu) =>
          match Dict.get "toVersion" nu with
          | Some (JDict tv) =>
              JDict (Dict.set "nextUpgrade"
                       (JDict (Dict.set "toVersion"
                                 (JDict (Dict.set "id" id (Dict.del "_name_id" tv))) nu))
                       pu)
          | _ => product_upgrade
          end
      | _ => product_upgrade
      end
  | _ => product_upgrade
  end.

(** The translation of the specification, product by product: the
    products after translation, the names translated, and the first name
    the table does not know, at which the translation stops. *)
Fixpoint spec_translate (firmware_name_to_id : table) (products : dict)
  : dict * list json * option json :=
  match products with
  | [] => ([], [], None)
  | (product, product_upgrade) :: rest =>
      match requested product_upgrade with
      | None =>
          let '(done, names, unknown) := spec_translate firmware_name_to_id rest in
          ((product, product_upgrade) :: done, names, unknown)
      | Some shortname =>
          match table_get shortname firmware_name_to_id with
          | Some id =>
              let '(done, names, unknown) := spec_translate firmware_name_to_id rest in
              ((product, with_version_id id product_upgrade) :: done,
               shortname :: names, unknown)
          | None => ((product, product_upgrade) :: rest, [], Some shortname)
          end
      end
  end.

(** *** Tables read off backend replies *)

(** What a mapping filled pair by pair holds for a key: the value of
    the last pair whose key equals it. *)
Fixpoint last_assigned (k : json) (pairs : list (json * json)) : option json :=
  match pairs with
  | [] => None
  | (k', v) :: rest =>
      match last_assigned k rest with
      | Some v' => Some v'
      | None => if key_eqb k k' then Some v else None
      end
  end.

(** The mapping after the pairs were stored one by one. *)
Definition filled (pairs : list (json * json)) : table :=
  fold_left (fun t kv => table_set (fst kv) (snd kv) t) pairs [].

(** The pairs a reply lists under two fields of its elements, when every
    element has both fields and the first can be a key. *)
Fixpoint field_pairs (key_field value_field : string) (elements : list json)
  : option (list (json * json)) :=
  match elements with
  | [] => Some []
  | element :: rest =>
      match py_getitem key_field element, py_getitem value_field element,
            field_pairs key_field value_field rest with
      | Some k, Some v, Some pairs => if hashable k then Some ((k, v) :: pairs) else None
      | _, _, _ => None
      end
  end.

(** The versions one product of a firmware catalog lists, by short name
    and id: the current version, then the available ones. *)
Definition product_versions (info : json) : option (list (json * json)) :=
  match py_getitem "currentVersion" info, py_getitem "availableVersions" info with
  | Some current_version, Some (JList available_versions) =>
      field_pairs "shortName" "id" (current_version :: available_versions)
  | _, _ => None
  end.

(** The versions a fetched catalog lists, product after product. *)
Fixpoint listed_versions (catalog : dict) : option (list (json * json)) :=
  match catalog with
  | [] => Some []
  | (_, info) :: rest =>
      match product_versions info, listed_versions rest with
      | Some versions, Some others => Some (versions ++ others)
      | _, _ => None
      end
  end.

(** The ids a list of pairs gives for a list of names, in the order of
    the names, a name without a pair left out. *)
Definition assigned_ids (pairs : list (json * json)) (names : list json) : list json :=
  flat_map (fun name => match last_assigned name pairs with
                        | Some id => [id]
                        | None => []
                        end) names.

(** *** More sample worlds *)

(** A backend on which VLAN 10 exists: creating it answers that the id is
    taken, updating it echoes the update. *)
Definition vlan_taken_error : APIError :=
  {| status_code := 400%positive;
     first_error := Some "Vlan has already been taken";
     text := "400 Bad Request, Vlan has already been taken" |}.

Definition vlan_exists : oracle := fun _ c =>
  match c with
  | createNetworkApplianceVlan _ _ => RaisesAPIError vlan_taken_error
  | updateNetworkApplianceVlan _ vlan_id kwargs => Returns (JDict (("id", vlan_id) :: kwargs))
  | getNetworkGroupPolicies _ => Returns (JList [])
  | _ => Returns (JDict [])
  end.

Definition vlan_org : world :=
  {| backend := vlan_exists; files := no_files; net_name_to_id := [] |}.

(** The network exists on the backend but the cache was built before. *)
Definition stale_org : world :=
  {| backend := existing (Returns (JDict [])); files := no_files; net_name_to_id := [] |}.

(** A backend that has the appliance on the requested version already. *)
Definition up_to_date_error : APIError :=
  {| status_code := 400%positive;
     first_error := Some "Network is already on this version";
     text := "400 Bad Request, Network is already on this version" |}.

Definition current_backend : oracle := fun _ c =>
  match c with
  | getNetworkFirmwareUpgrades _ => Returns firmware_catalog
  | updateNetworkFirmwareUpgrades _ _ => RaisesAPIError up_to_date_error
  | _ => Returns (JDict [])
  end.

Definition current_org : world :=
  {| backend := current_backend; files := no_files; net_name_to_id := [] |}.

(** A backend with two content-filtering categories. *)
Definition category_catalog : json :=
  JDict [("categories",
          JList [JDict [("id", JStr "meraki:contentFiltering/category/C1");
                        ("name", JStr "Adult")];
                 JDict [("id", JStr "meraki:contentFiltering/category/C6");
                        ("name", JStr "Gambling")]])].

Definition category_backend : oracle := fun _ c =>
  match c with
  | getNetworkApplianceContentFilteringCategories _ => Returns category_catalog
  | _ => Returns (JDict [])
  end.

Definition category_org : world :=
  {| backend := category_backend; files := no_files; net_name_to_id := [] |}.

(** The version names the products of a section ask for, in order. *)
Definition requested_names (products : dict) : list json :=
  flat_map (fun kv => match requested (snd kv) with Some s => [s] | None => [] end)
           products.

(** The ids a table gives for a list of names, unknown names left out. *)
Definition known_ids (t : table) (names : list json) : list json :=
  flat_map (fun name => match table_get name t with Some id => [id] | None => [] end)
           names.

(** The statuses a list applier can end with once its items are
    visited. *)
Definition settled (status : Status) : Prop := status = Success \/ status = Partial.

(** A computation that only appends to the trace. *)
Definition grows {A} (m : M A) : Prop :=
  forall tr, exists rest, snd (m tr) = tr ++ rest.

(** A hub of a spoke as the update receives it: a hub whose [hubId] is
    a non-empty name of the cache carries the id, any other hub is as
    written. *)
Definition sent_hub (cache : dict) (hub : json) : json :=
  match hub with
  | JDict h =>
      match Dict.get "hubId" h with
      | Some (JStr name) =>
          if truthy (JStr name) then
            match Dict.get name cache with
            | Some id => JDict (Dict.set "hubId" id h)
            | None => hub
            end
          else hub
      | _ => hub
      end
  | _ => hub
  end.

(** A hub entry the loop can read: an object whose [hubId], when
    present, can be looked up in the cache. *)
Definition hub_entry (hub : json) : bool :=
  match hub with
  | JDict h => match Dict.get "hubId" h with Some v => hashable v | None => true end
  | _ => false
  end.

(* ================================================================= *)
(** * Properties *)

(** ** Dictionaries *)

Section DictFacts.
Context {V : Type}.
Implicit Types (d : dict_of V) (k : string) (v : V).

Lemma get_In_keys k d v : Dict.get k d = Some v -> In k (Dict.keys d).
Proof.
  induction d as [|[k' v'] d IH]; simpl; [discriminate|].
  destruct (String.eqb_spec k k'); auto.
Qed.

Lemma get_not_In k d : ~ In k (Dict.keys d) -> Dict.get k d = None.
Proof.
  destruct (Dict.get k d) eqn:E; [|reflexivity].
  intros H. elim H. eapply get_In_keys; eauto.
Qed.

Lemma has_In_keys k d : Dict.has k d = true <-> In k (Dict.keys d).
Proof.
  unfold Dict.has. induction d as [|[k' v'] d IH]; simpl.
  - split; [discriminate|tauto].
  - destruct (String.eqb_spec k k'); subst.
    + split; auto.
    + rewrite IH. split; [auto|]. intros [E|H]; [congruence|assumption].
Qed.

Lemma set_fresh k v d : ~ In k (Dict.keys d) -> Dict.set k v d = d ++ [(k, v)].
Proof.
  induction d as [|[k' v'] d IH]; simpl; intros H; [reflexivity|].
  destruct (String.eqb_spec k k'); [subst; tauto|].
  rewrite IH; tauto.
Qed.

Lemma keys_set k v d :
  Dict.keys (Dict.set k v d) =
  if Dict.has k d then Dict.keys d else Dict.keys d ++ [k].
Proof.
  unfold Dict.has. induction d as [|[k' v'] d IH]; simpl; [reflexivity|].
  destruct (String.eqb_spec k k'); simpl; [reflexivity|].
  rewrite IH. destruct (Dict.get k d); reflexivity.
Qed.

Lemma get_set_same k v d : Dict.get k (Dict.set k v d) = Some v.
Proof.
  induction d as [|[k' v'] d IH]; simpl.
  - now rewrite String.eqb_refl.
  - destruct (String.eqb_spec k k') as [->|N]; simpl.
    + now rewrite String.eqb_refl.
    + destruct (String.eqb_spec k k'); [tauto|assumption].
Qed.

Lemma get_set_other k k' v d : k <> k' -> Dict.get k (Dict.set k' v d) = Dict.get k d.
Proof.
  intros N. induction d as [|[k0 v0] d IH]; simpl.
  - destruct (String.eqb_spec k k'); [tauto|reflexivity].
  - destruct (String.eqb_spec k' k0) as [->|N0]; simpl.
    + destruct (String.eqb_spec k k0); [tauto|reflexivity].
    + destruct (String.eqb_spec k k0); [reflexivity|assumption].
Qed.

Lemma get_del_same k d : Dict.get k (Dict.del k d) = None.
Proof.
  unfold Dict.del. induction d as [|[k0 v0] d IH]; simpl; [reflexivity|].
  destruct (String.eqb_spec k k0); simpl; [assumption|].
  destruct (String.eqb_spec k k0); [tauto|assumption].
Qed.


(** Looking a key up after a filter on keys. *)
Lemma get_filter (p : string -> bool) k d :
  Dict.get k (filter (fun kv => p (fst kv)) d) =
  if p k then Dict.get k d else None.
Proof.
  induction d as [|[k0 v0] d IH]; simpl.
  - now destruct (p k).
  - destruct (p k0) eqn:P0; simpl.
    + destruct (String.eqb_spec k k0) as [->|N]; [now rewrite P0|assumption].
    + destruct (String.eqb_spec k k0) as [->|N]; [now rewrite IH, P0|assumption].
Qed.

Lemma keys_filter (p : string -> bool) d :
  Dict.keys (filter (fun kv => p (fst kv)) d) = filter p (Dict.keys d).
Proof.
  induction d as [|[k0 v0] d IH]; simpl; [reflexivity|].
  destruct (p k0); simpl; now rewrite IH.
Qed.
End DictFacts.

(** ** Custom-field separation *)


(** The loop of [separate_custom_fields] started from two dicts whose keys
    do not occur in the rest of the payload. *)
Lemma separate_loop (rest : dict) : forall custom remaining : dict,
  NoDup (Dict.keys rest) ->
  (forall k, In k (Dict.keys rest) ->
             ~ In k (Dict.keys custom) /\ ~ In k (Dict.keys remaining)) ->
  fold_left
    (fun (acc : dict * dict) (item : string * json) =>
       let '(custom_fields, remaining_fields) := acc in
       let '(key, value) := item in
       if is_custom key
       then (Dict.set key value custom_fields, remaining_fields)
       else (custom_fields, Dict.set key value remaining_fields))
    rest (custom, remaining)
  = (custom ++ filter custom_entry rest, remaining ++ filter plain_entry rest).
Proof.
  induction rest as [|[k v] rest IH]; intros custom remaining ND Fresh; simpl.
  - now rewrite !app_nil_r.
  - inversion ND as [|? ? Hk ND']; subst.
    assert (Fk : ~ In k (Dict.keys custom) /\ ~ In k (Dict.keys remaining))
      by (apply Fresh; simpl; auto).
    unfold custom_entry, plain_entry; simpl.
    destruct (is_custom k) eqn:Ck; simpl.
    + rewrite set_fresh by tauto. rewrite IH; auto.
      * now rewrite <- app_assoc.
      * intros k' Hk'. destruct (Fresh k') as [A B]; [simpl; auto|].
        split; [|assumption].
        unfold Dict.keys. rewrite map_app, in_app_iff. simpl.
        intros [H|[H|[]]]; [now apply A|congruence].
    + rewrite set_fresh by tauto. rewrite IH; auto.
      * now rewrite <- app_assoc.
      * intros k' Hk'. destruct (Fresh k') as [A B]; [simpl; auto|].
        split; [assumption|].
        unfold Dict.keys. rewrite map_app, in_app_iff. simpl.
        intros [H|[H|[]]]; [now apply B|congruence].
Qed.

Lemma separate_custom_fields_filter (payload : dict) :
  Dict.wf payload ->
  separate_custom_fields payload =
  (filter custom_entry payload, filter plain_entry payload).
Proof.
  intros ND. unfold separate_custom_fields.
  rewrite separate_loop; auto.
Qed.

(** C2. On a payload dict, [separate_custom_fields] returns the pair
    (derived, remaining) where derived is the sub-sequence of the entries
    whose key starts with ["_"] and remaining the sub-sequence of all other
    entries: both keep the payload's order and the values as they are
    (nothing nested is visited); derived holds exactly the ["_"]-keys with
    their original values, remaining exactly the other keys, and no key of
    remaining starts with ["_"]. *)
Theorem separate_custom_fields_partition (payload : dict) :
  Dict.wf payload ->
  let derived := fst (separate_custom_fields payload) in
  let remaining := snd (separate_custom_fields payload) in
  derived = filter (fun kv => startswith "_" (fst kv)) payload /\
  remaining = filter (fun kv => negb (startswith "_" (fst kv))) payload /\
  (forall k v, Dict.get k derived = Some v <->
               startswith "_" k = true /\ Dict.get k payload = Some v) /\
  (forall k v, Dict.get k remaining = Some v <->
               startswith "_" k = false /\ Dict.get k payload = Some v) /\
  (forall k, In k (Dict.keys remaining) -> startswith "_" k = false).
Proof.
  intros ND derived remaining. subst derived remaining.
  rewrite separate_custom_fields_filter by assumption. simpl.
  unfold custom_entry, plain_entry, is_custom.
  split; [reflexivity|]. split; [reflexivity|].
  split; [|split].
  - intros k v. rewrite (get_filter (startswith "_")).
    destruct (startswith "_" k); split; intros H; try tauto; try discriminate.
    destruct H; discriminate.
  - intros k v. rewrite (get_filter (fun k => negb (startswith "_" k))).
    destruct (startswith "_" k); simpl; split; intros H; try tauto; try discriminate.
    destruct H; discriminate.
  - intros k. rewrite (keys_filter (fun k => negb (startswith "_" k))).
    rewrite filter_In. intros [_ H]. now destruct (startswith "_" k).
Qed.

Lemma separate_custom_fields_partition_witness :
  separate_custom_fields
    [("id", JNum 10); ("_vpn", JDict [("useVpn", JBool true)]);
     ("name", JStr "Data"); ("_dhcp", JDict [("_ref", JStr "dhcp.json")])]
  = ([("_vpn", JDict [("useVpn", JBool true)]);
      ("_dhcp", JDict [("_ref", JStr "dhcp.json")])],
     [("id", JNum 10); ("name", JStr "Data")]).
Proof.
  assert (W : Dict.wf
    [("id", JNum 10); ("_vpn", JDict [("useVpn", JBool true)]);
     ("name", JStr "Data"); ("_dhcp", JDict [("_ref", JStr "dhcp.json")])]).
  { unfold Dict.wf. simpl.
    repeat constructor; simpl; intuition discriminate. }
  destruct (separate_custom_fields_partition _ W) as (D & R & _).
  rewrite (surjective_pairing (separate_custom_fields _)).
  cbv zeta in D, R. rewrite D, R. reflexivity.
Defined.

(** ** The effect monad *)

Lemma entered_app (a b : trace) : entered (a ++ b) = entered a ++ entered b.
Proof. unfold entered. now rewrite flat_map_app. Qed.

Lemma calls_app (a b : trace) : calls (a ++ b) = calls a ++ calls b.
Proof. unfold calls. now rewrite flat_map_app. Qed.


Section Quiet.
Context {A B : Type}.

Lemma quiet_ret (a : A) : quiet (ret a).
Proof. now intros tr. Qed.

Lemma quiet_raise : quiet (@raise A).
Proof. now intros tr. Qed.

Lemma quiet_lift (o : option A) : quiet (lift o).
Proof. destruct o; [apply quiet_ret|apply quiet_raise]. Qed.

Lemma quiet_bind (m : M A) (k : A -> M B) :
  quiet m -> (forall a, quiet (k a)) -> quiet (bind m k).
Proof.
  intros Hm Hk tr. unfold bind. specialize (Hm tr).
  destruct (m tr) as [[a|] tr']; simpl in *; [|assumption].
  now rewrite Hk.
Qed.

End Quiet.

Lemma quiet_foreach {A B} (xs : list B) (body : A -> B -> M A) :
  (forall acc x, quiet (body acc x)) -> forall acc, quiet (foreach xs acc body).
Proof.
  intros Hb. induction xs as [|x xs IH]; intros acc; simpl.
  - apply quiet_ret.
  - apply quiet_bind; auto.
Qed.

Lemma quiet_sdk w c : quiet (meraki_functions.sdk w c).
Proof.
  intros tr. unfold meraki_functions.sdk. simpl.
  rewrite entered_app. simpl. now rewrite app_nil_r.
Qed.

Lemma quiet_sleep n : quiet (emit (Sleep n)).
Proof.
  intros tr. unfold emit. simpl. rewrite entered_app. simpl. now rewrite app_nil_r.
Qed.

Lemma quiet_table_store k v t : quiet (table_store k v t).
Proof. unfold table_store. destruct (hashable k); [apply quiet_ret|apply quiet_raise]. Qed.

Lemma quiet_table_has k t : quiet (table_has k t).
Proof. unfold table_has. destruct (hashable k); [apply quiet_ret|apply quiet_raise]. Qed.

Create HintDb quiet.
#[export] Hint Resolve quiet_sdk quiet_sleep quiet_table_store quiet_table_has : quiet.

(** Breaks a computation down to the primitive ones. *)
Ltac quiet_step :=
  match goal with
  | |- quiet (bind _ _) => apply quiet_bind; [|intros]
  | |- quiet (ret _) => apply quiet_ret
  | |- quiet raise => apply quiet_raise
  | |- quiet (lift _) => apply quiet_lift
  | |- quiet (foreach _ _ _) => apply quiet_foreach; intros
  | |- quiet (match ?x with _ => _ end) => destruct x
  | |- quiet (let '(_, _) := ?x in _) => destruct x
  | |- forall _, _ => intros
  | |- quiet _ => solve [auto with quiet]
  end.
Ltac quiet_tac := repeat quiet_step.

Lemma quiet_with_kwargs w op payload : quiet (meraki_functions.with_kwargs w op payload).
Proof. unfold meraki_functions.with_kwargs. quiet_tac. Qed.

Lemma quiet_plain w op : quiet (meraki_functions.plain w op).
Proof. unfold meraki_functions.plain. quiet_tac. Qed.

#[export] Hint Resolve quiet_with_kwargs quiet_plain : quiet.

Lemma quiet_create_network w network_config cache :
  quiet (meraki_functions.create_network w network_config cache).
Proof.
  unfold meraki_functions.create_network, meraki_functions.update_network. quiet_tac.
Qed.

Lemma quiet_create_vlan w network_id vlan_config :
  quiet (meraki_functions.create_vlan w network_id vlan_config).
Proof.
  unfold meraki_functions.create_vlan, meraki_functions.create_vlan_conflict,
         meraki_functions.update_vlan.
  quiet_tac.
Qed.

Lemma quiet_trigger w network_id config :
  quiet (meraki_functions.trigger_network_firmware_upgrades w network_id config).
Proof. unfold meraki_functions.trigger_network_firmware_upgrades. quiet_tac. Qed.

Lemma quiet_load_ref_config w filename : quiet (utils.load_ref_config w filename).
Proof. unfold utils.load_ref_config. quiet_tac. Qed.

#[export] Hint Resolve quiet_create_network quiet_create_vlan quiet_trigger
  quiet_load_ref_config : quiet.

Lemma quiet_with_ref {A} w config (not_found : M A) (k : json -> M A) :
  quiet not_found -> (forall c, quiet (k c)) -> quiet (utils.with_ref w config not_found k).
Proof. intros Hn Hk. unfold utils.with_ref. quiet_tac; auto. Qed.

Ltac unfold_wrappers :=
  unfold meraki_functions.update_network, meraki_functions.get_network_group_policies,
    meraki_functions.get_content_filtering_categories, meraki_functions.get_vlans,
    meraki_functions.update_vlan, meraki_functions.get_network_devices,
    meraki_functions.update_device, meraki_functions.update_site_to_site_vpn,
    meraki_functions.get_site_to_site_vpn, meraki_functions.update_sys_log_servers,
    meraki_functions.update_snmp, meraki_functions.update_malware_settings,
    meraki_functions.update_content_filtering_settings,
    meraki_functions.get_uplink_bandwidth,
    meraki_functions.update_traffic_shaping_uplink_bandwidth_settings,
    meraki_functions.claim_devices, meraki_functions.get_network_firmware_upgrades,
    meraki_functions.get_network_appliance_ports,
    meraki_functions.update_network_appliance_port,
    meraki_functions.update_mx_uplinks in *.

Ltac quiet_more :=
  repeat first
    [ quiet_step
    | match goal with
      | |- quiet (utils.with_ref _ _ _ _) => apply quiet_with_ref
      | |- quiet (utils.separate _) => unfold utils.separate
      | |- quiet (if ?b then _ else _) => destruct b
      end ].

(** ** Every applier marks its entry once *)

Lemma enters_then_quiet {A} name (body : M A) :
  quiet body -> enters name (bind (utils.enter name) (fun _ => body)).
Proof.
  intros Q tr. unfold bind, utils.enter, emit. rewrite Q, entered_app. reflexivity.
Qed.

Lemma section_of_key setting s : setup.section_of setting = Some s -> setting = section_key s.
Proof.
  unfold setup.section_of.
  repeat match goal with
         | |- context [String.eqb setting ?k] => destruct (String.eqb_spec setting k)
         end;
  intros E; inversion E; subst; reflexivity.
Qed.

Lemma quiet_firmware_table response : quiet (utils.firmware_table response).
Proof. unfold utils.firmware_table, utils.add_version. quiet_more. Qed.

Lemma quiet_translate_product t acc product : quiet (utils.translate_product t acc product).
Proof. unfold utils.translate_product. quiet_more. Qed.

Lemma quiet_translate_hub cache acc hub : quiet (utils.translate_hub cache acc hub).
Proof. unfold utils.translate_hub. quiet_more. Qed.

Lemma quiet_table_of kf vf elements : quiet (utils.table_of kf vf elements).
Proof. unfold utils.table_of. quiet_more. Qed.

#[export] Hint Resolve quiet_firmware_table quiet_translate_product quiet_translate_hub
  quiet_table_of : quiet.

Lemma quiet_vlan_dhcp w net_id custom new_vlan st vpn :
  quiet (utils.vlan_dhcp w net_id custom new_vlan st vpn).
Proof. unfold utils.vlan_dhcp. unfold_wrappers. quiet_more. Qed.

#[export] Hint Resolve quiet_vlan_dhcp : quiet.

Lemma quiet_vlan_vpn w net_id custom new_vlan st vpn :
  quiet (utils.vlan_vpn w net_id custom new_vlan st vpn).
Proof. unfold utils.vlan_vpn. unfold_wrappers. quiet_more. Qed.

Lemma quiet_device_uplinks w serial custom st :
  quiet (utils.device_uplinks w serial custom st).
Proof. unfold utils.device_uplinks. unfold_wrappers. quiet_more. Qed.

#[export] Hint Resolve quiet_vlan_vpn quiet_device_uplinks : quiet.

Lemma quiet_vlan_item w net_id policies acc item :
  quiet (utils.vlan_item w net_id policies acc item).
Proof. unfold utils.vlan_item. unfold_wrappers. quiet_more. Qed.

Lemma quiet_vlans_vpn w net_id st vpn : quiet (utils.vlans_vpn w net_id st vpn).
Proof. unfold utils.vlans_vpn. unfold_wrappers. quiet_more. Qed.

Lemma quiet_per_port_item w net_id st item : quiet (utils.per_port_item w net_id st item).
Proof. unfold utils.per_port_item. unfold_wrappers. quiet_more. Qed.

Lemma quiet_device_item w st item : quiet (utils.device_item w st item).
Proof. unfold utils.device_item. unfold_wrappers. quiet_more. Qed.

Lemma quiet_uplink_bandwidth w net_id config : quiet (utils.uplink_bandwidth w net_id config).
Proof. unfold utils.uplink_bandwidth. unfold_wrappers. quiet_more. Qed.

#[export] Hint Resolve quiet_vlan_item quiet_vlans_vpn quiet_per_port_item
  quiet_device_item quiet_uplink_bandwidth : quiet.

Lemma applier_enters w s net_id config :
  enters (section_key s) (setup.applier w s net_id config).
Proof.
  destruct s; simpl;
    unfold utils.claim_devices, utils.firmware_upgrade, utils.site_to_site_vpn_config,
      utils.amp_config, utils.content_filtering_config, utils.syslog_server_config,
      utils.snmp_config, utils.vlans_config, utils.vlan_per_port_config,
      utils.devices_config, utils.traffic_shaping_config;
    apply enters_then_quiet; unfold_wrappers; quiet_more.
Qed.

(** ** The section loop of the builder *)

Lemma apply_setting_unknown w net_id doc c setting tr :
  is_section setting = false ->
  setup.apply_setting w net_id doc c setting tr = (Ret c, tr).
Proof.
  unfold is_section, setup.apply_setting.
  destruct (setup.section_of setting); [discriminate|reflexivity].
Qed.

(** One known key: the applier named by the key is entered, and nothing
    else is. *)
Lemma apply_setting_known w net_id doc c setting tr :
  is_section setting = true ->
  entered (snd (setup.apply_setting w net_id doc c setting tr)) = entered tr \/
  entered (snd (setup.apply_setting w net_id doc c setting tr)) = entered tr ++ [setting].
Proof.
  unfold is_section, setup.apply_setting.
  destruct (setup.section_of setting) as [s|] eqn:E; [intros _|discriminate].
  apply section_of_key in E. subst setting.
  unfold bind. destruct (Dict.get (section_key s) doc) as [config|]; simpl; [|now left].
  right. pose proof (applier_enters w s net_id config tr) as H.
  destruct (setup.applier w s net_id config tr) as [[[st out]|] tr']; simpl in *; assumption.
Qed.

Lemma apply_setting_returns w net_id doc c setting tr c' :
  is_section setting = true ->
  fst (setup.apply_setting w net_id doc c setting tr) = Ret c' ->
  entered (snd (setup.apply_setting w net_id doc c setting tr)) = entered tr ++ [setting].
Proof.
  unfold is_section, setup.apply_setting.
  destruct (setup.section_of setting) as [s|] eqn:E; [intros _|discriminate].
  apply section_of_key in E. subst setting.
  unfold bind. destruct (Dict.get (section_key s) doc) as [config|]; simpl; [|discriminate].
  pose proof (applier_enters w s net_id config tr) as H.
  destruct (setup.applier w s net_id config tr) as [[[st out]|] tr']; simpl in *; auto.
Qed.

Lemma sections_loop_order w net_id doc : forall keys c tr,
  exists applied rest,
    entered (snd (foreach keys c (setup.apply_setting w net_id doc) tr))
      = entered tr ++ applied /\
    filter is_section keys = applied ++ rest /\
    (forall c', fst (foreach keys c (setup.apply_setting w net_id doc) tr) = Ret c' ->
                rest = []).
Proof.
  induction keys as [|setting keys IH]; intros c tr; simpl.
  - exists [], []. rewrite app_nil_r. auto.
  - destruct (is_section setting) eqn:K.
    + unfold bind.
      pose proof (apply_setting_known w net_id doc c setting tr K) as Hk.
      pose proof (apply_setting_returns w net_id doc c setting tr) as Hr.
      destruct (setup.apply_setting w net_id doc c setting tr) as [[c1|] tr1]; simpl in *.
      * destruct (IH c1 tr1) as (applied & rest & E1 & E2 & E3).
        exists (setting :: applied), rest. rewrite E1, (Hr c1 K eq_refl), <- app_assoc.
        simpl. rewrite E2. auto.
      * destruct Hk as [Hk|Hk]; rewrite Hk.
        -- exists [], (setting :: filter is_section keys).
           rewrite app_nil_r. repeat split; auto. discriminate.
        -- exists [setting], (filter is_section keys).
           repeat split; auto. discriminate.
    + unfold bind. rewrite apply_setting_unknown by assumption. apply IH.
Qed.

(** ** The builder *)

Lemma lift_run {A} (o : option A) tr :
  lift o tr = (match o with Some a => Ret a | None => Raise end, tr).
Proof. now destruct o. Qed.

Lemma bind_lift {A B} (o : option A) (k : A -> M B) tr :
  bind (lift o) k tr = match o with Some a => k a tr | None => (Raise, tr) end.
Proof. now destruct o. Qed.

Lemma bind_run {A B} (m : M A) (k : A -> M B) tr :
  bind m k tr = match m tr with
                | (Ret a, tr') => k a tr'
                | (Raise, tr') => (Raise, tr')
                end.
Proof. reflexivity. Qed.

Lemma bind_ret {A B} (a : A) (k : A -> M B) tr : bind (ret a) k tr = k a tr.
Proof. reflexivity. Qed.

Lemma foreach_cons {A S} (x : A) xs (acc : S) body tr :
  foreach (x :: xs) acc body tr
  = match body acc x tr with
    | (Ret acc', tr') => foreach xs acc' body tr'
    | (Raise, tr') => (Raise, tr')
    end.
Proof. reflexivity. Qed.

(** With a metadata dict that has both required fields the builder goes
    straight to the creation call. *)
Lemma build_new_network_creates w copy_from_id doc md name tr :
  Dict.get "metadata" doc = Some (JDict md) ->
  Dict.get "name" md = Some name ->
  Dict.has "productTypes" md = true ->
  setup.build_new_network w copy_from_id doc tr =
  bind (meraki_functions.create_network w (setup.attach_copy_from copy_from_id (JDict md))
                                        (net_name_to_id w))
       (fun r =>
          match r with
          | Err _ response =>
              ret {| _name := name;
                     settings := [("creation",
                                   {| status := Failure;
                                      output := Some (Value (JStr response)) |})] |}
          | Ok response =>
              net_id <- lift (py_getitem "id" response) ;;
              name <- lift (py_getitem "name" response) ;;
              foreach (Dict.keys (Dict.del "metadata" doc))
                      (setup.initial_status name response
                                            (Dict.keys (Dict.del "metadata" doc)))
                      (setup.apply_setting w net_id (Dict.del "metadata" doc))
          end) tr.
Proof.
  intros Hm Hn Hp.
  assert (T : truthy (JDict md) = true) by (destruct md; [discriminate|reflexivity]).
  assert (E1 : py_in "name" (JDict md) = Some true)
    by (simpl; unfold Dict.has; now rewrite Hn).
  assert (E2 : py_in "productTypes" (JDict md) = Some true) by (simpl; now rewrite Hp).
  assert (E3 : py_getitem "name" (JDict md) = Some name) by exact Hn.
  unfold setup.build_new_network. rewrite Hm, T. unfold bind.
  rewrite E1, E2, E3. reflexivity.
Qed.

(** C5 (amended). When the metadata is absent or empty, or is a dict that
    lacks [name] or [productTypes], the builder returns the record
    [{_name: "N/A", creation: Failure}] and leaves the trace as it was: no
    backend operation is invoked.  (An empty [productTypes] list is not
    checked: see [empty_product_types_reaches_backend].) *)
Theorem missing_metadata_no_backend_call w copy_from_id doc tr :
  (Dict.get "metadata" doc = None \/
   (exists m, Dict.get "metadata" doc = Some m /\ truthy m = false) \/
   (exists md, Dict.get "metadata" doc = Some (JDict md) /\
               (Dict.has "name" md = false \/ Dict.has "productTypes" md = false))) ->
  setup.build_new_network w copy_from_id doc tr =
  (Ret {| _name := JStr "N/A";
          settings := [("creation", {| status := Failure; output := None |})] |}, tr).
Proof.
  intros [H|[(m & H & T)|(md & H & F)]]; unfold setup.build_new_network; rewrite H.
  - reflexivity.
  - now rewrite T.
  - destruct (truthy (JDict md)); [|reflexivity].
    change (py_in "name" (JDict md)) with (Some (Dict.has "name" md)).
    change (py_in "productTypes" (JDict md)) with (Some (Dict.has "productTypes" md)).
    unfold bind.
    destruct (Dict.has "name" md) eqn:N.
    + destruct F as [F|F]; [discriminate|]. rewrite F. reflexivity.
    + reflexivity.
Qed.

Lemma missing_metadata_no_backend_call_witness :
  setup.build_new_network fresh_org JNull
    [("metadata", JDict [("name", JStr "Branch1")]); ("vlans", JList [])] []
  = (Ret {| _name := JStr "N/A";
            settings := [("creation", {| status := Failure; output := None |})] |}, []).
Proof.
  apply missing_metadata_no_backend_call.
  right. right. exists [("name", JStr "Branch1")]. split; [reflexivity|].
  right. reflexivity.
Defined.

(** C5, as stated, fails: with [productTypes] present but empty the
    builder invokes the creation operation and names the record after the
    network. *)
Lemma empty_product_types_reaches_backend :
  setup.build_new_network strict_org JNull
    [("metadata", JDict [("name", JStr "Branch1"); ("productTypes", JList [])])] []
  = (Ret {| _name := JStr "Branch1";
            settings := [("creation", {| status := Failure;
                                         output := Some (Value (JStr "400 Bad Request")) |})] |},
     [Call (createOrganizationNetwork
              [("name", JStr "Branch1"); ("productTypes", JList [])])]).
Proof. reflexivity. Qed.

(** C8 (amended). When the creation wrapper returns an error, the builder
    returns at once: the record is named after the metadata and holds the
    single entry [creation] with status [Failure] and the error text; the
    trace is the one the creation left, and no applier is entered.  The
    declared sections are not listed in the record. *)
Theorem failed_creation_returns_creation_only
        w copy_from_id doc md name error_code response tr tr' :
  Dict.get "metadata" doc = Some (JDict md) ->
  Dict.get "name" md = Some name ->
  Dict.has "productTypes" md = true ->
  meraki_functions.create_network w (setup.attach_copy_from copy_from_id (JDict md))
                                  (net_name_to_id w) tr
  = (Ret (Err error_code response), tr') ->
  setup.build_new_network w copy_from_id doc tr =
  (Ret {| _name := name;
          settings := [("creation", {| status := Failure;
                                       output := Some (Value (JStr response)) |})] |}, tr')
  /\ entered tr' = entered tr.
Proof.
  intros Hm Hn Hp Hc. split.
  - rewrite (build_new_network_creates w copy_from_id doc md name tr Hm Hn Hp).
    unfold bind. now rewrite Hc.
  - pose proof (quiet_create_network w (setup.attach_copy_from copy_from_id (JDict md))
                                     (net_name_to_id w) tr) as Q.
    now rewrite Hc in Q.
Qed.

Lemma failed_creation_returns_creation_only_witness :
  setup.build_new_network strict_org JNull
    [("metadata", branch_metadata); ("vlans", JList []); ("claim", JDict [])] []
  = (Ret {| _name := JStr "Branch1";
            settings := [("creation", {| status := Failure;
                                         output := Some (Value (JStr "400 Bad Request")) |})] |},
     [Call (createOrganizationNetwork
              [("name", JStr "Branch1"); ("productTypes", JList [JStr "appliance"])])])
  /\ entered [Call (createOrganizationNetwork
                      [("name", JStr "Branch1"); ("productTypes", JList [JStr "appliance"])])]
     = entered [].
Proof.
  apply (failed_creation_returns_creation_only strict_org JNull
           [("metadata", branch_metadata); ("vlans", JList []); ("claim", JDict [])]
           [("name", JStr "Branch1"); ("productTypes", JList [JStr "appliance"])]
           (JStr "Branch1") (HttpStatus 400)); reflexivity.
Defined.

(** C8, as stated, fails: after a failed creation the record has no entry
    for the declared sections, so none of them is [Skipped]. *)
Lemma failed_creation_lists_no_section :
  exists c tr,
    setup.build_new_network strict_org JNull
      [("metadata", branch_metadata); ("vlans", JList []); ("claim", JDict [])] []
    = (Ret c, tr) /\
    Dict.get "creation" (settings c)
    = Some {| status := Failure; output := Some (Value (JStr "400 Bad Request")) |} /\
    Dict.get "vlans" (settings c) = None /\
    Dict.get "claim" (settings c) = None.
Proof. eexists _, _. split; [cbv; reflexivity|]. repeat split. Qed.

(** C1 (amended). The appliers a build enters are, in order, an initial
    segment of the keys of the document (metadata removed) that name a
    section, taken in the order of the document; when the build returns a
    record whose creation succeeded, every such key had its applier
    entered: the sections are applied in document order. *)
Theorem sections_apply_in_document_order w copy_from_id doc tr :
  exists applied rest,
    entered (snd (setup.build_new_network w copy_from_id doc tr)) = entered tr ++ applied /\
    filter is_section (Dict.keys (Dict.del "metadata" doc)) = applied ++ rest /\
    (forall c e,
        fst (setup.build_new_network w copy_from_id doc tr) = Ret c ->
        Dict.get "creation" (settings c) = Some e ->
        status e = Success ->
        rest = []).
Proof.
  assert (Early : forall (r : outcome completion * trace),
             entered (snd r) = entered tr ->
             (forall c e, fst r = Ret c -> Dict.get "creation" (settings c) = Some e ->
                          status e = Success -> False) ->
             exists applied rest,
               entered (snd r) = entered tr ++ applied /\
               filter is_section (Dict.keys (Dict.del "metadata" doc)) = applied ++ rest /\
               (forall c e, fst r = Ret c -> Dict.get "creation" (settings c) = Some e ->
                            status e = Success -> rest = [])).
  { intros r E N. exists [], (filter is_section (Dict.keys (Dict.del "metadata" doc))).
    rewrite app_nil_r. repeat split; auto.
    intros c e H1 H2 H3. destruct (N c e H1 H2 H3). }
  assert (NC : forall c e, Ret setup.not_created = Ret c ->
                           Dict.get "creation" (settings c) = Some e ->
                           status e = Success -> False).
  { intros c e H1 H2 H3. inversion H1; subst. simpl in H2. inversion H2; subst.
    discriminate. }
  unfold setup.build_new_network.
  destruct (negb (truthy _)); [apply Early; [reflexivity|exact NC]|].
  rewrite bind_lift.
  destruct (py_in "name" _) as [has_name|]; [|apply Early; [reflexivity|discriminate]].
  rewrite bind_run.
  assert (Hf : exists o, (if has_name
                          then lift (py_in "productTypes"
                                 match Dict.get "metadata" doc with
                                 | Some m => m | None => JNull end)
                          else ret false) tr = (o, tr)).
  { destruct has_name; [rewrite lift_run|]; eexists; reflexivity. }
  destruct Hf as [o Hf]. rewrite Hf.
  destruct o as [has_fields|]; [|apply Early; [reflexivity|discriminate]].
  destruct (negb has_fields); [apply Early; [reflexivity|exact NC]|].
  rewrite bind_lift.
  destruct (py_getitem "name" _) as [name|]; [|apply Early; [reflexivity|discriminate]].
  rewrite bind_run.
  pose proof (quiet_create_network w
    (setup.attach_copy_from copy_from_id
       match Dict.get "metadata" doc with Some m => m | None => JNull end)
    (net_name_to_id w) tr) as Q.
  destruct (meraki_functions.create_network _ _ _ tr) as [[[response|code response]|] tr1];
    simpl in Q.
  - rewrite bind_lift.
    destruct (py_getitem "id" response) as [net_id|];
      [|apply Early; [assumption|discriminate]].
    rewrite bind_lift.
    destruct (py_getitem "name" response) as [name'|];
      [|apply Early; [assumption|discriminate]].
    destruct (sections_loop_order w net_id (Dict.del "metadata" doc)
                (Dict.keys (Dict.del "metadata" doc))
                (setup.initial_status name' response (Dict.keys (Dict.del "metadata" doc)))
                tr1) as (applied & rest & E1 & E2 & E3).
    exists applied, rest. rewrite E1, Q. repeat split; auto.
    intros c e H _ _. eapply E3; eauto.
  - apply Early; [assumption|].
    intros c e H1 H2 H3. inversion H1; subst. simpl in H2. inversion H2; subst.
    discriminate.
  - apply Early; [assumption|discriminate].
Qed.

(** C1, as stated, fails: with [vlans] written before [claim] the VLAN
    applier runs first, against the precedence list. *)
Lemma document_order_not_precedence :
  exists c tr,
    setup.build_new_network fresh_org JNull
      [("metadata", branch_metadata); ("vlans", JList []);
       ("claim", JDict [("serials", JList [])])] []
    = (Ret c, tr) /\
    Dict.get "creation" (settings c)
    = Some {| status := Success;
              output := Some (Value (JDict [("id", JStr "N_1"); ("name", JStr "Branch1");
                                            ("productTypes", JList [JStr "appliance"])])) |} /\
    entered tr = ["vlans"; "claim"] /\
    follows_precedence (entered tr) = false.
Proof. eexists _, _. split; [cbv; reflexivity|]. repeat split. Qed.

(** ** Creation of a network whose name is taken *)

Lemma keys_del_subset {V} k k' (d : dict_of V) :
  In k (Dict.keys (Dict.del k' d)) -> In k (Dict.keys d).
Proof.
  unfold Dict.keys, Dict.del. rewrite !in_map_iff.
  intros (kv & E & H). apply filter_In in H. exists kv. tauto.
Qed.

Lemma skipped_fold_other k : forall keys (d : dict_of entry),
  ~ In k keys ->
  Dict.get k (fold_left (fun s setting => Dict.set setting setup.skipped s) keys d)
  = Dict.get k d.
Proof.
  induction keys as [|k' keys IH]; intros d N; simpl; [reflexivity|].
  rewrite IH by (simpl in N; tauto).
  apply get_set_other. simpl in N. intuition.
Qed.

Lemma skipped_fold_In k : forall keys (d : dict_of entry),
  In k keys ->
  Dict.get k (fold_left (fun s setting => Dict.set setting setup.skipped s) keys d)
  = Some setup.skipped.
Proof.
  induction keys as [|k' keys IH]; intros d H; [destruct H|]. simpl.
  destruct (in_dec string_dec k keys) as [Hin|Hout].
  - now apply IH.
  - destruct H as [->|H]; [|contradiction].
    rewrite skipped_fold_other by assumption. apply get_set_same.
Qed.

Lemma initial_status_creation name response keys :
  ~ In "creation" keys ->
  Dict.get "creation" (settings (setup.initial_status name response keys))
  = Some {| status := Success; output := Some (Value response) |}.
Proof.
  intros N. unfold setup.initial_status. simpl settings.
  now rewrite skipped_fold_other.
Qed.

(** No applier writes the [creation] entry. *)
Lemma apply_setting_keeps_creation w net_id doc c setting tr c' tr' :
  setup.apply_setting w net_id doc c setting tr = (Ret c', tr') ->
  Dict.get "creation" (settings c') = Dict.get "creation" (settings c).
Proof.
  unfold setup.apply_setting.
  destruct (setup.section_of setting) as [s|] eqn:E.
  - apply section_of_key in E. rewrite bind_lift.
    destruct (Dict.get setting doc) as [config|]; [|discriminate].
    rewrite bind_run.
    destruct (setup.applier w s net_id config tr) as [[[st out]|] tr1]; [|discriminate].
    intros H. inversion H; subst. simpl.
    apply get_set_other. destruct s; discriminate.
  - intros H. inversion H; subst. reflexivity.
Qed.

Lemma sections_loop_keeps_creation w net_id doc : forall keys c tr c' tr',
  foreach keys c (setup.apply_setting w net_id doc) tr = (Ret c', tr') ->
  Dict.get "creation" (settings c') = Dict.get "creation" (settings c).
Proof.
  induction keys as [|k keys IH]; intros c tr c' tr' H; simpl in H.
  - inversion H; subst. reflexivity.
  - rewrite bind_run in H.
    destruct (setup.apply_setting w net_id doc c k tr) as [[c1|] tr1] eqn:E; [|discriminate].
    rewrite (IH _ _ _ _ H). eapply apply_setting_keeps_creation; eauto.
Qed.

Lemma keys_del_other {V} k k' (d : dict_of V) :
  k <> k' -> In k (Dict.keys d) -> In k (Dict.keys (Dict.del k' d)).
Proof.
  intros N. unfold Dict.keys, Dict.del. rewrite !in_map_iff.
  intros ([k0 v] & E & H). simpl in E. subst k0. exists (k, v). split; [reflexivity|].
  apply filter_In. split; [assumption|]. simpl.
  apply negb_true_iff. apply String.eqb_neq. congruence.
Qed.

Lemma initial_status_overwritten name response keys :
  In "creation" keys ->
  Dict.get "creation" (settings (setup.initial_status name response keys))
  = Some setup.skipped.
Proof.
  intros H. unfold setup.initial_status. simpl settings. now apply skipped_fold_In.
Qed.

(** C4 (amended). When the backend answers the creation with an error
    whose first message contains [taken] and the name is in the name-to-id
    cache, [create_network] invokes the update operation on the cached id
    with the same payload and returns what the update wrapper returns.
    - When that update succeeds with a network object, the builder goes
      on exactly as after a creation: it applies the sections of the
      document to the network of the response, starting from the record
      in which the creation is [Success] with the update's response.
    - The record it then returns has that [creation] entry, unless the
      document itself has a key named [creation]: the initialisation of
      the remaining keys then overwrites the entry with [Skipped].
    - When the update fails, the builder returns, right after the two
      calls, the record that holds only the [creation] entry, [Failure]
      with the update's error text: the sections are not applied. *)
Theorem taken_name_becomes_update
        w copy_from_id doc md kwargs name network_id e first tr :
  Dict.get "metadata" doc = Some (JDict md) ->
  Dict.get "name" md = Some (JStr name) ->
  Dict.has "productTypes" md = true ->
  setup.attach_copy_from copy_from_id (JDict md) = JDict kwargs ->
  backend w tr (createOrganizationNetwork kwargs) = RaisesAPIError e ->
  first_error e = Some first ->
  contains "taken" first = true ->
  Dict.get name (net_name_to_id w) = Some network_id ->
  let tr1 := tr ++ [Call (createOrganizationNetwork kwargs)] in
  let tr2 := tr1 ++ [Call (updateNetwork network_id kwargs)] in
  meraki_functions.create_network w (JDict kwargs) (net_name_to_id w) tr
  = (Ret (meraki_functions.guarded (backend w tr1 (updateNetwork network_id kwargs))), tr2)
  /\
  (forall response net_id name',
      backend w tr1 (updateNetwork network_id kwargs) = Returns response ->
      py_getitem "id" response = Some net_id ->
      py_getitem "name" response = Some name' ->
      setup.build_new_network w copy_from_id doc tr
      = foreach (Dict.keys (Dict.del "metadata" doc))
                (setup.initial_status name' response (Dict.keys (Dict.del "metadata" doc)))
                (setup.apply_setting w net_id (Dict.del "metadata" doc)) tr2)
  /\
  (forall response c tr',
      backend w tr1 (updateNetwork network_id kwargs) = Returns response ->
      setup.build_new_network w copy_from_id doc tr = (Ret c, tr') ->
      (~ In "creation" (Dict.keys doc) ->
       Dict.get "creation" (settings c)
       = Some {| status := Success; output := Some (Value response) |}) /\
      (In "creation" (Dict.keys doc) ->
       Dict.get "creation" (settings c) = Some {| status := Skipped; output := None |}))
  /\
  (forall code message,
      meraki_functions.guarded (backend w tr1 (updateNetwork network_id kwargs))
      = Err code message ->
      setup.build_new_network w copy_from_id doc tr
      = (Ret {| _name := JStr name;
                settings := [("creation", {| status := Failure;
                                             output := Some (Value (JStr message)) |})] |},
         tr2)).
Proof.
  intros Hm Hn Hp Hk Hc Hf Ht Hid tr1 tr2.
  assert (Hn' : Dict.get "name" kwargs = Some (JStr name)).
  { unfold setup.attach_copy_from in Hk. destruct (truthy copy_from_id).
    - simpl in Hk. inversion Hk; subst. rewrite get_set_other by discriminate. exact Hn.
    - inversion Hk; subst. exact Hn. }
  assert (Create :
    meraki_functions.create_network w (JDict kwargs) (net_name_to_id w) tr
    = (Ret (meraki_functions.guarded (backend w tr1 (updateNetwork network_id kwargs))),
       tr2)).
  { unfold meraki_functions.create_network. rewrite bind_run.
    unfold meraki_functions.sdk at 1. rewrite Hc.
    rewrite bind_lift, Hf, Ht, Hn', bind_lift, Hid.
    reflexivity. }
  pose proof (build_new_network_creates w copy_from_id doc md (JStr name) tr Hm Hn Hp)
    as Build.
  rewrite Hk, bind_run, Create in Build.
  split; [exact Create|]. split; [|split].
  - intros response net_id name' Hu Hi Hn2. rewrite Build, Hu.
    unfold meraki_functions.guarded. cbv beta iota.
    now rewrite bind_lift, Hi, bind_lift, Hn2.
  - intros response c tr' Hu Hb. rewrite Build, Hu in Hb.
    unfold meraki_functions.guarded in Hb. cbv beta iota in Hb.
    rewrite bind_lift in Hb.
    destruct (py_getitem "id" response) as [net_id|]; [|discriminate].
    rewrite bind_lift in Hb.
    destruct (py_getitem "name" response) as [name'|]; [|discriminate].
    rewrite (sections_loop_keeps_creation _ _ _ _ _ _ _ _ Hb). split.
    + intros Hfresh. apply initial_status_creation.
      intros H. apply Hfresh. eapply keys_del_subset; eauto.
    + intros Hin. apply initial_status_overwritten.
      apply keys_del_other; [discriminate|exact Hin].
  - intros code message Hu. rewrite Build, Hu. reflexivity.
Qed.

Lemma taken_name_becomes_update_witness :
  let payload := [("name", JStr "Branch1"); ("productTypes", JList [JStr "appliance"])] in
  let answer := JDict [("id", JStr "N_7"); ("name", JStr "Branch1")] in
  let w := known_org (Returns answer) in
  let doc := [("metadata", branch_metadata); ("vlans", JList [])] in
  let tr1 := [] ++ [Call (createOrganizationNetwork payload)] in
  let tr2 := tr1 ++ [Call (updateNetwork (JStr "N_7") payload)] in
  meraki_functions.create_network w (JDict payload) (net_name_to_id w) []
  = (Ret (meraki_functions.guarded (backend w tr1 (updateNetwork (JStr "N_7") payload))), tr2)
  /\
  (forall response net_id name',
      backend w tr1 (updateNetwork (JStr "N_7") payload) = Returns response ->
      py_getitem "id" response = Some net_id ->
      py_getitem "name" response = Some name' ->
      setup.build_new_network w JNull doc []
      = foreach (Dict.keys (Dict.del "metadata" doc))
                (setup.initial_status name' response (Dict.keys (Dict.del "metadata" doc)))
                (setup.apply_setting w net_id (Dict.del "metadata" doc)) tr2)
  /\
  (forall response c tr',
      backend w tr1 (updateNetwork (JStr "N_7") payload) = Returns response ->
      setup.build_new_network w JNull doc [] = (Ret c, tr') ->
      (~ In "creation" (Dict.keys doc) ->
       Dict.get "creation" (settings c)
       = Some {| status := Success; output := Some (Value response) |}) /\
      (In "creation" (Dict.keys doc) ->
       Dict.get "creation" (settings c) = Some {| status := Skipped; output := None |}))
  /\
  (forall code message,
      meraki_functions.guarded (backend w tr1 (updateNetwork (JStr "N_7") payload))
      = Err code message ->
      setup.build_new_network w JNull doc []
      = (Ret {| _name := JStr "Branch1";
                settings := [("creation", {| status := Failure;
                                             output := Some (Value (JStr message)) |})] |},
         tr2)).
Proof.
  intros payload answer w doc tr1 tr2.
  apply (taken_name_becomes_update w JNull doc payload payload "Branch1" (JStr "N_7")
           taken_error "Name has already been taken" []); reflexivity.
Defined.

(** The run behind the witness: the update is accepted and the build
    goes on with the VLAN section of the network the update names. *)
Example taken_name_upsert_run :
  exists c tr,
    setup.build_new_network
      (known_org (Returns (JDict [("id", JStr "N_7"); ("name", JStr "Branch1")]))) JNull
      [("metadata", branch_metadata); ("vlans", JList [])] []
    = (Ret c, tr) /\
    Dict.get "creation" (settings c)
    = Some {| status := Success;
              output := Some (Value (JDict [("id", JStr "N_7");
                                            ("name", JStr "Branch1")])) |} /\
    entered tr = ["vlans"].
Proof. eexists _, _. split; [cbv; reflexivity|]. split; reflexivity. Qed.

(** A document with a key named [creation]: the update is accepted and
    the entry of the creation reads [Skipped]. *)
Example taken_name_creation_key_run :
  exists c tr,
    setup.build_new_network
      (known_org (Returns (JDict [("id", JStr "N_7"); ("name", JStr "Branch1")]))) JNull
      [("metadata", branch_metadata); ("creation", JDict [])] []
    = (Ret c, tr) /\
    Dict.get "creation" (settings c) = Some {| status := Skipped; output := None |}.
Proof. eexists _, _. split; [cbv; reflexivity|]. reflexivity. Qed.

(** C4, as stated, fails when the update itself fails: the builder then
    records the creation as [Failure], with the update's error. *)
Lemma taken_name_update_may_fail :
  let gone := RaisesAPIError {| status_code := 404%positive;
                                first_error := Some "Not found";
                                text := "404 Not Found" |} in
  setup.build_new_network (known_org gone) JNull
    [("metadata", branch_metadata); ("vlans", JList [])] []
  = (Ret {| _name := JStr "Branch1";
            settings := [("creation", {| status := Failure;
                                         output := Some (Value (JStr "404 Not Found")) |})] |},
     [Call (createOrganizationNetwork
              [("name", JStr "Branch1"); ("productTypes", JList [JStr "appliance"])]);
      Call (updateNetwork (JStr "N_7")
              [("name", JStr "Branch1"); ("productTypes", JList [JStr "appliance"])])]).
Proof. reflexivity. Qed.

(** ** Reference resolution at an attachment point *)

Lemma with_ref_absent {A} w d (not_found : M A) k tr :
  Dict.has "_ref" d = false ->
  utils.with_ref w (JDict d) not_found k tr = k (JDict d) tr.
Proof.
  intros H. unfold utils.with_ref. simpl py_in. rewrite H. reflexivity.
Qed.


Lemma with_ref_loads {A} w v content (not_found : M A) k tr :
  loads w v content ->
  utils.with_ref w v not_found k tr = k content tr.
Proof.
  intros (d & f & -> & G & F & T). unfold utils.with_ref. simpl py_in.
  unfold Dict.has. rewrite G, bind_lift. simpl py_getitem. rewrite G, bind_lift.
  unfold utils.load_ref_config. rewrite bind_run, F. unfold ret. now rewrite T.
Qed.

(** The AMP and syslog appliers forward the loaded fragment. *)
Lemma amp_config_forwards_fragment w net_id config kwargs tr :
  loads w config (JDict kwargs) ->
  calls (snd (utils.amp_config w net_id config tr))
  = calls tr ++ [updateNetworkApplianceSecurityMalware net_id kwargs].
Proof.
  intros L. unfold utils.amp_config, utils.enter. rewrite bind_run. unfold emit.
  rewrite (with_ref_loads _ _ _ _ _ _ L).
  unfold meraki_functions.update_malware_settings, meraki_functions.with_kwargs,
    meraki_functions.sdk, bind, ret.
  simpl snd. rewrite !calls_app. simpl. now rewrite app_nil_r.
Qed.

Lemma syslog_config_forwards_fragment w net_id config kwargs tr :
  loads w config (JDict kwargs) ->
  calls (snd (utils.syslog_server_config w net_id config tr))
  = calls tr ++ [updateNetworkSyslogServers net_id kwargs].
Proof.
  intros L. unfold utils.syslog_server_config, utils.enter. rewrite bind_run. unfold emit.
  rewrite (with_ref_loads _ _ _ _ _ _ L).
  unfold meraki_functions.update_sys_log_servers, meraki_functions.with_kwargs,
    meraki_functions.sdk, bind, ret.
  simpl snd. rewrite !calls_app. simpl. now rewrite app_nil_r.
Qed.

(** The SNMP applier loads the fragment and then forwards the payload it
    was given, whatever the fragment holds. *)
Lemma snmp_config_forwards_given_payload w net_id d content tr :
  loads w (JDict d) content ->
  calls (snd (utils.snmp_config w net_id (JDict d) tr))
  = calls tr ++ [updateNetworkSnmp net_id d].
Proof.
  intros L. unfold utils.snmp_config, utils.enter. rewrite bind_run. unfold emit.
  rewrite (with_ref_loads _ _ _ _ _ _ L).
  unfold meraki_functions.update_snmp, meraki_functions.with_kwargs,
    meraki_functions.sdk, bind, ret.
  simpl snd. rewrite !calls_app. simpl. now rewrite app_nil_r.
Qed.

(** C10. The specification has every applier whose payload is
    [{"_ref": file}] forward the fragment loaded from the file, the SNMP
    applier included.  The code at the failing input: the fragment [snmp.json] exists and loads,
    and the SNMP applier invokes the update with the keyword arguments
    [{"_ref": "snmp.json"}], not with the fragment. *)
Theorem snmp_config_sends_ref_object :
  utils.snmp_config (org_with_file "snmp.json" snmp_fragment) (JStr "N_1")
                    (JDict [("_ref", JStr "snmp.json")]) []
  = (Ret (Success, Value (JDict [])),
     [Enter "snmp"; Call (updateNetworkSnmp (JStr "N_1") [("_ref", JStr "snmp.json")])])
  /\
  utils.amp_config (org_with_file "snmp.json" snmp_fragment) (JStr "N_1")
                   (JDict [("_ref", JStr "snmp.json")]) []
  = (Ret (Success, Value (JDict [])),
     [Enter "amp";
      Call (updateNetworkApplianceSecurityMalware (JStr "N_1")
              [("access", JStr "community"); ("communityString", JStr "public")])]).
Proof. split; reflexivity. Qed.

(** ** Site-to-site VPN *)

(** C3. The specification has hubs whose name is not in the cache
    dropped in spoke mode and, when none survives, the mode sent as [hub].
    The code at the failing input: the single hub [HQ] is unknown, and the update is
    invoked with mode [spoke] and the hub as written. *)
Theorem spoke_with_unknown_hub_sent_unchanged :
  utils.site_to_site_vpn_config fresh_org (JStr "N_1") []
    (JDict [("mode", JStr "spoke"); ("hubs", JList [JDict [("hubId", JStr "HQ")]])]) []
  = (Ret (Success, Value (JDict [])),
     [Enter "siteToSiteVPN";
      Call (updateNetworkApplianceVpnSiteToSiteVpn (JStr "N_1")
              [("mode", JStr "spoke"); ("hubs", JList [JDict [("hubId", JStr "HQ")]])])]).
Proof. reflexivity. Qed.

(** What does hold: a known hub is translated in place, an unknown one is
    left in the list, and without hubs the mode becomes [hub]. *)
Example spoke_hub_translation :
  calls (snd (utils.site_to_site_vpn_config fresh_org (JStr "N_1")
                [("HQ", JStr "N_9")]
                (JDict [("mode", JStr "spoke");
                        ("hubs", JList [JDict [("hubId", JStr "HQ")];
                                        JDict [("hubId", JStr "Lab")]])]) []))
  = [updateNetworkApplianceVpnSiteToSiteVpn (JStr "N_1")
       [("mode", JStr "spoke");
        ("hubs", JList [JDict [("hubId", JStr "N_9")]; JDict [("hubId", JStr "Lab")]])]].
Proof. reflexivity. Qed.

Example spoke_without_hubs :
  calls (snd (utils.site_to_site_vpn_config fresh_org (JStr "N_1") []
                (JDict [("mode", JStr "spoke"); ("hubs", JList [])]) []))
  = [updateNetworkApplianceVpnSiteToSiteVpn (JStr "N_1")
       [("mode", JStr "hub"); ("hubs", JList [])]].
Proof. reflexivity. Qed.

(** ** The completion report *)

Lemma update_In k : forall keys acc,
  In k (setup.update acc keys) <-> In k acc \/ In k keys.
Proof.
  unfold setup.update. induction keys as [|x keys IH]; intros acc; simpl.
  - tauto.
  - rewrite IH. destruct (existsb (String.eqb x) acc) eqn:E.
    + apply existsb_exists in E. destruct E as (y & Hy & Exy).
      apply String.eqb_eq in Exy. subst y.
      intuition (subst; auto).
    + rewrite in_app_iff. simpl. intuition.
Qed.

Lemma update_NoDup : forall keys acc, NoDup acc -> NoDup (setup.update acc keys).
Proof.
  unfold setup.update. induction keys as [|x keys IH]; intros acc ND; simpl.
  - assumption.
  - apply IH. destruct (existsb (String.eqb x) acc) eqn:E; [assumption|].
    apply NoDup_app; auto.
    + repeat constructor. simpl. tauto.
    + intros y Hy [<-|[]].
      assert (existsb (String.eqb x) acc = true); [|congruence].
      apply existsb_exists. exists x. split; [assumption|apply String.eqb_refl].
Qed.

Lemma unique_settings_spec completions :
  NoDup (setup.unique_settings completions) /\
  (forall key, In key (setup.unique_settings completions) <->
               exists c, In c completions /\ In key (Dict.keys (settings c))).
Proof.
  unfold setup.unique_settings.
  assert (G : forall cs acc,
             NoDup acc ->
             NoDup (fold_left (fun acc c => setup.update acc (Dict.keys (settings c))) cs acc) /\
             (forall key,
                 In key (fold_left (fun acc c => setup.update acc (Dict.keys (settings c)))
                                   cs acc) <->
                 In key acc \/ exists c, In c cs /\ In key (Dict.keys (settings c)))).
  { induction cs as [|c cs IH]; intros acc ND; simpl.
    - split; [assumption|]. intros key. split; [tauto|].
      intros [H|(c & [] & _)]. assumption.
    - destruct (IH (setup.update acc (Dict.keys (settings c)))) as [N I].
      { now apply update_NoDup. }
      split; [assumption|]. intros key. rewrite I, update_In. split.
      + intros [[H|H]|(c' & H1 & H2)]; eauto.
      + intros [H|(c' & [<-|H1] & H2)]; eauto. }
  destruct (G completions [] (NoDup_nil _)) as [N I]. split; [assumption|].
  intros key. rewrite I. simpl. split; [intros [[]|H]; assumption|auto].
Qed.

(** C9 (amended). The columns of the report are the sorted, duplicate-free
    union of the section names of all completion records; there is one row
    per record, in the order of the records, and its cell under a column
    shows the status recorded for that section, or is empty when the
    record has no entry for it. *)
Theorem report_columns_and_cells completions :
  Sorted (fun a b => String.leb a b = true) (setup.columns completions) /\
  NoDup (setup.columns completions) /\
  (forall key, In key (setup.columns completions) <->
               exists c, In c completions /\ In key (Dict.keys (settings c))) /\
  setup.rows completions =
  map (fun c => (_name c,
                 map (fun key => match Dict.get key (settings c) with
                                 | Some e => styled (status e)
                                 | None => ""
                                 end)
                     (setup.columns completions)))
      completions.
Proof.
  destruct (unique_settings_spec completions) as [N I].
  pose proof (setup.StringSort.Permuted_sort (setup.unique_settings completions)) as P.
  unfold setup.columns, setup.sorted.
  split; [exact (setup.StringSort.Sorted_sort _)|].
  split; [eapply Permutation_NoDup; eauto|].
  split.
  - intros key. rewrite <- I. split; apply Permutation_in; [now apply Permutation_sym|assumption].
  - reflexivity.
Qed.

(** C9, as stated, fails on the last point: a section a network never
    declared gives an empty cell, not [Skipped]. *)
Lemma undeclared_section_cell_is_empty :
  let completions := [recorded "Branch1" [("creation", Success); ("vlans", Partial)];
                      recorded "Branch2" [("creation", Success); ("amp", Skipped)]] in
  setup.columns completions = ["amp"; "creation"; "vlans"] /\
  setup.rows completions =
  [(JStr "Branch1", [""; "[green]Success[/green]"; "[yellow]Partial[/yellow]"]);
   (JStr "Branch2", ["[red]Skipped[/red]"; "[green]Success[/green]"; ""])].
Proof. split; reflexivity. Qed.

(** ** Dangling references *)

Section Ends.
Context {A B : Type}.

Lemma ends_ret (P : A -> Prop) a : P a -> ends P (ret a).
Proof. intros H tr a' tr' E. inversion E; subst. assumption. Qed.

Lemma ends_raise (P : A -> Prop) : ends P raise.
Proof. intros tr a tr' E. discriminate. Qed.

Lemma ends_bind (P : B -> Prop) (m : M A) (k : A -> M B) :
  (forall a, ends P (k a)) -> ends P (bind m k).
Proof.
  intros H tr b tr' E. rewrite bind_run in E.
  destruct (m tr) as [[a|] tr1]; [|discriminate]. eapply H; eauto.
Qed.

Lemma ends_bind_with (Q : A -> Prop) (P : B -> Prop) (m : M A) (k : A -> M B) :
  ends Q m -> (forall a, Q a -> ends P (k a)) -> ends P (bind m k).
Proof.
  intros Hm H tr b tr' E. rewrite bind_run in E.
  destruct (m tr) as [[a|] tr1] eqn:Em; [|discriminate].
  eapply H; eauto.
Qed.

End Ends.

Lemma ends_with_ref {A} (P : A -> Prop) w config (not_found : M A) k :
  ends P not_found -> (forall c, ends P (k c)) -> ends P (utils.with_ref w config not_found k).
Proof.
  intros Hn Hk. unfold utils.with_ref.
  apply ends_bind. intros has_ref. destruct has_ref; [|apply Hk].
  apply ends_bind. intros filename. apply ends_bind. intros c.
  destruct (truthy c); auto.
Qed.


Lemma ends_foreach {A S} (I : S -> Prop) (body : S -> A -> M S) xs :
  (forall acc x, I acc -> ends I (body acc x)) ->
  forall acc, I acc -> ends I (foreach xs acc body).
Proof.
  intros Hb. induction xs as [|x xs IH]; intros acc Ha; simpl.
  - now apply ends_ret.
  - eapply ends_bind_with; [apply Hb; assumption|]. intros acc' Ha'. now apply IH.
Qed.


Ltac ends_step :=
  match goal with
  | |- ends _ (bind _ _) => apply ends_bind; intros; cbv beta
  | |- ends _ (ret _) => apply ends_ret; first [reflexivity | simpl; auto]
  | |- ends _ raise => apply ends_raise
  | |- ends _ (utils.with_ref _ _ _ _) => apply ends_with_ref; intros; cbv beta
  | |- ends _ (match ?x with _ => _ end) => destruct x
  | |- ends _ (let '(_, _) := ?x in _) => destruct x
  | |- ends _ (if ?b then _ else _) => destruct b
  end.
Ltac ends_tac := repeat ends_step.

(** *** Items of the list appliers *)




(** *** Nested parts *)





(** *** A status that is [Partial] stays [Partial] *)

Lemma custom_get_separate d k :
  Dict.wf d -> is_custom k = true ->
  Dict.get k (fst (separate_custom_fields d)) = Dict.get k d.
Proof.
  intros W C. rewrite separate_custom_fields_filter by assumption. simpl.
  unfold custom_entry. rewrite (get_filter is_custom). now rewrite C.
Qed.












Lemma wf_del {V} k (d : dict_of V) : Dict.wf d -> Dict.wf (Dict.del k d).
Proof.
  unfold Dict.wf, Dict.del. intros W.
  rewrite (keys_filter (fun k' => negb (String.eqb k k'))). now apply NoDup_filter.
Qed.






(** *** Sections, and the builder after a failed section *)



(** *** Items with a dangling part *)

Lemma table_has_run k t tr :
  hashable k = true ->
  table_has k t tr = (Ret (match table_get k t with Some _ => true | None => false end), tr).
Proof. intros H. unfold table_has. now rewrite H. Qed.

(** A device item whose own fields are in place. *)
Lemma device_item_run w status d tr :
  Dict.wf d -> Dict.has "_ref" d = false ->
  utils.device_item w status (JDict d) tr
  = match Dict.get "serial" d with
    | None => (Ret Partial, tr)
    | Some serial =>
        let update :=
          updateDevice serial
            (filter (fun kv => negb (startswith "_" (fst kv))) (Dict.del "serial" d)) in
        match meraki_functions.guarded (backend w tr update) with
        | Err _ _ => (Ret Partial, tr ++ [Call update])
        | Ok _ =>
            utils.device_uplinks w serial
              (filter (fun kv => startswith "_" (fst kv)) (Dict.del "serial" d))
              status (tr ++ [Call update])
        end
    end.
Proof.
  intros W R. unfold utils.device_item. rewrite (with_ref_absent _ _ _ _ _ R).
  change (py_in "serial" (JDict d)) with (Some (Dict.has "serial" d)).
  change (py_getitem "serial" (JDict d)) with (Dict.get "serial" d).
  rewrite bind_lift. unfold Dict.has.
  destruct (Dict.get "serial" d) as [serial|]; [|reflexivity].
  rewrite bind_lift. unfold utils.separate. rewrite bind_ret.
  rewrite (separate_custom_fields_filter _ (wf_del "serial" d W)).
  unfold custom_entry, plain_entry, is_custom.
  unfold meraki_functions.update_device, meraki_functions.with_kwargs.
  rewrite !bind_run. unfold meraki_functions.sdk at 1. unfold ret at 1.
  cbv zeta. destruct (meraki_functions.guarded _); reflexivity.
Qed.








(** The runs behind the nested parts of the witness: the VLAN whose
    [_dhcp] dangles is created, no DHCP update is made for it, the next
    VLAN is created and the section is [Partial]; the device whose
    [_mx_uplinks] dangles is updated, no uplink call is made, the next
    device is updated and the section is [Partial]. *)
Example dangling_dhcp_part_run :
  utils.vlans_config fresh_org (JStr "N_1")
    (JList [JDict [("id", JNum 10); ("name", JStr "Data");
                   ("_dhcp", JDict [("_ref", JStr "dhcp10.json")])];
            JDict [("id", JNum 20); ("name", JStr "Voice")]]) []
  = (Ret (Partial, Value (JDict [])),
     [Enter "vlans";
      Call (getNetworkGroupPolicies (JStr "N_1"));
      Call (updateNetworkApplianceVlansSettings (JStr "N_1"));
      Call (createNetworkApplianceVlan (JStr "N_1") [("id", JNum 10); ("name", JStr "Data")]);
      Call (updateNetworkApplianceVlansSettings (JStr "N_1"));
      Call (createNetworkApplianceVlan (JStr "N_1") [("id", JNum 20); ("name", JStr "Voice")]);
      Call (getNetworkApplianceVlans (JStr "N_1"))]).
Proof. reflexivity. Qed.

Example dangling_uplinks_part_run :
  utils.devices_config fresh_org (JStr "N_1")
    (JList [JDict [("serial", JStr "Q2AA");
                   ("_mx_uplinks", JDict [("_ref", JStr "uplinks.json")])];
            JDict [("serial", JStr "Q2BB")]]) []
  = (Ret (Partial, Value (JDict [])),
     [Enter "devices";
      Call (updateDevice (JStr "Q2AA") []);
      Call (updateDevice (JStr "Q2BB") []);
      Call (getNetworkDevices (JStr "N_1"))]).
Proof. reflexivity. Qed.

(** The run behind the witness: the first VLAN is skipped, the second is
    created, and the section is [Partial]. *)
Example dangling_vlan_item_run :
  utils.vlans_config fresh_org (JStr "N_1")
    (JList [JDict [("_ref", JStr "vlan10.json")];
            JDict [("id", JNum 20); ("name", JStr "Voice")]]) []
  = (Ret (Partial, Value (JDict [])),
     [Enter "vlans";
      Call (getNetworkGroupPolicies (JStr "N_1"));
      Call (updateNetworkApplianceVlansSettings (JStr "N_1"));
      Call (createNetworkApplianceVlan (JStr "N_1") [("id", JNum 20); ("name", JStr "Voice")]);
      Call (getNetworkApplianceVlans (JStr "N_1"))]).
Proof. reflexivity. Qed.

(** ** Firmware upgrades *)

Section Pure.
Context {A B : Type}.

Lemma pure_ret (a : A) : pure (ret a).
Proof. now intros tr. Qed.

Lemma pure_raise : pure (@raise A).
Proof. now intros tr. Qed.

Lemma pure_lift (o : option A) : pure (lift o).
Proof. destruct o; [apply pure_ret|apply pure_raise]. Qed.

Lemma pure_bind (m : M A) (k : A -> M B) :
  pure m -> (forall a, pure (k a)) -> pure (bind m k).
Proof.
  intros Hm Hk tr. rewrite !bind_run, (Hm tr).
  pose proof (Hm []) as H0.
  destruct (m []) as [o tr0]. simpl in *. inversion H0; subst.
  destruct o as [a|]; [|reflexivity].
  now rewrite (Hk a tr).
Qed.
End Pure.

Lemma pure_foreach {A S} (xs : list A) (body : S -> A -> M S) :
  (forall acc x, pure (body acc x)) -> forall acc, pure (foreach xs acc body).
Proof.
  intros Hb. induction xs as [|x xs IH]; intros acc; simpl.
  - apply pure_ret.
  - apply pure_bind; auto.
Qed.

Lemma pure_table_store k v t : pure (table_store k v t).
Proof. unfold table_store. destruct (hashable k); [apply pure_ret|apply pure_raise]. Qed.

Lemma pure_firmware_table response : pure (utils.firmware_table response).
Proof.
  unfold utils.firmware_table, utils.add_version.
  repeat first [ apply pure_bind; [|intros] | apply pure_lift | apply pure_foreach; intros
               | apply pure_table_store ].
Qed.

Lemma get_middle {V} p (v : V) done rest :
  ~ In p (Dict.keys done) -> Dict.get p (done ++ (p, v) :: rest) = Some v.
Proof.
  induction done as [|[k x] done IH]; simpl; intros N.
  - now rewrite String.eqb_refl.
  - destruct (String.eqb_spec p k); [subst; tauto|]. apply IH. tauto.
Qed.

Lemma set_middle {V} p (v v' : V) done rest :
  ~ In p (Dict.keys done) ->
  Dict.set p v' (done ++ (p, v) :: rest) = done ++ (p, v') :: rest.
Proof.
  induction done as [|[k x] done IH]; simpl; intros N.
  - now rewrite String.eqb_refl.
  - destruct (String.eqb_spec p k); [subst; tauto|]. rewrite IH; tauto.
Qed.

(** One iteration of the translation loop on a well-shaped product. *)
Lemma translate_product_step tbl done p pu rest shorts tr :
  ~ In p (Dict.keys done) -> request_shape pu = true ->
  utils.translate_product tbl
    {| utils.tr_products := JDict (done ++ (p, pu) :: rest);
       utils.firmware_shortnames := shorts;
       utils.not_found := None |} (JStr p) tr
  = (Ret match requested pu with
         | None =>
             {| utils.tr_products := JDict (done ++ (p, pu) :: rest);
                utils.firmware_shortnames := shorts;
                utils.not_found := None |}
         | Some s =>
             match table_get s tbl with
             | Some id =>
                 {| utils.tr_products := JDict (done ++ (p, with_version_id id pu) :: rest);
                    utils.firmware_shortnames := shorts ++ [s];
                    utils.not_found := None |}
             | None =>
                 {| utils.tr_products := JDict (done ++ (p, pu) :: rest);
                    utils.firmware_shortnames := shorts;
                    utils.not_found := Some s |}
             end
         end, tr).
Proof.
  intros N Sh. unfold utils.translate_product.
  cbn [utils.not_found utils.tr_products utils.firmware_shortnames py_subscript].
  rewrite (get_middle _ _ _ _ N), bind_lift.
  destruct pu as [| | | | |pu]; try discriminate Sh.
  unfold requested, to_version, with_version_id. simpl py_in. simpl py_getitem.
  unfold Dict.has. simpl in Sh.
  destruct (Dict.get "nextUpgrade" pu) as [nu|] eqn:E1; rewrite bind_lift; [|reflexivity].
  rewrite bind_lift.
  destruct nu as [| | | | |nu]; try discriminate Sh.
  simpl py_in. simpl py_getitem. unfold Dict.has.
  destruct (Dict.get "toVersion" nu) as [tv|] eqn:E2; rewrite bind_lift; [|reflexivity].
  rewrite bind_lift.
  destruct tv as [| | | | |tv]; try discriminate Sh.
  simpl py_in. simpl py_getitem. unfold Dict.has.
  destruct (Dict.get "_name_id" tv) as [s|] eqn:E3; rewrite bind_lift; [|reflexivity].
  rewrite bind_lift, bind_run, (table_has_run _ _ _ Sh).
  destruct (table_get s tbl) as [id|] eqn:E4; [|reflexivity].
  simpl py_store. rewrite (set_middle _ _ _ _ _ N). reflexivity.
Qed.

Lemma translate_stopped tbl s : forall names acc tr,
  utils.not_found acc = Some s ->
  foreach names acc (utils.translate_product tbl) tr = (Ret acc, tr).
Proof.
  induction names as [|x names IH]; intros acc tr H; [reflexivity|].
  rewrite foreach_cons. unfold utils.translate_product at 1. rewrite H. simpl.
  now apply IH.
Qed.

Lemma keys_app {V} (a b : dict_of V) : Dict.keys (a ++ b) = Dict.keys a ++ Dict.keys b.
Proof. unfold Dict.keys. apply map_app. Qed.

(** The loop of [firmware_upgrade] computes [spec_translate]. *)
Lemma translate_loop tbl : forall todo done shorts tr,
  NoDup (Dict.keys (done ++ todo)) ->
  forallb request_shape (map snd todo) = true ->
  foreach (map JStr (Dict.keys todo))
          {| utils.tr_products := JDict (done ++ todo);
             utils.firmware_shortnames := shorts;
             utils.not_found := None |}
          (utils.translate_product tbl) tr
  = (Ret (let '(translated, names, unknown) := spec_translate tbl todo in
          {| utils.tr_products := JDict (done ++ translated);
             utils.firmware_shortnames := shorts ++ names;
             utils.not_found := unknown |}), tr).
Proof.
  induction todo as [|[p pu] rest IH]; intros done shorts tr ND Sh.
  - simpl. now rewrite !app_nil_r.
  - simpl in Sh. apply andb_prop in Sh. destruct Sh as [Sp Sr].
    assert (N : ~ In p (Dict.keys done)).
    { rewrite keys_app in ND. simpl in ND. apply NoDup_remove_2 in ND.
      intros H. apply ND. apply in_or_app. now left. }
    assert (ND' : forall x, NoDup (Dict.keys ((done ++ [(p, x)]) ++ rest))).
    { intros x. rewrite <- app_assoc. rewrite keys_app in *. exact ND. }
    simpl map. rewrite foreach_cons, (translate_product_step _ _ _ _ _ _ _ N Sp).
    simpl spec_translate.
    destruct (requested pu) as [s|].
    + destruct (table_get s tbl) as [id|].
      * replace (done ++ (p, with_version_id id pu) :: rest)
          with ((done ++ [(p, with_version_id id pu)]) ++ rest)
          by (now rewrite <- app_assoc).
        rewrite (IH _ _ _ (ND' _) Sr).
        destruct (spec_translate tbl rest) as [[translated names] unknown].
        now rewrite <- !app_assoc.
      * rewrite (translate_stopped tbl s) by reflexivity.
        now rewrite app_nil_r.
    + replace (done ++ (p, pu) :: rest) with ((done ++ [(p, pu)]) ++ rest)
        by (now rewrite <- app_assoc).
      rewrite (IH _ _ _ (ND' _) Sr).
      destruct (spec_translate tbl rest) as [[translated names] unknown].
      now rewrite <- !app_assoc.
Qed.

(** What [spec_translate] returns when a requested name is unknown. *)
Lemma spec_translate_unknown tbl : forall ps,
  (exists p pu s, In (p, pu) ps /\ requested pu = Some s /\ table_get s tbl = None) ->
  exists s, snd (spec_translate tbl ps) = Some s /\ table_get s tbl = None.
Proof.
  induction ps as [|[p pu] rest IH]; intros (p0 & pu0 & s0 & Hin & Hr & Ht).
  - destruct Hin.
  - simpl. destruct (requested pu) as [s|] eqn:R.
    + destruct (table_get s tbl) as [id|] eqn:T.
      * destruct Hin as [E|Hin]; [inversion E; subst; congruence|].
        destruct IH as (s1 & E1 & T1); [eauto 6|].
        destruct (spec_translate tbl rest) as [[translated names] unknown].
        simpl in *. eauto.
      * simpl. eauto.
    + destruct Hin as [E|Hin]; [inversion E; subst; congruence|].
      destruct IH as (s1 & E1 & T1); [eauto 6|].
      destruct (spec_translate tbl rest) as [[translated names] unknown].
      simpl in *. eauto.
Qed.

Lemma with_version_id_spec id pu s :
  request_shape pu = true -> requested pu = Some s ->
  requested (with_version_id id pu) = None /\
  version_id (with_version_id id pu) = Some id.
Proof.
  unfold request_shape, requested, version_id, to_version, with_version_id.
  destruct pu as [| | | | |pu]; try discriminate. simpl py_getitem.
  destruct (Dict.get "nextUpgrade" pu) as [[| | | | |nu]|]; try discriminate.
  simpl py_getitem.
  destruct (Dict.get "toVersion" nu) as [[| | | | |tv]|]; try discriminate.
  simpl py_getitem. intros _ _.
  rewrite !get_set_same. simpl. rewrite !get_set_same. simpl.
  rewrite get_set_same. rewrite get_set_other by discriminate.
  now rewrite get_del_same.
Qed.

(** What [spec_translate] returns when every requested name is known. *)
Lemma spec_translate_known tbl : forall ps,
  Dict.wf ps ->
  forallb request_shape (map snd ps) = true ->
  (forall p pu s, In (p, pu) ps -> requested pu = Some s -> table_get s tbl <> None) ->
  snd (spec_translate tbl ps) = None /\
  Dict.keys (fst (fst (spec_translate tbl ps))) = Dict.keys ps /\
  (forall p pu, In (p, pu) ps ->
     exists pu', Dict.get p (fst (fst (spec_translate tbl ps))) = Some pu' /\
                 match requested pu with
                 | None => pu' = pu
                 | Some s => requested pu' = None /\ version_id pu' = table_get s tbl
                 end).
Proof.
  induction ps as [|[p pu] rest IH]; intros W Sh K.
  - simpl. repeat split. intros p pu [].
  - simpl in Sh. apply andb_prop in Sh. destruct Sh as [Sp Sr].
    unfold Dict.wf in W. simpl in W. inversion W as [|? ? Np Wr]; subst.
    destruct IH as (U & Ks & Es); [exact Wr|exact Sr|intros; eapply K; simpl; eauto|].
    assert (Other : forall q qu, In (q, qu) rest -> String.eqb q p = false).
    { intros q qu Hq. apply String.eqb_neq. intros ->. apply Np.
      unfold Dict.keys. apply in_map_iff. exists (p, qu). auto. }
    simpl. destruct (requested pu) as [s|] eqn:R.
    + destruct (table_get s tbl) as [id|] eqn:T; [|destruct (K p pu s); simpl; auto].
      destruct (spec_translate tbl rest) as [[translated names] unknown]. simpl in *.
      split; [assumption|]. split; [now rewrite Ks|].
      intros q qu [E|Hq].
      * inversion E; subst. rewrite String.eqb_refl. eexists. split; [reflexivity|].
        rewrite R, T. now apply with_version_id_spec with (s := s).
      * rewrite (Other _ _ Hq). now apply Es.
    + destruct (spec_translate tbl rest) as [[translated names] unknown]. simpl in *.
      split; [assumption|]. split; [now rewrite Ks|].
      intros q qu [E|Hq].
      * inversion E; subst. rewrite String.eqb_refl. eexists. split; [reflexivity|].
        now rewrite R.
      * rewrite (Other _ _ Hq). now apply Es.
Qed.

Lemma with_ref_resolves {A} w config resolved (not_found : M A) k tr :
  resolves_to w config resolved ->
  utils.with_ref w config not_found k tr = k resolved tr.
Proof.
  intros [(d & -> & R & ->)|L].
  - now apply with_ref_absent.
  - now apply with_ref_loads.
Qed.

(** The applier up to the point where the translation is known. *)
Lemma firmware_upgrade_run w net_id config c ps response tbl tr :
  resolves_to w config (JDict c) ->
  backend w (tr ++ [Enter "firmware"]) (getNetworkFirmwareUpgrades net_id) = Returns response ->
  fst (utils.firmware_table response []) = Ret tbl ->
  Dict.get "products" c = Some (JDict ps) ->
  Dict.wf ps ->
  forallb request_shape (map snd ps) = true ->
  utils.firmware_upgrade w net_id config tr
  = match snd (spec_translate tbl ps) with
    | Some shortname =>
        (Ret (Failure,
              FString [Lit "Unable to find version `"; Interp shortname;
                       Lit "` in available versions: "; InterpTable tbl]),
         tr ++ [Enter "firmware"; Call (getNetworkFirmwareUpgrades net_id)])
    | None =>
        bind (meraki_functions.trigger_network_firmware_upgrades w net_id
                (JDict (Dict.set "products"
                          (JDict (fst (fst (spec_translate tbl ps)))) c)))
             (fun r =>
                match r with
                | Err _ message => ret (Failure, Value (JStr message))
                | Ok _ => ret (Success, Value (JList (snd (fst (spec_translate tbl ps)))))
                end)
             (tr ++ [Enter "firmware"; Call (getNetworkFirmwareUpgrades net_id)])
    end.
Proof.
  intros Res Fetch Tbl Prod W Sh.
  unfold utils.firmware_upgrade, utils.enter. rewrite bind_run. unfold emit.
  rewrite (with_ref_resolves _ _ _ _ _ _ Res).
  unfold meraki_functions.get_network_firmware_upgrades, meraki_functions.plain.
  rewrite !bind_run. unfold meraki_functions.sdk at 1. rewrite Fetch.
  unfold ret at 1. unfold meraki_functions.guarded at 1. cbv beta iota.
  rewrite bind_run, (pure_firmware_table response _), Tbl.
  assert (Hp : py_in "products" (JDict c) = Some true)
    by (simpl; unfold Dict.has; now rewrite Prod).
  rewrite bind_lift, Hp, bind_run, bind_lift. simpl py_getitem. rewrite Prod.
  rewrite bind_lift. simpl py_iter.
  pose proof (fun t => translate_loop tbl ps [] [] t W Sh) as L.
  change ([] ++ ps) with ps in L. cbv beta iota. rewrite L. clear L.
  rewrite <- app_assoc. simpl app.
  destruct (spec_translate tbl ps) as [[translated names] unknown]. simpl.
  destruct unknown; reflexivity.
Qed.

Lemma trigger_trace w net_id kwargs tr :
  snd (meraki_functions.trigger_network_firmware_upgrades w net_id (JDict kwargs) tr)
  = tr ++ [Call (updateNetworkFirmwareUpgrades net_id kwargs)].
Proof.
  unfold meraki_functions.trigger_network_firmware_upgrades.
  rewrite bind_run. unfold meraki_functions.sdk.
  destruct (backend w tr _) as [response|e|t]; try reflexivity.
  rewrite bind_lift. destruct (first_error e) as [first|]; [|reflexivity].
  destruct (contains _ first); reflexivity.
Qed.

(** *** The table of known versions *)

Lemma key_eqb_sym a b : key_eqb a b = key_eqb b a.
Proof.
  destruct a, b; simpl; try reflexivity; try apply String.eqb_sym; apply Z.eqb_sym.
Qed.

Lemma key_eqb_trans a b c :
  key_eqb a b = true -> key_eqb b c = true -> key_eqb a c = true.
Proof.
  destruct a, b, c; simpl; try discriminate; try reflexivity;
    rewrite ?Z.eqb_eq, ?String.eqb_eq; congruence.
Qed.

Lemma key_eqb_congr s k k' : key_eqb k k' = true -> key_eqb s k' = key_eqb s k.
Proof.
  intros E. destruct (key_eqb s k) eqn:A.
  - eapply key_eqb_trans; eauto.
  - destruct (key_eqb s k') eqn:B; [|reflexivity].
    rewrite <- A. symmetry. eapply key_eqb_trans; [exact B|].
    now rewrite key_eqb_sym.
Qed.

Lemma table_get_set s k v : forall t,
  table_get s (table_set k v t) = if key_eqb s k then Some v else table_get s t.
Proof.
  induction t as [|[k' v'] t IH]; simpl.
  - reflexivity.
  - destruct (key_eqb k k') eqn:E; simpl.
    + rewrite (key_eqb_congr s k k' E). now destruct (key_eqb s k).
    + rewrite IH. destruct (key_eqb s k') eqn:A; [|reflexivity].
      destruct (key_eqb s k) eqn:B; [|reflexivity].
      rewrite key_eqb_sym in B. rewrite (key_eqb_trans _ _ _ B A) in E. discriminate.
Qed.

Lemma fold_get s : forall pairs t,
  table_get s (fold_left (fun t kv => table_set (fst kv) (snd kv) t) pairs t)
  = match last_assigned s pairs with
    | Some v => Some v
    | None => table_get s t
    end.
Proof.
  induction pairs as [|[k v] pairs IH]; intros t; simpl; [reflexivity|].
  rewrite IH. destruct (last_assigned s pairs); [reflexivity|].
  rewrite table_get_set. now destruct (key_eqb s k).
Qed.

(** A filled mapping answers with the last pair stored for the key. *)
Lemma filled_get s pairs : table_get s (filled pairs) = last_assigned s pairs.
Proof. unfold filled. rewrite fold_get. now destruct (last_assigned s pairs). Qed.

Lemma last_assigned_none s : forall pairs,
  last_assigned s pairs = None <->
  (forall name id, In (name, id) pairs -> key_eqb s name = false).
Proof.
  induction pairs as [|[k v] pairs IH]; simpl.
  - split; [intros _ name id []|reflexivity].
  - destruct (last_assigned s pairs) as [x|].
    + split; [discriminate|]. intros H. apply IH.
      intros name id Hin. apply (H name id). now right.
    + destruct (key_eqb s k) eqn:E.
      * split; [discriminate|]. intros H. rewrite (H k v) in E by now left. discriminate.
      * split; [|reflexivity]. intros _ name id [Q|Hin].
        -- inversion Q; subst. exact E.
        -- apply (proj1 IH eq_refl name id Hin).
Qed.

Lemma fold_filled pairs : forall more,
  fold_left (fun t kv => table_set (fst kv) (snd kv) t) more (filled pairs)
  = filled (pairs ++ more).
Proof. intros more. unfold filled. now rewrite fold_left_app. Qed.

(** The loop that stores two fields of every element. *)
Lemma store_pairs_loop kf vf (body : table -> json -> M table) :
  (forall t element k v tr,
      py_getitem kf element = Some k -> py_getitem vf element = Some v ->
      hashable k = true ->
      body t element tr = (Ret (table_set k v t), tr)) ->
  forall elements pairs t tr,
    field_pairs kf vf elements = Some pairs ->
    foreach elements t body tr
    = (Ret (fold_left (fun t kv => table_set (fst kv) (snd kv) t) pairs t), tr).
Proof.
  intros Step. induction elements as [|element rest IH]; intros pairs t tr H; simpl in H.
  - inversion H; subst. reflexivity.
  - destruct (py_getitem kf element) as [k|] eqn:Ek; [|discriminate].
    destruct (py_getitem vf element) as [v|] eqn:Ev; [|discriminate].
    destruct (field_pairs kf vf rest) as [others|]; [|discriminate].
    destruct (hashable k) eqn:Eh; [|discriminate]. inversion H; subst.
    rewrite foreach_cons, (Step _ _ _ _ _ Ek Ev Eh). simpl fold_left. now apply IH.
Qed.

Lemma add_version_run t version k v tr :
  py_getitem "shortName" version = Some k -> py_getitem "id" version = Some v ->
  hashable k = true ->
  utils.add_version t version tr = (Ret (table_set k v t), tr).
Proof.
  intros Ek Ev Eh. unfold utils.add_version.
  rewrite bind_lift, Ev, bind_lift, Ek. unfold table_store. now rewrite Eh.
Qed.

Lemma table_of_run kf vf elements pairs tr :
  field_pairs kf vf elements = Some pairs ->
  utils.table_of kf vf (JList elements) tr = (Ret (filled pairs), tr).
Proof.
  intros H. unfold utils.table_of. simpl py_iter. rewrite bind_lift.
  unfold filled. apply (store_pairs_loop kf vf); [|exact H].
  intros t element k v tr0 Ek Ev Eh.
  rewrite bind_lift, Ek, bind_lift, Ev. unfold table_store. now rewrite Eh.
Qed.

(** The table of [firmware_upgrade] is filled with the versions the
    catalog lists, product after product. *)
Lemma firmware_table_loop : forall todo done versions t tr,
  NoDup (Dict.keys (done ++ todo)) ->
  listed_versions todo = Some versions ->
  foreach (map JStr (Dict.keys todo)) t
    (fun firmware_name_to_id product =>
       info <- lift (py_subscript (JDict (done ++ todo)) product) ;;
       current_version <- lift (py_getitem "currentVersion" info) ;;
       firmware_name_to_id <- utils.add_version firmware_name_to_id current_version ;;
       info <- lift (py_subscript (JDict (done ++ todo)) product) ;;
       available_versions <- lift (py_getitem "availableVersions" info) ;;
       versions <- lift (py_iter available_versions) ;;
       foreach versions firmware_name_to_id utils.add_version) tr
  = (Ret (fold_left (fun t kv => table_set (fst kv) (snd kv) t) versions t), tr).
Proof.
  induction todo as [|[p info] rest IH]; intros done versions t tr ND H; simpl in H.
  - inversion H; subst. reflexivity.
  - destruct (product_versions info) as [mine|] eqn:Ep; [|discriminate].
    destruct (listed_versions rest) as [others|] eqn:Er; [|discriminate].
    inversion H; subst. clear H.
    assert (N : ~ In p (Dict.keys done)).
    { rewrite keys_app in ND. simpl in ND. apply NoDup_remove_2 in ND.
      intros H. apply ND. apply in_or_app. now left. }
    unfold product_versions in Ep.
    destruct (py_getitem "currentVersion" info) as [current|] eqn:Ec; [|discriminate].
    destruct (py_getitem "availableVersions" info) as [[| | | |available|]|] eqn:Eav;
      try discriminate.
    simpl field_pairs in Ep.
    destruct (py_getitem "shortName" current) as [k|] eqn:Ek; [|discriminate].
    destruct (py_getitem "id" current) as [v|] eqn:Ev; [|discriminate].
    destruct (field_pairs "shortName" "id" available) as [more|] eqn:Ea; [|discriminate].
    destruct (hashable k) eqn:Eh; [|discriminate]. inversion Ep; subst. clear Ep.
    simpl map. rewrite foreach_cons. cbv beta.
    change (py_subscript (JDict (done ++ (p, info) :: rest)) (JStr p))
      with (Dict.get p (done ++ (p, info) :: rest)).
    rewrite (get_middle _ _ _ _ N). rewrite bind_lift, Ec, bind_lift.
    rewrite bind_run, (add_version_run _ _ _ _ _ Ek Ev Eh).
    rewrite bind_lift, Eav, bind_lift. simpl py_iter. rewrite bind_lift.
    rewrite (store_pairs_loop "shortName" "id" utils.add_version
               (fun t e k v tr => add_version_run t e k v tr) available more _ _ Ea).
    replace (done ++ (p, info) :: rest) with ((done ++ [(p, info)]) ++ rest)
      by (now rewrite <- app_assoc).
    rewrite (IH (done ++ [(p, info)]) others).
    + rewrite fold_left_app. reflexivity.
    + now rewrite <- app_assoc.
    + reflexivity.
Qed.

Lemma firmware_table_run response catalog versions tr :
  py_getitem "products" response = Some (JDict catalog) ->
  Dict.wf catalog ->
  listed_versions catalog = Some versions ->
  utils.firmware_table response tr = (Ret (filled versions), tr).
Proof.
  intros Hp W L. unfold utils.firmware_table.
  rewrite bind_lift, Hp. simpl py_iter. rewrite bind_lift.
  exact (firmware_table_loop catalog [] versions [] tr W L).
Qed.

(** What [spec_translate] puts in the place of a product whose requested
    name is known. *)
Lemma spec_translate_exact tbl : forall ps,
  Dict.wf ps ->
  (forall p pu s, In (p, pu) ps -> requested pu = Some s -> table_get s tbl <> None) ->
  forall p pu, In (p, pu) ps ->
    exists pu', Dict.get p (fst (fst (spec_translate tbl ps))) = Some pu' /\
                match requested pu with
                | None => pu' = pu
                | Some s => exists id, table_get s tbl = Some id /\
                                       pu' = with_version_id id pu
                end.
Proof.
  induction ps as [|[q qu] rest IH]; intros W K p pu Hin; [destruct Hin|].
  unfold Dict.wf in W. simpl in W. inversion W as [|? ? Nq Wr]; subst.
  assert (Other : forall p0 pu0, In (p0, pu0) rest -> String.eqb p0 q = false).
  { intros p0 pu0 H0. apply String.eqb_neq. intros ->. apply Nq.
    unfold Dict.keys. apply in_map_iff. exists (q, pu0). auto. }
  assert (IH' : forall p pu, In (p, pu) rest ->
            exists pu', Dict.get p (fst (fst (spec_translate tbl rest))) = Some pu' /\
                        match requested pu with
                        | None => pu' = pu
                        | Some s => exists id, table_get s tbl = Some id /\
                                               pu' = with_version_id id pu
                        end).
  { apply IH; [exact Wr|].
    intros p0 pu0 s0 H0 R0. apply (K p0 pu0 s0); [now right|exact R0]. }
  simpl. destruct (requested qu) as [s|] eqn:R.
  - destruct (table_get s tbl) as [id|] eqn:T; [|destruct (K q qu s); simpl; auto].
    destruct (spec_translate tbl rest) as [[translated names] unknown]. simpl in *.
    destruct Hin as [E|Hin].
    + inversion E; subst. rewrite String.eqb_refl. eexists. split; [reflexivity|].
      rewrite R. eauto.
    + rewrite (Other _ _ Hin). now apply IH'.
  - destruct (spec_translate tbl rest) as [[translated names] unknown]. simpl in *.
    destruct Hin as [E|Hin].
    + inversion E; subst. rewrite String.eqb_refl. eexists. split; [reflexivity|].
      now rewrite R.
    + rewrite (Other _ _ Hin). now apply IH'.
Qed.

(** C6. The firmware applier, on a section whose products are JSON
    objects, after the versions were fetched.  The name-to-id table is
    the one filled with the current version and the available versions
    of every product of the fetched catalog, by short name: it answers a
    name with the id of the last listed version that bears it, and has
    no answer exactly for the names no listed version bears.  Then:
    - when some product requests a [_name_id] that no listed version
      bears, the applier returns [Failure] (naming a requested version
      that is unknown) and the trace ends with the fetch: the upgrade
      operation is not invoked;
    - when every requested name is borne by a listed version, the applier
      invokes the upgrade operation after the fetch, with the section in
      which every product that requested a name is the same product with
      [_name_id] removed from [toVersion] and [id] set to the id of that
      version, the other products being unchanged. *)
Theorem firmware_upgrade_translates_or_fails
        w net_id config c ps response catalog versions tr :
  resolves_to w config (JDict c) ->
  backend w (tr ++ [Enter "firmware"]) (getNetworkFirmwareUpgrades net_id) = Returns response ->
  py_getitem "products" response = Some (JDict catalog) ->
  Dict.wf catalog ->
  listed_versions catalog = Some versions ->
  Dict.get "products" c = Some (JDict ps) ->
  Dict.wf ps ->
  forallb request_shape (map snd ps) = true ->
  (forall tr0, utils.firmware_table response tr0 = (Ret (filled versions), tr0))
  /\
  (forall s, table_get s (filled versions) = last_assigned s versions)
  /\
  (forall s, last_assigned s versions = None <->
             (forall name id, In (name, id) versions -> key_eqb s name = false))
  /\
  ((exists p pu s, In (p, pu) ps /\ requested pu = Some s /\
                   last_assigned s versions = None) ->
   exists shortname,
     last_assigned shortname versions = None /\
     utils.firmware_upgrade w net_id config tr
     = (Ret (Failure,
             FString [Lit "Unable to find version `"; Interp shortname;
                      Lit "` in available versions: "; InterpTable (filled versions)]),
        tr ++ [Enter "firmware"; Call (getNetworkFirmwareUpgrades net_id)]))
  /\
  ((forall p pu s, In (p, pu) ps -> requested pu = Some s ->
                   last_assigned s versions <> None) ->
   exists ps',
     calls (snd (utils.firmware_upgrade w net_id config tr))
     = calls tr ++ [getNetworkFirmwareUpgrades net_id;
                    updateNetworkFirmwareUpgrades net_id
                      (Dict.set "products" (JDict ps') c)] /\
     Dict.keys ps' = Dict.keys ps /\
     (forall p pu, In (p, pu) ps ->
        exists pu', Dict.get p ps' = Some pu' /\
                    match requested pu with
                    | None => pu' = pu
                    | Some s =>
                        exists id, last_assigned s versions = Some id /\
                                   pu' = with_version_id id pu /\
                                   requested pu' = None /\ version_id pu' = Some id
                    end)).
Proof.
  intros Res Fetch Hp Wc L Prod W Sh.
  assert (Tbl : forall tr0,
             utils.firmware_table response tr0 = (Ret (filled versions), tr0)).
  { intros tr0. now apply firmware_table_run with (catalog := catalog). }
  assert (Tbl0 : fst (utils.firmware_table response []) = Ret (filled versions))
    by now rewrite Tbl.
  pose proof (firmware_upgrade_run w net_id config c ps response (filled versions) tr
                Res Fetch Tbl0 Prod W Sh) as Run.
  split; [exact Tbl|]. split; [intros s; apply filled_get|].
  split; [intros s; apply last_assigned_none|]. split.
  - intros (p & pu & s & Hin & Hr & Hn).
    destruct (spec_translate_unknown (filled versions) ps) as (s' & E & T).
    { exists p, pu, s. rewrite filled_get. auto. }
    exists s'. rewrite filled_get in T. split; [exact T|]. rewrite Run, E. reflexivity.
  - intros Known.
    assert (Known' : forall p pu s, In (p, pu) ps -> requested pu = Some s ->
                                    table_get s (filled versions) <> None).
    { intros p pu s Hin Hr. rewrite filled_get. eapply Known; eauto. }
    destruct (spec_translate_known (filled versions) ps W Sh Known') as (E & Ks & Es).
    exists (fst (fst (spec_translate (filled versions) ps))). split; [|split; [assumption|]].
    + rewrite Run, E, bind_run.
      pose proof (trigger_trace w net_id
        (Dict.set "products" (JDict (fst (fst (spec_translate (filled versions) ps)))) c)
        (tr ++ [Enter "firmware"; Call (getNetworkFirmwareUpgrades net_id)])) as T.
      destruct (meraki_functions.trigger_network_firmware_upgrades _ _ _ _)
        as [[[r|code m]|] tr2];
        simpl in T; simpl snd; subst tr2; rewrite !calls_app; simpl;
        now rewrite <- app_assoc.
    + intros p pu Hin.
      destruct (spec_translate_exact (filled versions) ps W Known' p pu Hin)
        as (pu' & G & X).
      destruct (Es p pu Hin) as (pu2 & G2 & X2).
      rewrite G in G2. inversion G2; subst pu2. clear G2.
      exists pu'. split; [exact G|].
      destruct (requested pu) as [s|]; [|exact X].
      destruct X as (id & T & ->). destruct X2 as [R V].
      exists id. rewrite filled_get in T. rewrite filled_get in V.
      repeat split; try assumption. now rewrite V.
Qed.

Lemma firmware_upgrade_translates_or_fails_witness :
  let catalog :=
    [("appliance",
      JDict [("currentVersion", JDict [("id", JNum 2000); ("shortName", JStr "MX 17")]);
             ("availableVersions",
              JList [JDict [("id", JNum 2128); ("shortName", JStr "MX 18.1")]])])] in
  let versions := [(JStr "MX 17", JNum 2000); (JStr "MX 18.1", JNum 2128)] in
  let ps := [("appliance", appliance_request "MX 18.1")] in
  (forall tr0, utils.firmware_table firmware_catalog tr0 = (Ret (filled versions), tr0))
  /\
  (forall s, table_get s (filled versions) = last_assigned s versions)
  /\
  (forall s, last_assigned s versions = None <->
             (forall name id, In (name, id) versions -> key_eqb s name = false))
  /\
  ((exists p pu s, In (p, pu) ps /\ requested pu = Some s /\
                   last_assigned s versions = None) ->
   exists shortname,
     last_assigned shortname versions = None /\
     utils.firmware_upgrade firmware_org (JStr "N_1") (JDict (upgrade_section "MX 18.1")) []
     = (Ret (Failure,
             FString [Lit "Unable to find version `"; Interp shortname;
                      Lit "` in available versions: "; InterpTable (filled versions)]),
        [] ++ [Enter "firmware"; Call (getNetworkFirmwareUpgrades (JStr "N_1"))]))
  /\
  ((forall p pu s, In (p, pu) ps -> requested pu = Some s ->
                   last_assigned s versions <> None) ->
   exists ps',
     calls (snd (utils.firmware_upgrade firmware_org (JStr "N_1")
                   (JDict (upgrade_section "MX 18.1")) []))
     = calls [] ++ [getNetworkFirmwareUpgrades (JStr "N_1");
                    updateNetworkFirmwareUpgrades (JStr "N_1")
                      (Dict.set "products" (JDict ps') (upgrade_section "MX 18.1"))] /\
     Dict.keys ps' = Dict.keys ps /\
     (forall p pu, In (p, pu) ps ->
        exists pu', Dict.get p ps' = Some pu' /\
                    match requested pu with
                    | None => pu' = pu
                    | Some s =>
                        exists id, last_assigned s versions = Some id /\
                                   pu' = with_version_id id pu /\
                                   requested pu' = None /\ version_id pu' = Some id
                    end)).
Proof.
  intros catalog versions ps.
  apply (firmware_upgrade_translates_or_fails
           firmware_org (JStr "N_1") (JDict (upgrade_section "MX 18.1"))
           (upgrade_section "MX 18.1") ps firmware_catalog catalog versions []).
  - left. exists (upgrade_section "MX 18.1"). repeat split.
  - reflexivity.
  - reflexivity.
  - unfold Dict.wf. simpl. repeat constructor. simpl. tauto.
  - reflexivity.
  - reflexivity.
  - unfold Dict.wf. simpl. repeat constructor. simpl. tauto.
  - reflexivity.
Defined.

(** The two runs behind the witness. *)
Example firmware_unknown_version_run :
  utils.firmware_upgrade firmware_org (JStr "N_1") (JDict (upgrade_section "MX 18")) []
  = (Ret (Failure,
          FString [Lit "Unable to find version `"; Interp (JStr "MX 18");
                   Lit "` in available versions: "; InterpTable firmware_versions]),
     [Enter "firmware"; Call (getNetworkFirmwareUpgrades (JStr "N_1"))]).
Proof. reflexivity. Qed.

Example firmware_known_version_run :
  utils.firmware_upgrade firmware_org (JStr "N_1") (JDict (upgrade_section "MX 18.1")) []
  = (Ret (Success, Value (JList [JStr "MX 18.1"])),
     [Enter "firmware"; Call (getNetworkFirmwareUpgrades (JStr "N_1"));
      Call (updateNetworkFirmwareUpgrades (JStr "N_1")
              [("products",
                JDict [("appliance",
                        JDict [("nextUpgrade",
                                JDict [("toVersion", JDict [("id", JNum 2128)])])])])])]).
Proof. reflexivity. Qed.


(* ================================================================= *)
(** * Further properties of the appliers and wrappers *)

(** ** Claiming devices *)

(** A claim that succeeds ends with the settling delay of 120 seconds; a
    claim that fails returns [Failure] without waiting.  Without a
    [serials] key the empty list is claimed. *)
Theorem claim_devices_settles w net_id d tr :
  Dict.has "_ref" d = false ->
  utils.claim_devices w net_id (JDict d) tr
  = let serials := match Dict.get "serials" d with Some s => s | None => JList [] end in
    let claim := claimNetworkDevices net_id serials in
    match backend w (tr ++ [Enter "claim"]) claim with
    | Returns response =>
        (Ret (Success, Value response), tr ++ [Enter "claim"; Call claim; Sleep 120])
    | RaisesAPIError e =>
        (Ret (Failure, Value (JStr (text e))), tr ++ [Enter "claim"; Call claim])
    | RaisesException t =>
        (Ret (Failure, Value (JStr t)), tr ++ [Enter "claim"; Call claim])
    end.
Proof.
  intros R. unfold utils.claim_devices, utils.enter. rewrite bind_run. unfold emit.
  rewrite (with_ref_absent _ _ _ _ _ R). rewrite bind_lift. simpl get_default.
  unfold meraki_functions.claim_devices, meraki_functions.plain.
  rewrite !bind_run. unfold meraki_functions.sdk at 1. cbv zeta.
  destruct (backend w (tr ++ [Enter "claim"]) _) as [response|e|t];
    unfold meraki_functions.guarded, bind, emit, ret; cbv beta iota;
    repeat rewrite <- app_assoc; reflexivity.
Qed.

Lemma claim_devices_settles_witness :
  utils.claim_devices fresh_org (JStr "N_1") (JDict [("serials", JList [JStr "Q2XX-1"])]) []
  = (Ret (Success, Value (JDict [])),
     [] ++ [Enter "claim"; Call (claimNetworkDevices (JStr "N_1") (JList [JStr "Q2XX-1"]));
            Sleep 120]).
Proof.
  exact (claim_devices_settles fresh_org (JStr "N_1")
           [("serials", JList [JStr "Q2XX-1"])] [] eq_refl).
Defined.

(** ** Creating a VLAN that exists *)

(** When the backend answers the VLAN creation with an error whose first
    message contains [taken] or [bound], [create_vlan] turns to the VLAN
    named by the payload's [id], with the payload minus [id]: when that
    payload holds neither [networkId] nor [vlanId], the update operation
    is invoked and what it gives is returned; when it holds one of them,
    the pair is the error code [500] with an error text and no update is
    invoked.  A payload without [id] lets a [KeyError] escape after the
    two calls. *)
Theorem create_vlan_taken_updates w net_id vlan_config e first enabled tr :
  backend w tr (updateNetworkApplianceVlansSettings net_id) = Returns enabled ->
  backend w (tr ++ [Call (updateNetworkApplianceVlansSettings net_id)])
          (createNetworkApplianceVlan net_id vlan_config) = RaisesAPIError e ->
  first_error e = Some first ->
  contains "taken" first || contains "bound" first = true ->
  let tr2 := tr ++ [Call (updateNetworkApplianceVlansSettings net_id);
                    Call (createNetworkApplianceVlan net_id vlan_config)] in
  match Dict.get "id" vlan_config with
  | Some vlan_id =>
      if Dict.has "networkId" vlan_config || Dict.has "vlanId" vlan_config
      then exists message,
             meraki_functions.create_vlan w net_id vlan_config tr
             = (Ret (Err Code500 message), tr2)
      else
        let update :=
          updateNetworkApplianceVlan net_id vlan_id (Dict.del "id" vlan_config) in
        meraki_functions.create_vlan w net_id vlan_config tr
        = (Ret (meraki_functions.guarded (backend w tr2 update)), tr2 ++ [Call update])
  | None => meraki_functions.create_vlan w net_id vlan_config tr = (Raise, tr2)
  end
  /\ Dict.get "id" (Dict.del "id" vlan_config) = None.
Proof.
  intros H1 H2 Hf Ht tr2. split; [|apply get_del_same].
  assert (Run : meraki_functions.create_vlan w net_id vlan_config tr
                = match Dict.get "id" vlan_config with
                  | Some vlan_id =>
                      meraki_functions.update_vlan w net_id vlan_id
                        (JDict (Dict.del "id" vlan_config)) tr2
                  | None => (Raise, tr2)
                  end).
  { unfold meraki_functions.create_vlan. rewrite bind_run.
    unfold meraki_functions.sdk at 1. rewrite H1. rewrite bind_run.
    unfold meraki_functions.sdk at 1. rewrite H2.
    unfold meraki_functions.create_vlan_conflict. rewrite bind_lift, Hf, Ht, bind_lift.
    subst tr2. rewrite <- app_assoc. simpl app.
    destruct (Dict.get "id" vlan_config) as [vlan_id|]; reflexivity. }
  rewrite Run. destruct (Dict.get "id" vlan_config) as [vlan_id|]; [|reflexivity].
  unfold meraki_functions.update_vlan.
  destruct (repeated_keyword ["networkId"; "vlanId"] (Dict.del "id" vlan_config))
    as [key|] eqn:E.
  - assert (Hk : Dict.has "networkId" vlan_config || Dict.has "vlanId" vlan_config = true).
    { unfold repeated_keyword in E. apply find_some in E. destruct E as [Hin Hk].
      apply keys_del_subset in Hin. apply has_In_keys in Hin.
      simpl in Hk. rewrite orb_false_r in Hk. apply orb_true_iff in Hk.
      apply orb_true_iff.
      destruct Hk as [Hk|Hk]; apply String.eqb_eq in Hk; subst key; auto. }
    rewrite Hk. eexists. reflexivity.
  - assert (N : forall key, (key = "networkId" \/ key = "vlanId") ->
                            Dict.has key vlan_config = false).
    { intros key Hk. destruct (Dict.has key vlan_config) eqn:F; [|reflexivity].
      exfalso. apply has_In_keys in F.
      assert (Hin : In key (Dict.keys (Dict.del "id" vlan_config))).
      { apply keys_del_other; [|exact F]. destruct Hk as [->| ->]; discriminate. }
      unfold repeated_keyword in E.
      pose proof (find_none _ _ E key Hin) as Q. simpl in Q.
      destruct Hk as [->| ->]; simpl in Q; discriminate. }
    rewrite (N "networkId"), (N "vlanId") by auto. reflexivity.
Qed.

(** ** Creating a network whose name is taken but not cached *)

(** When the backend answers the creation with an error whose first
    message contains [taken] and the name-to-id cache has no entry for the
    name, the [KeyError] of the lookup escapes [create_network] and the
    builder: no completion record is returned. *)
Theorem taken_name_not_cached_raises w copy_from_id doc md kwargs name e first tr :
  Dict.get "metadata" doc = Some (JDict md) ->
  Dict.get "name" md = Some (JStr name) ->
  Dict.has "productTypes" md = true ->
  setup.attach_copy_from copy_from_id (JDict md) = JDict kwargs ->
  backend w tr (createOrganizationNetwork kwargs) = RaisesAPIError e ->
  first_error e = Some first ->
  contains "taken" first = true ->
  Dict.get name (net_name_to_id w) = None ->
  setup.build_new_network w copy_from_id doc tr
  = (Raise, tr ++ [Call (createOrganizationNetwork kwargs)]).
Proof.
  intros Hm Hn Hp Hk Hc Hf Ht Hid.
  assert (Hn' : Dict.get "name" kwargs = Some (JStr name)).
  { unfold setup.attach_copy_from in Hk. destruct (truthy copy_from_id).
    - simpl in Hk. inversion Hk; subst. rewrite get_set_other by discriminate. exact Hn.
    - inversion Hk; subst. exact Hn. }
  rewrite (build_new_network_creates w copy_from_id doc md (JStr name) tr Hm Hn Hp).
  rewrite Hk, bind_run. unfold meraki_functions.create_network. rewrite bind_run.
  unfold meraki_functions.sdk at 1. rewrite Hc.
  rewrite bind_lift, Hf, Ht, Hn', bind_lift, Hid. reflexivity.
Qed.

Lemma create_vlan_taken_updates_witness :
  let vlan_config := [("id", JNum 10); ("name", JStr "Data")] in
  let tr2 := [] ++ [Call (updateNetworkApplianceVlansSettings (JStr "N_1"));
                    Call (createNetworkApplianceVlan (JStr "N_1") vlan_config)] in
  match Dict.get "id" vlan_config with
  | Some vlan_id =>
      if Dict.has "networkId" vlan_config || Dict.has "vlanId" vlan_config
      then exists message,
             meraki_functions.create_vlan vlan_org (JStr "N_1") vlan_config []
             = (Ret (Err Code500 message), tr2)
      else
        let update :=
          updateNetworkApplianceVlan (JStr "N_1") vlan_id (Dict.del "id" vlan_config) in
        meraki_functions.create_vlan vlan_org (JStr "N_1") vlan_config []
        = (Ret (meraki_functions.guarded (backend vlan_org tr2 update)),
           tr2 ++ [Call update])
  | None => meraki_functions.create_vlan vlan_org (JStr "N_1") vlan_config [] = (Raise, tr2)
  end
  /\ Dict.get "id" (Dict.del "id" vlan_config) = None.
Proof.
  intros vlan_config tr2.
  exact (create_vlan_taken_updates vlan_org (JStr "N_1") vlan_config vlan_taken_error
           "Vlan has already been taken" (JDict []) [] eq_refl eq_refl eq_refl eq_refl).
Defined.

(** The two outcomes on the backend where VLAN 10 exists: the update is
    made, and with [vlanId] in the payload it is not. *)
Example create_vlan_taken_runs :
  meraki_functions.create_vlan vlan_org (JStr "N_1")
    [("id", JNum 10); ("name", JStr "Data")] []
  = (Ret (Ok (JDict [("id", JNum 10); ("name", JStr "Data")])),
     [Call (updateNetworkApplianceVlansSettings (JStr "N_1"));
      Call (createNetworkApplianceVlan (JStr "N_1") [("id", JNum 10); ("name", JStr "Data")]);
      Call (updateNetworkApplianceVlan (JStr "N_1") (JNum 10) [("name", JStr "Data")])])
  /\
  exists message,
    meraki_functions.create_vlan vlan_org (JStr "N_1")
      [("id", JNum 10); ("name", JStr "Data"); ("vlanId", JNum 10)] []
    = (Ret (Err Code500 message),
       [Call (updateNetworkApplianceVlansSettings (JStr "N_1"));
        Call (createNetworkApplianceVlan (JStr "N_1")
                [("id", JNum 10); ("name", JStr "Data"); ("vlanId", JNum 10)])]).
Proof. split; [reflexivity|eexists; reflexivity]. Qed.

Lemma taken_name_not_cached_raises_witness :
  setup.build_new_network stale_org JNull
    [("metadata", branch_metadata); ("vlans", JList [])] []
  = (Raise,
     [] ++ [Call (createOrganizationNetwork
                    [("name", JStr "Branch1"); ("productTypes", JList [JStr "appliance"])])]).
Proof.
  exact (taken_name_not_cached_raises stale_org JNull
           [("metadata", branch_metadata); ("vlans", JList [])]
           [("name", JStr "Branch1"); ("productTypes", JList [JStr "appliance"])]
           [("name", JStr "Branch1"); ("productTypes", JList [JStr "appliance"])]
           "Branch1" taken_error "Name has already been taken" []
           eq_refl eq_refl eq_refl eq_refl eq_refl eq_refl eq_refl eq_refl).
Defined.

(** ** A fragment that is empty *)

Lemma with_ref_falsy {A} w d f content (not_found : M A) k tr :
  Dict.get "_ref" d = Some (JStr f) ->
  files w f = Fragment content -> truthy content = false ->
  utils.with_ref w (JDict d) not_found k tr = not_found tr.
Proof.
  intros G F T. unfold utils.with_ref. simpl py_in.
  unfold Dict.has. rewrite G, bind_lift. simpl py_getitem. rewrite G, bind_lift.
  unfold utils.load_ref_config. rewrite bind_run, F. unfold ret. now rewrite T.
Qed.

(** A fragment file that exists but holds an empty object, an empty list,
    [null], [false], [0] or the empty string is treated like a missing
    file: the section is [Failure] with the text of a file not found, and
    no backend operation is invoked. *)
Theorem empty_fragment_counts_as_missing w s net_id d f content tr :
  entry_ref s = true ->
  Dict.get "_ref" d = Some (JStr f) ->
  files w f = Fragment content ->
  truthy content = false ->
  setup.applier w s net_id (JDict d) tr
  = (Ret (Failure, ref_not_found), tr ++ [Enter (section_key s)]).
Proof.
  intros E G F T.
  destruct s; try discriminate E; simpl;
    unfold utils.claim_devices, utils.firmware_upgrade, utils.site_to_site_vpn_config,
      utils.amp_config, utils.content_filtering_config, utils.syslog_server_config,
      utils.snmp_config, utils.traffic_shaping_config, utils.enter;
    rewrite bind_run; unfold emit; now rewrite (with_ref_falsy _ _ _ _ _ _ _ G F T).
Qed.

Lemma empty_fragment_counts_as_missing_witness :
  setup.applier (org_with_file "syslog.json" (JDict [])) syslog (JStr "N_1")
                (JDict [("_ref", JStr "syslog.json")]) []
  = (Ret (Failure, ref_not_found), [] ++ [Enter (section_key syslog)]).
Proof.
  exact (empty_fragment_counts_as_missing (org_with_file "syslog.json" (JDict [])) syslog
           (JStr "N_1") [("_ref", JStr "syslog.json")] "syslog.json" (JDict []) []
           eq_refl eq_refl eq_refl eq_refl).
Defined.

(** ** Firmware that is current already *)

Lemma spec_translate_names tbl : forall ps,
  snd (spec_translate tbl ps) = None ->
  snd (fst (spec_translate tbl ps)) = requested_names ps.
Proof.
  induction ps as [|[p pu] rest IH]; simpl; [reflexivity|].
  unfold requested_names in *. simpl.
  destruct (requested pu) as [s|].
  - destruct (table_get s tbl) as [id|]; [|discriminate].
    destruct (spec_translate tbl rest) as [[translated names] unknown]. simpl in *.
    intros U. now rewrite IH.
  - destruct (spec_translate tbl rest) as [[translated names] unknown]. simpl in *.
    intros U. now rewrite IH.
Qed.

(** When every requested version is known and the backend answers the
    upgrade with an error whose first message contains [already on this
    version], the firmware applier returns [Success], with the requested
    version names as output. *)
Theorem firmware_already_current w net_id config c ps response tbl e first tr :
  resolves_to w config (JDict c) ->
  backend w (tr ++ [Enter "firmware"]) (getNetworkFirmwareUpgrades net_id) = Returns response ->
  fst (utils.firmware_table response []) = Ret tbl ->
  Dict.get "products" c = Some (JDict ps) ->
  Dict.wf ps ->
  forallb request_shape (map snd ps) = true ->
  (forall p pu s, In (p, pu) ps -> requested pu = Some s -> table_get s tbl <> None) ->
  (forall kwargs,
      backend w (tr ++ [Enter "firmware"; Call (getNetworkFirmwareUpgrades net_id)])
              (updateNetworkFirmwareUpgrades net_id kwargs) = RaisesAPIError e) ->
  first_error e = Some first ->
  contains "already on this version" first = true ->
  exists kwargs,
    utils.firmware_upgrade w net_id config tr
    = (Ret (Success, Value (JList (requested_names ps))),
       tr ++ [Enter "firmware"; Call (getNetworkFirmwareUpgrades net_id);
              Call (updateNetworkFirmwareUpgrades net_id kwargs)]).
Proof.
  intros Res Fetch Tbl Prod W Sh Known Answer Hf Hc.
  destruct (spec_translate_known tbl ps W Sh Known) as (E & _ & _).
  exists (Dict.set "products" (JDict (fst (fst (spec_translate tbl ps)))) c).
  rewrite (firmware_upgrade_run w net_id config c ps response tbl tr
             Res Fetch Tbl Prod W Sh), E.
  rewrite bind_run. unfold meraki_functions.trigger_network_firmware_upgrades.
  rewrite bind_run. unfold meraki_functions.sdk at 1. rewrite Answer.
  rewrite bind_lift, Hf, Hc. unfold ret. rewrite (spec_translate_names tbl ps E).
  rewrite <- app_assoc. reflexivity.
Qed.

Lemma firmware_already_current_witness :
  exists kwargs,
    utils.firmware_upgrade current_org (JStr "N_1") (JDict (upgrade_section "MX 17")) []
    = (Ret (Success, Value (JList (requested_names [("appliance", appliance_request "MX 17")]))),
       [] ++ [Enter "firmware"; Call (getNetworkFirmwareUpgrades (JStr "N_1"));
              Call (updateNetworkFirmwareUpgrades (JStr "N_1") kwargs)]).
Proof.
  apply (firmware_already_current current_org (JStr "N_1") (JDict (upgrade_section "MX 17"))
           (upgrade_section "MX 17") [("appliance", appliance_request "MX 17")]
           firmware_catalog firmware_versions up_to_date_error
           "Network is already on this version" []).
  - left. exists (upgrade_section "MX 17"). repeat split.
  - reflexivity.
  - reflexivity.
  - reflexivity.
  - unfold Dict.wf. simpl. repeat constructor. simpl. tauto.
  - reflexivity.
  - intros p pu s [E|[]] Q. inversion E; subst. inversion Q; subst. discriminate.
  - reflexivity.
  - reflexivity.
  - reflexivity.
Defined.

(** ** Content filtering *)

Lemma pure_table_of kf vf elements : pure (utils.table_of kf vf elements).
Proof.
  unfold utils.table_of.
  repeat first [ apply pure_bind; [|intros] | apply pure_lift | apply pure_foreach; intros
               | apply pure_table_store ].
Qed.

Lemma known_ids_loop cmap : forall names ids tr,
  forallb hashable names = true ->
  foreach names ids
    (fun ids name =>
       known <- table_has name cmap ;;
       match table_get name cmap with
       | Some id => ret (if known : bool then ids ++ [id] else ids)
       | None => ret ids
       end) tr
  = (Ret (ids ++ known_ids cmap names), tr).
Proof.
  induction names as [|name names IH]; intros ids tr H.
  - simpl. now rewrite app_nil_r.
  - simpl in H. apply andb_prop in H. destruct H as [Hn Hr].
    rewrite foreach_cons, bind_run, (table_has_run _ _ _ Hn).
    unfold known_ids. simpl flat_map. fold (known_ids cmap names).
    destruct (table_get name cmap) as [id|]; unfold ret; rewrite (IH _ _ Hr).
    + now rewrite <- app_assoc.
    + reflexivity.
Qed.

(** The applier once the table of categories is known. *)
Lemma content_filtering_run
        w net_id d names response categories categories_map tr :
  Dict.wf d -> Dict.has "_ref" d = false ->
  Dict.get "_name_blockedUrlCategories" d = Some (JList names) ->
  forallb hashable names = true ->
  backend w (tr ++ [Enter "content_filtering"])
          (getNetworkApplianceContentFilteringCategories net_id) = Returns response ->
  py_getitem "categories" response = Some categories ->
  fst (utils.table_of "name" "id" categories []) = Ret categories_map ->
  let fetch := getNetworkApplianceContentFilteringCategories net_id in
  let update :=
    updateNetworkApplianceContentFiltering net_id
      (Dict.set "blockedUrlCategories" (JList (known_ids categories_map names))
                (filter (fun kv => negb (startswith "_" (fst kv))) d)) in
  utils.content_filtering_config w net_id (JDict d) tr
  = (Ret (utils.update_result
            (meraki_functions.guarded
               (backend w (tr ++ [Enter "content_filtering"; Call fetch]) update))),
     tr ++ [Enter "content_filtering"; Call fetch; Call update]).
Proof.
  intros W R G H Fetch Cat Tbl fetch update. subst fetch update.
  unfold utils.content_filtering_config, utils.enter. rewrite bind_run. unfold emit.
  rewrite (with_ref_absent _ _ _ _ _ R). unfold utils.separate. rewrite bind_ret.
  assert (G' : Dict.get "_name_blockedUrlCategories" (fst (separate_custom_fields d))
               = Some (JList names)).
  { rewrite custom_get_separate by (assumption || reflexivity). exact G. }
  rewrite (separate_custom_fields_filter d W) in *. simpl fst in G'.
  cbv beta iota. rewrite G'.
  unfold meraki_functions.get_content_filtering_categories, meraki_functions.plain.
  rewrite !bind_run. unfold meraki_functions.sdk at 1. rewrite Fetch.
  unfold ret at 1. unfold meraki_functions.guarded at 1. cbv beta iota.
  rewrite bind_lift, Cat. cbv beta iota.
  rewrite bind_run, (pure_table_of "name" "id" categories _), Tbl. cbv beta iota.
  rewrite bind_lift. simpl py_iter. cbv beta iota. rewrite bind_run.
  rewrite (known_ids_loop categories_map names [] _ H). simpl app.
  unfold meraki_functions.update_content_filtering_settings, meraki_functions.with_kwargs.
  rewrite !bind_run. unfold meraki_functions.sdk, ret.
  unfold plain_entry, is_custom.
  repeat rewrite <- app_assoc. reflexivity.
Qed.

Lemma known_ids_assigned pairs names :
  known_ids (filled pairs) names = assigned_ids pairs names.
Proof.
  unfold known_ids, assigned_ids. induction names as [|name names IH]; simpl.
  - reflexivity.
  - now rewrite filled_get, IH.
Qed.

(** With [_name_blockedUrlCategories] the content-filtering applier
    fetches the catalog and then updates with the payload stripped of its
    ["_"]-keys, in which [blockedUrlCategories] is the list of the ids the
    fetched catalog gives for the given names, in the order given: the id
    of the last category of the catalog that bears the name; a name no
    category of the catalog bears is left out without an error. *)
Theorem content_filtering_translates_names
        w net_id d names response categories pairs tr :
  Dict.wf d -> Dict.has "_ref" d = false ->
  Dict.get "_name_blockedUrlCategories" d = Some (JList names) ->
  forallb hashable names = true ->
  backend w (tr ++ [Enter "content_filtering"])
          (getNetworkApplianceContentFilteringCategories net_id) = Returns response ->
  py_getitem "categories" response = Some (JList categories) ->
  field_pairs "name" "id" categories = Some pairs ->
  let fetch := getNetworkApplianceContentFilteringCategories net_id in
  let update :=
    updateNetworkApplianceContentFiltering net_id
      (Dict.set "blockedUrlCategories" (JList (assigned_ids pairs names))
                (filter (fun kv => negb (startswith "_" (fst kv))) d)) in
  utils.content_filtering_config w net_id (JDict d) tr
  = (Ret (utils.update_result
            (meraki_functions.guarded
               (backend w (tr ++ [Enter "content_filtering"; Call fetch]) update))),
     tr ++ [Enter "content_filtering"; Call fetch; Call update])
  /\
  (forall name, last_assigned name pairs = None <->
                (forall name' id, In (name', id) pairs -> key_eqb name name' = false)).
Proof.
  intros W R G H Fetch Cat Pairs fetch update. subst fetch update.
  split; [|intros name; apply last_assigned_none].
  rewrite <- known_ids_assigned.
  apply (content_filtering_run w net_id d names response (JList categories)
           (filled pairs) tr W R G H Fetch Cat).
  now rewrite (table_of_run "name" "id" categories pairs []).
Qed.

Lemma content_filtering_translates_names_witness :
  let d := [("urlCategoryListSize", JStr "topSites");
            ("_name_blockedUrlCategories",
             JList [JStr "Gambling"; JStr "Unknown"; JStr "Adult"])] in
  let pairs := [(JStr "Adult", JStr "meraki:contentFiltering/category/C1");
                (JStr "Gambling", JStr "meraki:contentFiltering/category/C6")] in
  let fetch := getNetworkApplianceContentFilteringCategories (JStr "N_1") in
  let update :=
    updateNetworkApplianceContentFiltering (JStr "N_1")
      (Dict.set "blockedUrlCategories"
         (JList (assigned_ids pairs [JStr "Gambling"; JStr "Unknown"; JStr "Adult"]))
         (filter (fun kv => negb (startswith "_" (fst kv))) d)) in
  utils.content_filtering_config category_org (JStr "N_1") (JDict d) []
  = (Ret (utils.update_result
            (meraki_functions.guarded
               (backend category_org ([] ++ [Enter "content_filtering"; Call fetch]) update))),
     [] ++ [Enter "content_filtering"; Call fetch; Call update])
  /\
  (forall name, last_assigned name pairs = None <->
                (forall name' id, In (name', id) pairs -> key_eqb name name' = false)).
Proof.
  intros d pairs fetch update.
  apply (content_filtering_translates_names category_org (JStr "N_1") d
           [JStr "Gambling"; JStr "Unknown"; JStr "Adult"] category_catalog
           [JDict [("id", JStr "meraki:contentFiltering/category/C1");
                   ("name", JStr "Adult")];
            JDict [("id", JStr "meraki:contentFiltering/category/C6");
                   ("name", JStr "Gambling")]]
           pairs []);
    try reflexivity.
  unfold Dict.wf. simpl. repeat constructor; simpl; intuition discriminate.
Defined.

(** The run behind the witness: the ids of [Gambling] and [Adult], in
    the order asked, [Unknown] left out. *)
Example content_filtering_known_names_run :
  calls (snd (utils.content_filtering_config category_org (JStr "N_1")
                (JDict [("urlCategoryListSize", JStr "topSites");
                        ("_name_blockedUrlCategories",
                         JList [JStr "Gambling"; JStr "Unknown"; JStr "Adult"])]) []))
  = [getNetworkApplianceContentFilteringCategories (JStr "N_1");
     updateNetworkApplianceContentFiltering (JStr "N_1")
       [("urlCategoryListSize", JStr "topSites");
        ("blockedUrlCategories",
         JList [JStr "meraki:contentFiltering/category/C6";
                JStr "meraki:contentFiltering/category/C1"])]].
Proof. reflexivity. Qed.

(** ** The status of the list appliers *)

Lemma per_port_item_settled w net_id status item :
  settled status -> ends settled (utils.per_port_item w net_id status item).
Proof. intros S. unfold utils.per_port_item, settled in *. ends_tac. Qed.

Lemma device_uplinks_settled w serial custom status :
  settled status -> ends settled (utils.device_uplinks w serial custom status).
Proof. intros S. unfold utils.device_uplinks, settled in *. ends_tac. Qed.

Lemma device_item_settled w status item :
  settled status -> ends settled (utils.device_item w status item).
Proof.
  intros S. unfold utils.device_item, utils.separate.
  ends_tac; try (now apply device_uplinks_settled); unfold settled; auto.
Qed.

Lemma vlan_dhcp_settled w net_id custom new_vlan status vpn_subnets :
  settled status ->
  ends (fun acc => settled (fst acc))
       (utils.vlan_dhcp w net_id custom new_vlan status vpn_subnets).
Proof. intros S. unfold utils.vlan_dhcp, settled in *. ends_tac. Qed.

Lemma vlan_vpn_settled w net_id custom new_vlan status vpn_subnets :
  settled status ->
  ends (fun acc => settled (fst acc))
       (utils.vlan_vpn w net_id custom new_vlan status vpn_subnets).
Proof.
  intros S. unfold utils.vlan_vpn.
  ends_tac; try (now apply vlan_dhcp_settled); unfold settled; auto.
Qed.

Lemma vlan_item_settled w net_id policies acc item :
  settled (fst acc) ->
  ends (fun acc => settled (fst acc)) (utils.vlan_item w net_id policies acc item).
Proof.
  destruct acc as [status vpn_subnets]. simpl. intros S. unfold utils.vlan_item.
  ends_tac; try (now apply vlan_vpn_settled); unfold settled; auto.
Qed.

Lemma vlans_vpn_settled w net_id status vpn_subnets :
  settled status -> ends settled (utils.vlans_vpn w net_id status vpn_subnets).
Proof. intros S. unfold utils.vlans_vpn, settled in *. ends_tac. Qed.

(** The VLAN-per-port and device appliers end [Success] or [Partial],
    never [Failure] or [Skipped], whatever the items and the backend: a
    list whose every item fails is still [Partial].  The VLAN applier ends
    [Failure] only by the group policies it could not fetch. *)
Theorem list_appliers_end_success_or_partial w net_id config :
  ends (fun r => fst r = Success \/ fst r = Partial)
       (utils.vlan_per_port_config w net_id config) /\
  ends (fun r => fst r = Success \/ fst r = Partial)
       (utils.devices_config w net_id config) /\
  ends (fun r => fst r = Success \/ fst r = Partial \/
                 (fst r = Failure /\
                  exists message,
                    snd r = FString [Lit "Group Policies (Failure): ";
                                     Interp (JStr message); Lit (String "010" "")]))
       (utils.vlans_config w net_id config).
Proof.
  split; [|split].
  - unfold utils.vlan_per_port_config.
    apply ends_bind. intros _. apply ends_bind. intros items.
    eapply ends_bind_with.
    + apply (ends_foreach settled); [|left; reflexivity].
      intros acc x. apply per_port_item_settled.
    + intros status S. ends_tac.
  - unfold utils.devices_config.
    apply ends_bind. intros _. apply ends_bind. intros items.
    eapply ends_bind_with.
    + apply (ends_foreach settled); [|left; reflexivity].
      intros acc x. apply device_item_settled.
    + intros status S. ends_tac.
  - unfold utils.vlans_config.
    apply ends_bind. intros _. apply ends_bind. intros r.
    destruct r as [net_policies|code message].
    + apply ends_bind. intros policies. apply ends_bind. intros items.
      eapply ends_bind_with.
      * apply (ends_foreach (fun acc => settled (fst acc))); [|left; reflexivity].
        intros acc x. apply vlan_item_settled.
      * intros [status vpn_subnets] S. simpl in S.
        eapply ends_bind_with; [apply vlans_vpn_settled; exact S|].
        intros status' S'. apply ends_bind. intros r. apply ends_ret. simpl.
        destruct S'; auto.
    + apply ends_ret. simpl. right. right. split; [reflexivity|]. eauto.
Qed.

(** ** VLAN per port: every item is attempted *)

Lemma per_port_loop w net_id : forall ds status tr,
  (forall d, In d ds -> Dict.has "_ref" d = false) ->
  exists status' tr',
    foreach (map JDict ds) status (utils.per_port_item w net_id) tr = (Ret status', tr') /\
    calls tr' = calls tr ++ map (updateNetworkAppliancePort net_id) ds.
Proof.
  induction ds as [|d ds IH]; intros status tr H.
  - exists status, tr. simpl. now rewrite app_nil_r.
  - simpl map. rewrite foreach_cons. unfold utils.per_port_item at 1.
    rewrite (with_ref_absent _ _ _ _ _ (H d (or_introl eq_refl))).
    unfold meraki_functions.update_network_appliance_port, meraki_functions.with_kwargs,
      meraki_functions.sdk, bind, ret.
    destruct (backend w tr (updateNetworkAppliancePort net_id d)) as [r|e|t];
      unfold meraki_functions.guarded; cbv beta iota;
      match goal with
      | |- exists s t, foreach _ ?st _ ?tr0 = _ /\ _ =>
          destruct (IH st tr0) as (status' & tr' & E & C);
            [intros; apply H; now right|];
          exists status', tr'; split; [exact E|];
          rewrite C, calls_app; simpl; now rewrite <- app_assoc
      end.
Qed.

(** On a list of port objects without [_ref] the VLAN-per-port applier
    never raises and invokes the port update once per item, in the order
    of the list, whatever the backend answers to each, and then the
    read-back: a failed item does not stop the items after it. *)
Theorem vlan_per_port_attempts_every_item w net_id ds tr :
  (forall d, In d ds -> Dict.has "_ref" d = false) ->
  exists status response tr',
    utils.vlan_per_port_config w net_id (JList (map JDict ds)) tr
    = (Ret (status, Value response), tr') /\
    calls tr' = calls tr ++ map (updateNetworkAppliancePort net_id) ds
                         ++ [getNetworkAppliancePorts net_id].
Proof.
  intros H. unfold utils.vlan_per_port_config, utils.enter. rewrite bind_run. unfold emit.
  rewrite bind_lift. simpl py_iter. cbv beta iota. rewrite bind_run.
  destruct (per_port_loop w net_id ds Success (tr ++ [Enter "vlan_per_port"]) H)
    as (status & tr1 & E & C).
  rewrite E. unfold meraki_functions.get_network_appliance_ports, meraki_functions.plain.
  rewrite !bind_run. unfold meraki_functions.sdk, ret.
  eexists _, _, _. split; [reflexivity|].
  rewrite calls_app, C, calls_app. simpl. now rewrite app_nil_r, <- app_assoc.
Qed.

Lemma vlan_per_port_attempts_every_item_witness :
  exists status response tr',
    utils.vlan_per_port_config strict_org (JStr "N_1")
      (JList (map JDict [[("portId", JNum 3); ("vlan", JNum 10)];
                         [("portId", JNum 4); ("vlan", JNum 20)]])) []
    = (Ret (status, Value response), tr') /\
    calls tr' = calls [] ++ map (updateNetworkAppliancePort (JStr "N_1"))
                                [[("portId", JNum 3); ("vlan", JNum 10)];
                                 [("portId", JNum 4); ("vlan", JNum 20)]]
                         ++ [getNetworkAppliancePorts (JStr "N_1")].
Proof.
  apply vlan_per_port_attempts_every_item.
  intros d [<-|[<-|[]]]; reflexivity.
Defined.

(** ** The trace only grows *)

Lemma grows_ret {A} (a : A) : grows (ret a).
Proof. intros tr. exists []. simpl. now rewrite app_nil_r. Qed.

Lemma grows_raise {A} : grows (@raise A).
Proof. intros tr. exists []. simpl. now rewrite app_nil_r. Qed.

Lemma grows_lift {A} (o : option A) : grows (lift o).
Proof. destruct o; [apply grows_ret|apply grows_raise]. Qed.

Lemma grows_bind {A B} (m : M A) (k : A -> M B) :
  grows m -> (forall a, grows (k a)) -> grows (bind m k).
Proof.
  intros Hm Hk tr. rewrite bind_run. destruct (Hm tr) as [r1 E1].
  destruct (m tr) as [[a|] tr1]; simpl in E1; subst tr1.
  - destruct (Hk a (tr ++ r1)) as [r2 E2]. exists (r1 ++ r2). now rewrite E2, app_assoc.
  - now exists r1.
Qed.

Lemma grows_foreach {A S} (xs : list A) (body : S -> A -> M S) :
  (forall acc x, grows (body acc x)) -> forall acc, grows (foreach xs acc body).
Proof.
  intros Hb. induction xs as [|x xs IH]; intros acc; simpl.
  - apply grows_ret.
  - apply grows_bind; auto.
Qed.

Lemma grows_sdk w c : grows (meraki_functions.sdk w c).
Proof. intros tr. now exists [Call c]. Qed.

Lemma grows_emit e : grows (emit e).
Proof. intros tr. now exists [e]. Qed.

Lemma grows_table_store k v t : grows (table_store k v t).
Proof. unfold table_store. destruct (hashable k); [apply grows_ret|apply grows_raise]. Qed.

Lemma grows_table_has k t : grows (table_has k t).
Proof. unfold table_has. destruct (hashable k); [apply grows_ret|apply grows_raise]. Qed.

Create HintDb grows.
#[export] Hint Resolve grows_sdk grows_emit grows_table_store grows_table_has : grows.

Ltac grows_step :=
  match goal with
  | |- grows (bind _ _) => apply grows_bind; [|intros; cbv beta]
  | |- grows (ret _) => apply grows_ret
  | |- grows raise => apply grows_raise
  | |- grows (lift _) => apply grows_lift
  | |- grows (foreach _ _ _) => apply grows_foreach; intros
  | |- grows (match ?x with _ => _ end) => destruct x
  | |- grows (let '(_, _) := ?x in _) => destruct x
  | |- grows (if ?b then _ else _) => destruct b
  | |- forall _, _ => intros
  | |- grows _ => solve [auto with grows]
  end.
Ltac grows_tac := repeat grows_step.

Lemma grows_with_kwargs w op payload : grows (meraki_functions.with_kwargs w op payload).
Proof. unfold meraki_functions.with_kwargs. grows_tac. Qed.

Lemma grows_plain w op : grows (meraki_functions.plain w op).
Proof. unfold meraki_functions.plain. grows_tac. Qed.

#[export] Hint Resolve grows_with_kwargs grows_plain : grows.

Lemma grows_create_network w network_config cache :
  grows (meraki_functions.create_network w network_config cache).
Proof.
  unfold meraki_functions.create_network, meraki_functions.update_network. grows_tac.
Qed.

Lemma grows_create_vlan w network_id vlan_config :
  grows (meraki_functions.create_vlan w network_id vlan_config).
Proof.
  unfold meraki_functions.create_vlan, meraki_functions.create_vlan_conflict,
         meraki_functions.update_vlan.
  grows_tac.
Qed.

Lemma grows_trigger w network_id config :
  grows (meraki_functions.trigger_network_firmware_upgrades w network_id config).
Proof. unfold meraki_functions.trigger_network_firmware_upgrades. grows_tac. Qed.

Lemma grows_load_ref_config w filename : grows (utils.load_ref_config w filename).
Proof. unfold utils.load_ref_config. grows_tac. Qed.

#[export] Hint Resolve grows_create_network grows_create_vlan grows_trigger
  grows_load_ref_config : grows.

Lemma grows_with_ref {A} w config (not_found : M A) (k : json -> M A) :
  grows not_found -> (forall c, grows (k c)) -> grows (utils.with_ref w config not_found k).
Proof. intros Hn Hk. unfold utils.with_ref. grows_tac; auto. Qed.

Ltac grows_more :=
  repeat first
    [ grows_step
    | match goal with
      | |- grows (utils.with_ref _ _ _ _) => apply grows_with_ref
      | |- grows (utils.separate _) => unfold utils.separate
      | |- grows (utils.enter _) => apply grows_emit
      end ].

Lemma grows_firmware_table response : grows (utils.firmware_table response).
Proof. unfold utils.firmware_table, utils.add_version. grows_more. Qed.

Lemma grows_translate_product t acc product : grows (utils.translate_product t acc product).
Proof. unfold utils.translate_product. grows_more. Qed.

Lemma grows_translate_hub cache acc hub : grows (utils.translate_hub cache acc hub).
Proof. unfold utils.translate_hub. grows_more. Qed.

Lemma grows_table_of kf vf elements : grows (utils.table_of kf vf elements).
Proof. unfold utils.table_of. grows_more. Qed.

#[export] Hint Resolve grows_firmware_table grows_translate_product grows_translate_hub
  grows_table_of : grows.

Lemma grows_vlan_dhcp w net_id custom new_vlan st vpn :
  grows (utils.vlan_dhcp w net_id custom new_vlan st vpn).
Proof. unfold utils.vlan_dhcp. unfold_wrappers. grows_more. Qed.

#[export] Hint Resolve grows_vlan_dhcp : grows.

Lemma grows_vlan_vpn w net_id custom new_vlan st vpn :
  grows (utils.vlan_vpn w net_id custom new_vlan st vpn).
Proof. unfold utils.vlan_vpn. unfold_wrappers. grows_more. Qed.

Lemma grows_device_uplinks w serial custom st :
  grows (utils.device_uplinks w serial custom st).
Proof. unfold utils.device_uplinks. unfold_wrappers. grows_more. Qed.

#[export] Hint Resolve grows_vlan_vpn grows_device_uplinks : grows.

Lemma grows_vlan_item w net_id policies acc item :
  grows (utils.vlan_item w net_id policies acc item).
Proof. unfold utils.vlan_item. unfold_wrappers. grows_more. Qed.

Lemma grows_vlans_vpn w net_id st vpn : grows (utils.vlans_vpn w net_id st vpn).
Proof. unfold utils.vlans_vpn. unfold_wrappers. grows_more. Qed.

Lemma grows_per_port_item w net_id st item : grows (utils.per_port_item w net_id st item).
Proof. unfold utils.per_port_item. unfold_wrappers. grows_more. Qed.

Lemma grows_device_item w st item : grows (utils.device_item w st item).
Proof. unfold utils.device_item. unfold_wrappers. grows_more. Qed.

Lemma grows_uplink_bandwidth w net_id config : grows (utils.uplink_bandwidth w net_id config).
Proof. unfold utils.uplink_bandwidth. unfold_wrappers. grows_more. Qed.

#[export] Hint Resolve grows_vlan_item grows_vlans_vpn grows_per_port_item
  grows_device_item grows_uplink_bandwidth : grows.

Lemma grows_applier w s net_id config : grows (setup.applier w s net_id config).
Proof.
  destruct s; simpl;
    unfold utils.claim_devices, utils.firmware_upgrade, utils.site_to_site_vpn_config,
      utils.amp_config, utils.content_filtering_config, utils.syslog_server_config,
      utils.snmp_config, utils.vlans_config, utils.vlan_per_port_config,
      utils.devices_config, utils.traffic_shaping_config;
    unfold_wrappers; grows_more.
Qed.

#[export] Hint Resolve grows_applier : grows.

Lemma grows_apply_setting w net_id doc c setting :
  grows (setup.apply_setting w net_id doc c setting).
Proof. unfold setup.apply_setting. grows_more. Qed.

#[export] Hint Resolve grows_apply_setting : grows.

Lemma bind_assoc {A B C} (m : M A) (k1 : A -> M B) (k2 : B -> M C) tr :
  bind (bind m k1) k2 tr = bind m (fun a => bind (k1 a) k2) tr.
Proof. rewrite !bind_run. destruct (m tr) as [[a|] tr1]; reflexivity. Qed.

(** What follows a call only adds to the trace after it. *)
Lemma sdk_then {A} w c (k : sdk_result -> M A) tr :
  (forall r, grows (k r)) ->
  exists rest, snd (bind (meraki_functions.sdk w c) k tr) = tr ++ Call c :: rest.
Proof.
  intros Hk. rewrite bind_run. unfold meraki_functions.sdk.
  destruct (Hk (backend w tr c) (tr ++ [Call c])) as [rest E].
  exists rest. rewrite E, <- app_assoc. reflexivity.
Qed.

(** ** The creation call comes first *)

(** With a metadata dict that has both required fields, the first event
    of a build is the creation call, and its payload is the metadata, to
    which [copyFromNetworkId] is added when a copy-from id is given. *)
Theorem creation_is_first_call w copy_from_id doc md tr :
  Dict.get "metadata" doc = Some (JDict md) ->
  Dict.has "name" md = true ->
  Dict.has "productTypes" md = true ->
  exists rest,
    snd (setup.build_new_network w copy_from_id doc tr)
    = tr ++ Call (createOrganizationNetwork
                    (if truthy copy_from_id
                     then Dict.set "copyFromNetworkId" copy_from_id md
                     else md)) :: rest.
Proof.
  intros Hm Hn Hp. unfold Dict.has in Hn.
  destruct (Dict.get "name" md) as [name|] eqn:En; [|discriminate].
  rewrite (build_new_network_creates w copy_from_id doc md name tr Hm En Hp).
  assert (Hk : setup.attach_copy_from copy_from_id (JDict md)
               = JDict (if truthy copy_from_id
                        then Dict.set "copyFromNetworkId" copy_from_id md
                        else md)).
  { unfold setup.attach_copy_from. now destruct (truthy copy_from_id). }
  rewrite Hk. unfold meraki_functions.create_network. rewrite bind_assoc.
  apply sdk_then. intros r. unfold meraki_functions.update_network. grows_more.
Qed.

Lemma creation_is_first_call_witness :
  exists rest,
    snd (setup.build_new_network fresh_org (JStr "N_0")
           [("metadata", branch_metadata); ("vlans", JList [])] [])
    = [] ++ Call (createOrganizationNetwork
                    (if truthy (JStr "N_0")
                     then Dict.set "copyFromNetworkId" (JStr "N_0")
                            [("name", JStr "Branch1");
                             ("productTypes", JList [JStr "appliance"])]
                     else [("name", JStr "Branch1");
                           ("productTypes", JList [JStr "appliance"])])) :: rest.
Proof.
  exact (creation_is_first_call fresh_org (JStr "N_0")
           [("metadata", branch_metadata); ("vlans", JList [])]
           [("name", JStr "Branch1"); ("productTypes", JList [JStr "appliance"])] []
           eq_refl eq_refl eq_refl).
Defined.

(** ** What a device item sends *)

(** A device item without [serial] is [Partial] and nothing is invoked.
    With a serial, the device update comes first, for that serial and
    with the item stripped of [serial] and of its ["_"]-keys; the uplink
    part is only looked at when that update succeeded. *)
Theorem device_item_update_first w status d tr :
  Dict.wf d -> Dict.has "_ref" d = false ->
  utils.device_item w status (JDict d) tr
  = match Dict.get "serial" d with
    | None => (Ret Partial, tr)
    | Some serial =>
        let update :=
          updateDevice serial
            (filter (fun kv => negb (startswith "_" (fst kv))) (Dict.del "serial" d)) in
        match meraki_functions.guarded (backend w tr update) with
        | Err _ _ => (Ret Partial, tr ++ [Call update])
        | Ok _ =>
            utils.device_uplinks w serial
              (filter (fun kv => startswith "_" (fst kv)) (Dict.del "serial" d))
              status (tr ++ [Call update])
        end
    end.
Proof. exact (device_item_run w status d tr). Qed.

Lemma device_item_update_first_witness :
  utils.device_item fresh_org Success
    (JDict [("serial", JStr "Q2XX-1"); ("name", JStr "MX-1");
            ("_mx_uplinks", JDict [("_ref", JStr "uplinks.json")])]) []
  = (Ret Partial,
     [Call (updateDevice (JStr "Q2XX-1") [("name", JStr "MX-1")])]).
Proof.
  assert (W : Dict.wf [("serial", JStr "Q2XX-1"); ("name", JStr "MX-1");
                       ("_mx_uplinks", JDict [("_ref", JStr "uplinks.json")])]).
  { unfold Dict.wf. simpl. repeat constructor; simpl; intuition discriminate. }
  rewrite (device_item_update_first fresh_org Success _ [] W eq_refl).
  reflexivity.
Defined.

(** ** What a VLAN item creates *)

(** The VLAN-settings call of [create_vlan] returning, the creation call
    follows it with the given payload. *)
Lemma create_vlan_then {A} w net_id vlan_config enabled (k : reply -> M A) tr :
  backend w tr (updateNetworkApplianceVlansSettings net_id) = Returns enabled ->
  (forall r, grows (k r)) ->
  exists rest,
    snd (bind (meraki_functions.create_vlan w net_id vlan_config) k tr)
    = tr ++ Call (updateNetworkApplianceVlansSettings net_id)
         :: Call (createNetworkApplianceVlan net_id vlan_config) :: rest.
Proof.
  intros H Hk. unfold meraki_functions.create_vlan. rewrite bind_assoc, bind_run.
  unfold meraki_functions.sdk at 1. rewrite H. rewrite bind_assoc.
  destruct (sdk_then w (createNetworkApplianceVlan net_id vlan_config)
              (fun r => bind match r with
                             | Returns response => ret (Ok response)
                             | RaisesAPIError e =>
                                 meraki_functions.create_vlan_conflict w net_id vlan_config e
                             | RaisesException t => ret (Err Code500 t)
                             end k)
              (tr ++ [Call (updateNetworkApplianceVlansSettings net_id)])) as [rest E].
  { intros r. unfold meraki_functions.create_vlan_conflict, meraki_functions.update_vlan.
    grows_more; apply Hk. }
  exists rest. rewrite E, <- app_assoc. reflexivity.
Qed.

(** A VLAN item is created from its fields without the ["_"]-keys; a
    [_name_groupPolicyId] that the network's policies hold adds
    [groupPolicyId] with the policy's id, and one they do not hold is
    ignored: the VLAN is created without a group policy. *)
Theorem vlan_item_creation_payload w net_id policies status vpn_subnets d enabled tr :
  Dict.wf d -> Dict.has "_ref" d = false ->
  (forall name, Dict.get "_name_groupPolicyId" d = Some name -> hashable name = true) ->
  backend w tr (updateNetworkApplianceVlansSettings net_id) = Returns enabled ->
  let fields := filter (fun kv => negb (startswith "_" (fst kv))) d in
  let payload :=
    match Dict.get "_name_groupPolicyId" d with
    | Some name =>
        match table_get name policies with
        | Some id => Dict.set "groupPolicyId" id fields
        | None => fields
        end
    | None => fields
    end in
  exists rest,
    snd (utils.vlan_item w net_id policies (status, vpn_subnets) (JDict d) tr)
    = tr ++ Call (updateNetworkApplianceVlansSettings net_id)
         :: Call (createNetworkApplianceVlan net_id payload) :: rest.
Proof.
  intros W R Hh He fields payload. subst fields payload.
  unfold utils.vlan_item. rewrite (with_ref_absent _ _ _ _ _ R).
  unfold utils.separate. rewrite bind_ret.
  assert (G : Dict.get "_name_groupPolicyId" (fst (separate_custom_fields d))
              = Dict.get "_name_groupPolicyId" d)
    by (apply custom_get_separate; [assumption|reflexivity]).
  rewrite (separate_custom_fields_filter d W) in *. simpl fst in G.
  cbv beta iota. rewrite G. unfold plain_entry, is_custom.
  destruct (Dict.get "_name_groupPolicyId" d) as [name|].
  - rewrite bind_run, bind_run, (table_has_run _ _ _ (Hh name eq_refl)).
    destruct (table_get name policies) as [id|]; unfold ret at 1;
      apply (create_vlan_then w net_id _ enabled _ tr He); intros r;
      unfold_wrappers; grows_more.
  - rewrite bind_ret.
    apply (create_vlan_then w net_id _ enabled _ tr He); intros r;
      unfold_wrappers; grows_more.
Qed.

Lemma vlan_item_creation_payload_witness :
  let d := [("id", JNum 10); ("name", JStr "Guests"); ("_name_groupPolicyId", JStr "Guest")] in
  let fields := filter (fun kv => negb (startswith "_" (fst kv))) d in
  let payload :=
    match Dict.get "_name_groupPolicyId" d with
    | Some name =>
        match table_get name [(JStr "Guest", JStr "101")] with
        | Some id => Dict.set "groupPolicyId" id fields
        | None => fields
        end
    | None => fields
    end in
  exists rest,
    snd (utils.vlan_item fresh_org (JStr "N_1") [(JStr "Guest", JStr "101")]
           (Success, []) (JDict d) [])
    = [] ++ Call (updateNetworkApplianceVlansSettings (JStr "N_1"))
         :: Call (createNetworkApplianceVlan (JStr "N_1") payload) :: rest.
Proof.
  intros d.
  apply (vlan_item_creation_payload fresh_org (JStr "N_1") [(JStr "Guest", JStr "101")]
           Success [] d (JDict []) []).
  - unfold Dict.wf. simpl. repeat constructor; simpl; intuition discriminate.
  - reflexivity.
  - intros name E. inversion E. reflexivity.
  - reflexivity.
Defined.

(** ** The record of a build that created its network *)

Lemma skipped_fold_keys : forall keys (d : dict_of entry),
  NoDup keys -> (forall k, In k keys -> ~ In k (Dict.keys d)) ->
  Dict.keys (fold_left (fun s setting => Dict.set setting setup.skipped s) keys d)
  = Dict.keys d ++ keys.
Proof.
  induction keys as [|k keys IH]; intros d ND F; simpl.
  - now rewrite app_nil_r.
  - inversion ND as [|? ? Nk ND']; subst.
    rewrite IH; [|assumption|].
    + rewrite set_fresh by (apply F; simpl; auto).
      rewrite keys_app. simpl. now rewrite <- app_assoc.
    + intros k' Hk'. rewrite set_fresh by (apply F; simpl; auto).
      rewrite keys_app, in_app_iff. simpl.
      intros [H|[H|[]]]; [apply (F k'); simpl; auto|subst; contradiction].
Qed.

(** One key of the loop keeps the keys of the record and the entries of
    the keys that name no section. *)
Lemma apply_setting_keeps w net_id doc c setting tr c' tr' :
  setup.apply_setting w net_id doc c setting tr = (Ret c', tr') ->
  In setting (Dict.keys (settings c)) ->
  Dict.keys (settings c') = Dict.keys (settings c) /\
  (forall k, is_section k = false -> Dict.get k (settings c') = Dict.get k (settings c)).
Proof.
  unfold setup.apply_setting, is_section.
  destruct (setup.section_of setting) as [s|] eqn:E.
  - rewrite bind_lift.
    destruct (Dict.get setting doc) as [config|]; [|discriminate].
    rewrite bind_run.
    destruct (setup.applier w s net_id config tr) as [[[st out]|] tr1]; [|discriminate].
    intros H Hin. inversion H; subst. simpl. split.
    + rewrite keys_set. apply has_In_keys in Hin. now rewrite Hin.
    + intros k Hk. apply get_set_other. intros ->. now rewrite E in Hk.
  - intros H _. inversion H; subst. auto.
Qed.

Lemma sections_loop_keeps w net_id doc : forall keys c tr c' tr',
  foreach keys c (setup.apply_setting w net_id doc) tr = (Ret c', tr') ->
  (forall k, In k keys -> In k (Dict.keys (settings c))) ->
  Dict.keys (settings c') = Dict.keys (settings c) /\
  (forall k, is_section k = false -> Dict.get k (settings c') = Dict.get k (settings c)).
Proof.
  induction keys as [|k keys IH]; intros c tr c' tr' H Hin.
  - inversion H; subst. auto.
  - rewrite foreach_cons in H.
    destruct (setup.apply_setting w net_id doc c k tr) as [[c1|] tr1] eqn:E; [|discriminate].
    destruct (apply_setting_keeps _ _ _ _ _ _ _ _ E (Hin k (or_introl eq_refl))) as [K1 G1].
    destruct (IH _ _ _ _ H) as [K2 G2].
    { intros k' Hk'. rewrite K1. apply Hin. now right. }
    split; [now rewrite K2|]. intros k' Hk'. now rewrite G2, G1.
Qed.

(** A build that returns a record whose creation succeeded went through
    the section loop. *)
Lemma build_success_inv w copy_from_id doc tr c tr' e :
  setup.build_new_network w copy_from_id doc tr = (Ret c, tr') ->
  Dict.get "creation" (settings c) = Some e -> status e = Success ->
  exists net_id name response tr1,
    foreach (Dict.keys (Dict.del "metadata" doc))
            (setup.initial_status name response (Dict.keys (Dict.del "metadata" doc)))
            (setup.apply_setting w net_id (Dict.del "metadata" doc)) tr1
    = (Ret c, tr').
Proof.
  unfold setup.build_new_network.
  assert (NC : forall t, (Ret setup.not_created, t) = (Ret c, tr') ->
                         Dict.get "creation" (settings c) = Some e -> status e = Success ->
                         False).
  { intros t H1 H2 H3. inversion H1; subst. simpl in H2. inversion H2; subst.
    discriminate. }
  destruct (negb (truthy _)); [intros H1 H2 H3; destruct (NC _ H1 H2 H3)|].
  rewrite bind_lift. destruct (py_in "name" _) as [has_name|]; [|discriminate].
  rewrite bind_run.
  assert (Hf : exists o, (if has_name
                          then lift (py_in "productTypes"
                                 match Dict.get "metadata" doc with
                                 | Some m => m | None => JNull end)
                          else ret false) tr = (o, tr)).
  { destruct has_name; [rewrite lift_run|]; eexists; reflexivity. }
  destruct Hf as [o Hf]. rewrite Hf.
  destruct o as [has_fields|]; [|discriminate].
  destruct (negb has_fields); [intros H1 H2 H3; destruct (NC _ H1 H2 H3)|].
  rewrite bind_lift. destruct (py_getitem "name" _) as [name|]; [|discriminate].
  rewrite bind_run.
  destruct (meraki_functions.create_network _ _ _ tr) as [[[response|code response]|] tr1];
    [| |discriminate].
  - rewrite bind_lift. destruct (py_getitem "id" response) as [net_id|]; [|discriminate].
    rewrite bind_lift. destruct (py_getitem "name" response) as [name'|]; [|discriminate].
    intros H _ _. eauto.
  - intros H1 H2 H3. inversion H1; subst. simpl in H2. inversion H2; subst. discriminate.
Qed.

(** When a build returns a record whose creation succeeded, the record
    lists [creation] followed by every remaining key of the document, in
    the order of the document, and a key that names no section keeps the
    entry [Skipped] without output: unknown options are recorded, not
    applied. *)
Theorem created_record_lists_every_key w copy_from_id doc tr c tr' e :
  Dict.wf doc ->
  ~ In "creation" (Dict.keys doc) ->
  setup.build_new_network w copy_from_id doc tr = (Ret c, tr') ->
  Dict.get "creation" (settings c) = Some e ->
  status e = Success ->
  Dict.keys (settings c) = "creation" :: Dict.keys (Dict.del "metadata" doc) /\
  (forall k, In k (Dict.keys (Dict.del "metadata" doc)) -> is_section k = false ->
             Dict.get k (settings c) = Some {| status := Skipped; output := None |}).
Proof.
  intros W Fresh Hb Hc Hs.
  destruct (build_success_inv _ _ _ _ _ _ _ Hb Hc Hs) as (net_id & name & response & tr1 & L).
  assert (ND : NoDup (Dict.keys (Dict.del "metadata" doc))) by (now apply wf_del).
  assert (NC : ~ In "creation" (Dict.keys (Dict.del "metadata" doc))).
  { intros H. apply Fresh. eapply keys_del_subset; eauto. }
  assert (K0 : Dict.keys (settings (setup.initial_status name response
                                      (Dict.keys (Dict.del "metadata" doc))))
               = "creation" :: Dict.keys (Dict.del "metadata" doc)).
  { unfold setup.initial_status. simpl settings. rewrite skipped_fold_keys; auto.
    intros k Hk [<-|[]]. contradiction. }
  destruct (sections_loop_keeps _ _ _ _ _ _ _ _ L) as [K G].
  { intros k Hk. rewrite K0. now right. }
  split; [now rewrite K, K0|].
  intros k Hk Hn. rewrite (G k Hn). unfold setup.initial_status. simpl settings.
  now apply skipped_fold_In.
Qed.

Lemma created_record_lists_every_key_witness :
  let doc := [("metadata", branch_metadata); ("amp", JDict [("mode", JStr "enabled")]);
              ("wireless", JDict [])] in
  let c := {| _name := JStr "Branch1";
              settings :=
                [("creation",
                  {| status := Success;
                     output := Some (Value (JDict [("id", JStr "N_1"); ("name", JStr "Branch1");
                                                   ("productTypes", JList [JStr "appliance"])])) |});
                 ("amp", {| status := Success; output := Some (Value (JDict [])) |});
                 ("wireless", {| status := Skipped; output := None |})] |} in
  Dict.keys (settings c) = "creation" :: Dict.keys (Dict.del "metadata" doc) /\
  (forall k, In k (Dict.keys (Dict.del "metadata" doc)) -> is_section k = false ->
             Dict.get k (settings c) = Some {| status := Skipped; output := None |}).
Proof.
  intros doc c.
  apply (created_record_lists_every_key fresh_org JNull doc [] c
           [Call (createOrganizationNetwork
                    [("name", JStr "Branch1"); ("productTypes", JList [JStr "appliance"])]);
            Enter "amp";
            Call (updateNetworkApplianceSecurityMalware (JStr "N_1") [("mode", JStr "enabled")])]
           {| status := Success;
              output := Some (Value (JDict [("id", JStr "N_1"); ("name", JStr "Branch1");
                                            ("productTypes", JList [JStr "appliance"])])) |}).
  - unfold Dict.wf. simpl. repeat constructor; simpl; intuition discriminate.
  - simpl. intuition discriminate.
  - reflexivity.
  - reflexivity.
  - reflexivity.
Defined.

(** ** Hubs of a spoke *)

Lemma translate_hub_run cache hubs valid_hubs hub tr :
  hub_entry hub = true ->
  exists valid_hubs',
    utils.translate_hub cache (hubs, valid_hubs) hub tr
    = (Ret (hubs ++ [sent_hub cache hub], valid_hubs'), tr).
Proof.
  destruct hub as [| | | |l|h]; try discriminate. simpl hub_entry. intros H.
  unfold utils.translate_hub, sent_hub. simpl get_default. rewrite bind_lift.
  destruct (Dict.get "hubId" h) as [v|] eqn:E.
  - destruct v as [|b|n|name|l|d]; try discriminate;
      try (destruct (truthy _); rewrite bind_ret; eexists; reflexivity).
    destruct (truthy (JStr name)); [|rewrite bind_ret; eexists; reflexivity].
    rewrite bind_ret. unfold Dict.has.
    destruct (Dict.get name cache) as [id|]; cbv beta iota.
    + rewrite bind_lift. eexists; reflexivity.
    + eexists; reflexivity.
  - simpl truthy. cbv beta iota. rewrite bind_ret. eexists; reflexivity.
Qed.

Lemma translate_hubs_loop cache : forall l hubs valid_hubs tr,
  forallb hub_entry l = true ->
  exists valid_hubs',
    foreach l (hubs, valid_hubs) (utils.translate_hub cache) tr
    = (Ret (hubs ++ map (sent_hub cache) l, valid_hubs'), tr).
Proof.
  induction l as [|hub l IH]; intros hubs valid_hubs tr H.
  - simpl. rewrite app_nil_r. eexists; reflexivity.
  - simpl in H. apply andb_true_iff in H. destruct H as [Hh Hl].
    rewrite foreach_cons.
    destruct (translate_hub_run cache hubs valid_hubs hub tr Hh) as [v E]. rewrite E.
    destruct (IH (hubs ++ [sent_hub cache hub]) v tr Hl) as [v' E']. rewrite E'.
    exists v'. simpl map. now rewrite <- app_assoc.
Qed.

(** In spoke mode with a non-empty hub list, the update is the one
    backend call of the applier, and its payload is the section with the
    hub list translated in place: the list keeps its length and order, a
    hub whose [hubId] is a name of the cache carries the network id, and
    every other hub (unknown name, empty name, no [hubId]) is sent as
    written. *)
Theorem spoke_hubs_translated_in_place w net_id cache d hub l tr :
  Dict.has "_ref" d = false ->
  Dict.get "mode" d = Some (JStr "spoke") ->
  Dict.get "hubs" d = Some (JList (hub :: l)) ->
  forallb hub_entry (hub :: l) = true ->
  snd (utils.site_to_site_vpn_config w net_id cache (JDict d) tr)
  = tr ++ [Enter "siteToSiteVPN";
           Call (updateNetworkApplianceVpnSiteToSiteVpn net_id
                   (Dict.set "hubs" (JList (map (sent_hub cache) (hub :: l))) d))].
Proof.
  intros R Hm Hh He.
  unfold utils.site_to_site_vpn_config, utils.enter, emit.
  rewrite bind_run. cbv beta iota.
  rewrite with_ref_absent by assumption.
  simpl get_default. rewrite Hm, Hh. repeat rewrite bind_lift.
  simpl eq_str. simpl truthy. cbv beta iota.
  rewrite bind_run.
  destruct (translate_hubs_loop cache (hub :: l) [] [] (tr ++ [Enter "siteToSiteVPN"]) He)
    as [v E].
  rewrite bind_run. rewrite E. cbv beta iota.
  unfold ret at 1. cbv beta iota. change ([] ++ map (sent_hub cache) (hub :: l))
    with (map (sent_hub cache) (hub :: l)).
  simpl py_store.
  unfold meraki_functions.update_site_to_site_vpn, meraki_functions.with_kwargs.
  rewrite bind_run. rewrite bind_run. unfold meraki_functions.sdk. cbv beta iota.
  unfold ret. cbv beta iota. unfold snd. rewrite <- app_assoc. reflexivity.
Qed.

Lemma spoke_hubs_translated_in_place_witness :
  snd (utils.site_to_site_vpn_config fresh_org (JStr "N_1") [("HQ", JStr "N_9")]
         (JDict [("mode", JStr "spoke");
                 ("hubs", JList [JDict [("hubId", JStr "Lab"); ("useDefaultRoute", JBool true)];
                                 JDict [("hubId", JStr "HQ")]])]) [])
  = [] ++ [Enter "siteToSiteVPN";
           Call (updateNetworkApplianceVpnSiteToSiteVpn (JStr "N_1")
                   (Dict.set "hubs"
                      (JList (map (sent_hub [("HQ", JStr "N_9")])
                                [JDict [("hubId", JStr "Lab"); ("useDefaultRoute", JBool true)];
                                 JDict [("hubId", JStr "HQ")]]))
                      [("mode", JStr "spoke");
                       ("hubs", JList [JDict [("hubId", JStr "Lab");
                                              ("useDefaultRoute", JBool true)];
                                       JDict [("hubId", JStr "HQ")]])]))].
Proof.
  apply (spoke_hubs_translated_in_place fresh_org (JStr "N_1") [("HQ", JStr "N_9")]);
    reflexivity.
Defined.

(** ** The spreadsheet driver: inserting a section at a position *)

Lemma items_fold_fresh : forall (items acc : dict),
  NoDup (Dict.keys (acc ++ items)) ->
  fold_left (fun d kv => Dict.set (fst kv) (snd kv) d) items acc = acc ++ items.
Proof.
  induction items as [|[k v] items IH]; intros acc ND; simpl.
  - now rewrite app_nil_r.
  - assert (F : ~ In k (Dict.keys acc)).
    { unfold Dict.keys in *. rewrite map_app in ND. simpl in ND.
      apply NoDup_remove_2 in ND. intros H. apply ND. apply in_or_app. now left. }
    rewrite set_fresh by assumption. rewrite IH.
    + now rewrite <- app_assoc.
    + now rewrite <- app_assoc.
Qed.

Lemma set_inside k (v old : json) : forall (d1 d2 : dict),
  ~ In k (Dict.keys d1) ->
  Dict.set k v (d1 ++ (k, old) :: d2) = d1 ++ (k, v) :: d2.
Proof.
  induction d1 as [|[k' v'] d1 IH]; intros d2 F; simpl.
  - now rewrite String.eqb_refl.
  - simpl in F. destruct (String.eqb k k') eqn:E.
    + apply String.eqb_eq in E. subst. exfalso. apply F. now left.
    + rewrite IH; [reflexivity|]. intros H. apply F. now right.
Qed.

Lemma NoDup_keys_middle (a b c : dict) x :
  NoDup (Dict.keys (a ++ b ++ c)) -> ~ In (fst x) (Dict.keys (a ++ b ++ c)) ->
  NoDup (Dict.keys (a ++ x :: b ++ c)).
Proof.
  unfold Dict.keys. repeat rewrite map_app. simpl. rewrite map_app.
  intros ND F. apply NoDup_Add with (a := fst x) (l := map fst a ++ map fst b ++ map fst c).
  - apply Add_app.
  - split; [assumption|]. now repeat rewrite map_app in F.
Qed.

Lemma list_insert_nat {A} (pos : Z) (x : A) (l : list A) :
  (0 <= pos <= minified_mx_mg.ssize_max)%Z ->
  minified_mx_mg.list_insert pos x l
  = Some (firstn (Z.to_nat pos) l ++ x :: skipn (Z.to_nat pos) l).
Proof.
  intros P. unfold minified_mx_mg.list_insert.
  assert (R : ((- minified_mx_mg.ssize_max - 1 <=? pos)
               && (pos <=? minified_mx_mg.ssize_max))%Z = true).
  { apply andb_true_iff. split; apply Z.leb_le; unfold minified_mx_mg.ssize_max in *; lia. }
  rewrite R.
  destruct (pos <? 0)%Z eqn:E; [apply Z.ltb_lt in E; lia|].
  destruct (Z.le_ge_cases pos (Z.of_nat (List.length l))) as [H|H].
  - now rewrite Z.min_l by assumption.
  - rewrite Z.min_r by assumption. rewrite Nat2Z.id.
    rewrite firstn_all, skipn_all.
    rewrite firstn_all2 by lia. rewrite skipn_all2 by lia. reflexivity.
Qed.

Lemma list_insert_overflow {A} (pos : Z) (x : A) (l : list A) :
  (minified_mx_mg.ssize_max < pos)%Z ->
  minified_mx_mg.list_insert pos x l = None.
Proof.
  intros P. unfold minified_mx_mg.list_insert.
  replace (pos <=? minified_mx_mg.ssize_max)%Z with false
    by (symmetry; apply Z.leb_gt; exact P).
  now rewrite andb_false_r.
Qed.

Lemma insert_fresh_key (d : dict) pos key value :
  Dict.wf d -> Dict.has key d = false -> (0 <= pos <= minified_mx_mg.ssize_max)%Z ->
  minified_mx_mg.insert_into_specific_dict_position d pos key value
  = Some (firstn (Z.to_nat pos) d ++ (key, value) :: skipn (Z.to_nat pos) d).
Proof.
  intros W F P. unfold minified_mx_mg.insert_into_specific_dict_position,
    minified_mx_mg.dict_of_items.
  rewrite list_insert_nat by assumption. f_equal.
  rewrite items_fold_fresh; [reflexivity|]. simpl app.
  assert (Fk : ~ In key (Dict.keys d)).
  { intros H. apply has_In_keys in H. congruence. }
  pose proof (NoDup_keys_middle (firstn (Z.to_nat pos) d) (skipn (Z.to_nat pos) d) []
                (key, value)) as M.
  rewrite app_nil_r in M. rewrite firstn_skipn in M. now apply M.
Qed.

(** Inserting a key the mapping does not hold, at a position from 0 up
    to the largest index, puts the pair at that position (at the end
    when the position is beyond the length) and leaves every other pair
    where it was; at a position beyond the largest index the call raises
    and no mapping is returned. *)
Theorem insert_new_key_at_position (d : dict) pos key value :
  Dict.wf d -> Dict.has key d = false -> (0 <= pos)%Z ->
  minified_mx_mg.insert_into_specific_dict_position d pos key value
  = if (pos <=? minified_mx_mg.ssize_max)%Z
    then Some (firstn (Z.to_nat pos) d ++ (key, value) :: skipn (Z.to_nat pos) d)
    else None.
Proof.
  intros W F P. destruct (pos <=? minified_mx_mg.ssize_max)%Z eqn:E.
  - apply Z.leb_le in E. apply insert_fresh_key; auto.
  - apply Z.leb_gt in E. unfold minified_mx_mg.insert_into_specific_dict_position.
    now rewrite list_insert_overflow.
Qed.

Lemma insert_new_key_at_position_witness :
  minified_mx_mg.insert_into_specific_dict_position
    [("metadata", JDict []); ("vlans", JList [])] 1 "claim" (JDict [("serials", JList [])])
  = if (1 <=? minified_mx_mg.ssize_max)%Z
    then Some (firstn (Z.to_nat 1) [("metadata", JDict []); ("vlans", JList [])]
               ++ ("claim", JDict [("serials", JList [])])
               :: skipn (Z.to_nat 1) [("metadata", JDict []); ("vlans", JList [])])
    else None.
Proof.
  apply insert_new_key_at_position.
  - unfold Dict.wf. simpl. repeat constructor; simpl; intuition discriminate.
  - reflexivity.
  - lia.
Defined.

Lemma insert_existing_key_run (d1 d2 : dict) pos key old value :
  Dict.wf (d1 ++ (key, old) :: d2) -> (0 <= pos <= minified_mx_mg.ssize_max)%Z ->
  minified_mx_mg.insert_into_specific_dict_position (d1 ++ (key, old) :: d2) pos key value
  = Some (if (pos <=? Z.of_nat (List.length d1))%Z
          then firstn (Z.to_nat pos) d1 ++ (key, old) :: skipn (Z.to_nat pos) d1 ++ d2
          else d1 ++ (key, value) :: d2).
Proof.
  intros W P. unfold minified_mx_mg.insert_into_specific_dict_position,
    minified_mx_mg.dict_of_items.
  rewrite list_insert_nat by assumption. f_equal.
  assert (W' := W). unfold Dict.wf, Dict.keys in W'. rewrite map_app in W'. simpl in W'.
  assert (F := NoDup_remove_2 _ _ _ W'). apply NoDup_remove_1 in W'.
  assert (F1 : ~ In key (Dict.keys d1)).
  { intros H. apply F. apply in_or_app. now left. }
  assert (F2 : ~ In key (Dict.keys d2)).
  { intros H. apply F. apply in_or_app. now right. }
  set (n := Z.to_nat pos).
  assert (Fn : ~ In key (Dict.keys (firstn n d1))).
  { intros H. apply F1. unfold Dict.keys in *.
    apply in_map_iff in H. destruct H as (x & Hx & Hin).
    apply in_map_iff. exists x. split; [assumption|].
    rewrite <- (firstn_skipn n d1). apply in_or_app. now left. }
  destruct (pos <=? Z.of_nat (List.length d1))%Z eqn:E.
  - apply Z.leb_le in E. assert (Hn : (n <= List.length d1)%nat) by (subst n; lia).
    rewrite firstn_app, skipn_app.
    replace (n - List.length d1)%nat with 0%nat by lia. simpl firstn. simpl skipn.
    rewrite app_nil_r.
    set (A := firstn n d1 ++ (key, value) :: skipn n d1).
    replace (firstn n d1 ++ (key, value) :: skipn n d1 ++ (key, old) :: d2)
      with (A ++ (key, old) :: d2)
      by (subst A; rewrite <- app_assoc; reflexivity).
    rewrite fold_left_app.
    rewrite (items_fold_fresh A []).
    + simpl app. simpl fold_left. subst A. rewrite set_inside by assumption.
      rewrite (items_fold_fresh d2 (firstn n d1 ++ (key, old) :: skipn n d1)).
      * rewrite <- app_assoc. reflexivity.
      * rewrite <- app_assoc. simpl app.
        apply (NoDup_keys_middle (firstn n d1) (skipn n d1) d2 (key, old)).
        -- rewrite app_assoc, firstn_skipn. unfold Dict.keys. now rewrite map_app.
        -- rewrite app_assoc, firstn_skipn. unfold Dict.keys. rewrite map_app.
           exact F.
    + simpl app. subst A.
      pose proof (NoDup_keys_middle (firstn n d1) (skipn n d1) [] (key, value)) as M.
      rewrite app_nil_r in M. rewrite firstn_skipn in M. apply M.
      * unfold Dict.keys. apply NoDup_app_remove_r in W'. exact W'.
      * exact F1.
  - apply Z.leb_gt in E. assert (Hn : (List.length d1 < n)%nat) by (subst n; lia).
    rewrite firstn_app, skipn_app.
    rewrite firstn_all2 by lia. rewrite skipn_all2 by lia.
    destruct (n - List.length d1)%nat as [|m] eqn:Em; [lia|].
    simpl firstn. simpl skipn. change ([] ++ skipn m d2) with (skipn m d2).
    set (B := d1 ++ (key, old) :: firstn m d2).
    assert (ND : NoDup (Dict.keys (B ++ skipn m d2))).
    { subst B. rewrite <- app_assoc. simpl app. now rewrite firstn_skipn. }
    rewrite fold_left_app.
    rewrite (items_fold_fresh B []).
    + simpl app. simpl fold_left. subst B. rewrite set_inside by assumption.
      rewrite (items_fold_fresh (skipn m d2) (d1 ++ (key, value) :: firstn m d2)).
      * rewrite <- app_assoc. simpl app. now rewrite firstn_skipn.
      * unfold Dict.keys in *. repeat rewrite map_app in *. simpl in *.
        repeat rewrite map_app in *. repeat rewrite <- app_assoc in *. simpl in *.
        exact ND.
    + simpl app. unfold Dict.keys in *. rewrite map_app in ND.
      apply NoDup_app_remove_r in ND. exact ND.
Qed.

(** Inserting a key the mapping already holds, at a position from 0 up
    to the largest index, never yields two entries.  At a position up to
    the old entry the key moves to that position but keeps its old
    value, so the value passed in is dropped; at a later position the
    entry stays where it was and takes the new value.  At a position
    beyond the largest index the call raises. *)
Theorem insert_existing_key (d1 d2 : dict) pos key old value :
  Dict.wf (d1 ++ (key, old) :: d2) -> (0 <= pos)%Z ->
  minified_mx_mg.insert_into_specific_dict_position (d1 ++ (key, old) :: d2) pos key value
  = if (pos <=? minified_mx_mg.ssize_max)%Z
    then Some (if (pos <=? Z.of_nat (List.length d1))%Z
               then firstn (Z.to_nat pos) d1 ++ (key, old) :: skipn (Z.to_nat pos) d1 ++ d2
               else d1 ++ (key, value) :: d2)
    else None.
Proof.
  intros W P. destruct (pos <=? minified_mx_mg.ssize_max)%Z eqn:E.
  - apply Z.leb_le in E. apply insert_existing_key_run; auto.
  - apply Z.leb_gt in E. unfold minified_mx_mg.insert_into_specific_dict_position.
    now rewrite list_insert_overflow.
Qed.

Lemma insert_existing_key_witness :
  minified_mx_mg.insert_into_specific_dict_position
    ([("metadata", JDict [])] ++ ("claim", JDict [("serials", JList [JStr "Q2AA"])])
       :: [("vlans", JList [])])
    0 "claim" (JDict [("serials", JList [JStr "Q2BB"])])
  = if (0 <=? minified_mx_mg.ssize_max)%Z
    then Some (if (0 <=? Z.of_nat (List.length [("metadata", JDict [])]))%Z
               then firstn (Z.to_nat 0) [("metadata", JDict [])]
                    ++ ("claim", JDict [("serials", JList [JStr "Q2AA"])])
                    :: skipn (Z.to_nat 0) [("metadata", JDict [])] ++ [("vlans", JList [])]
               else [("metadata", JDict [])]
                    ++ ("claim", JDict [("serials", JList [JStr "Q2BB"])])
                    :: [("vlans", JList [])])
    else None.
Proof.
  apply (insert_existing_key [("metadata", JDict [])] [("vlans", JList [])] 0 "claim").
  - unfold Dict.wf. simpl. repeat constructor; simpl; intuition discriminate.
  - lia.
Defined.

(** ** The spreadsheet driver: the order of the sections it emits *)

Lemma has_cons_other k k' (v : json) (d : dict) :
  k <> k' -> Dict.has k ((k', v) :: d) = Dict.has k d.
Proof.
  intros N. unfold Dict.has. simpl. destruct (String.eqb k k') eqn:E; [|reflexivity].
  apply String.eqb_eq in E. contradiction.
Qed.

Lemma small_position pos :
  (0 <= pos <= 2)%Z -> (0 <= pos <= minified_mx_mg.ssize_max)%Z.
Proof. unfold minified_mx_mg.ssize_max. lia. Qed.

(** When serials were collected and devices were described, the network
    handed to the builder lists [metadata], then [claim], then
    [devices], then the sections parsed from the sheet in their order,
    and [firmware] last. *)
Theorem final_actions_claim_devices_first m (rest : dict) serial claim_serials
        device devices firmware :
  Dict.wf (("metadata", m) :: rest) ->
  Dict.has "claim" rest = false -> Dict.has "devices" rest = false ->
  Dict.has "firmware" rest = false ->
  minified_mx_mg.final_actions (("metadata", m) :: rest) (serial :: claim_serials)
    (device :: devices) firmware
  = Some (("metadata", m)
          :: ("claim", JDict [("serials", JList (serial :: claim_serials))])
          :: ("devices", JList (device :: devices)) :: rest ++ [("firmware", firmware)]).
Proof.
  intros W Hc Hd Hf. unfold minified_mx_mg.final_actions.
  change (0 <? List.length (serial :: claim_serials))%nat with true.
  change (0 <? List.length (device :: devices))%nat with true. cbv beta iota.
  rewrite (insert_fresh_key (("metadata", m) :: rest) 1 "claim");
    [|assumption| |apply small_position; lia].
  2:{ rewrite has_cons_other by discriminate. assumption. }
  change (Z.to_nat 1) with 1%nat. simpl firstn. simpl skipn. simpl app.
  set (claim := ("claim", JDict [("serials", JList (serial :: claim_serials))])).
  assert (W1 : Dict.wf (("metadata", m) :: claim :: rest)).
  { apply (NoDup_keys_middle [("metadata", m)] [] rest claim).
    - exact W.
    - simpl. intros [H|H]; [discriminate|].
      apply has_In_keys in H. congruence. }
  rewrite insert_fresh_key; [|assumption| |apply small_position; lia].
  2:{ subst claim. repeat rewrite has_cons_other by discriminate. assumption. }
  change (Z.to_nat 2) with 2%nat. simpl firstn. simpl skipn. simpl app.
  set (devs := ("devices", JList (device :: devices))).
  rewrite set_fresh; [reflexivity|].
  subst claim devs. simpl. intros [H|[H|[H|H]]]; try discriminate.
  apply has_In_keys in H. congruence.
Qed.

Lemma final_actions_claim_devices_first_witness :
  minified_mx_mg.final_actions
    (("metadata", JDict [("productTypes", JList [JStr "appliance"])])
       :: [("siteToSiteVPN", JDict [("mode", JStr "hub")]); ("vlans", JList [])])
    (JStr "Q2AA" :: []) (JDict [("serial", JStr "Q2AA")] :: []) (JDict [("products", JDict [])])
  = Some (("metadata", JDict [("productTypes", JList [JStr "appliance"])])
          :: ("claim", JDict [("serials", JList (JStr "Q2AA" :: []))])
          :: ("devices", JList (JDict [("serial", JStr "Q2AA")] :: []))
          :: [("siteToSiteVPN", JDict [("mode", JStr "hub")]); ("vlans", JList [])]
             ++ [("firmware", JDict [("products", JDict [])])]).
Proof.
  apply final_actions_claim_devices_first.
  - unfold Dict.wf. simpl. repeat constructor; simpl; intuition discriminate.
  - reflexivity.
  - reflexivity.
  - reflexivity.
Defined.

(** ** Binding a network to a configuration template *)

Lemma custom_field_lookup (d : dict) k :
  Dict.wf d -> startswith "_" k = true ->
  Dict.get k (fst (separate_custom_fields d)) = Dict.get k d.
Proof.
  intros W S. rewrite separate_custom_fields_filter by assumption. simpl fst.
  unfold custom_entry, is_custom.
  rewrite (get_filter (fun key => startswith "_" key)). now rewrite S.
Qed.

(** The applier up to the point where the mappings are consulted. *)
Ltac template_enter W R :=
  unfold config_templates.apply_config_template, utils.enter, emit;
  rewrite bind_run; cbv beta iota;
  rewrite with_ref_absent by exact R;
  unfold utils.separate; rewrite bind_ret;
  let Cn := fresh "Cn" in
  let Cu := fresh "Cu" in
  let Cr := fresh "Cr" in
  pose proof (custom_field_lookup _ "_name_template" W eq_refl) as Cn;
  pose proof (custom_field_lookup _ "_unbind" W eq_refl) as Cu;
  pose proof (f_equal snd (separate_custom_fields_filter _ W)) as Cr;
  destruct (separate_custom_fields _) as [custom_fields remaining_fields];
  simpl fst in Cn, Cu; simpl snd in Cr; cbv beta iota;
  rewrite ?Cn, ?Cu; subst remaining_fields.

(** A network already bound to the template the section names is left
    alone: the applier reports success with the text saying so, whatever
    the two operations would answer, and its result does not depend on
    them. *)
Theorem bound_template_left_alone w unbindNetwork bindNetwork net_id bound names d
        current name tr :
  Dict.wf d -> Dict.has "_ref" d = false ->
  hashable net_id = true ->
  table_get net_id bound = Some current ->
  Dict.get "_name_template" d = Some name ->
  py_eq current name = true ->
  config_templates.apply_config_template w unbindNetwork bindNetwork net_id bound names
    (JDict d) tr
  = (Ret (Success, FString [Lit "Template `"; Interp name; Lit "` Already Applied."]),
     tr ++ [Enter "apply_config_template"]).
Proof.
  intros W R Hh Hb Hn He. template_enter W R.
  unfold table_has. rewrite Hh. rewrite bind_ret. rewrite Hb. cbv beta iota.
  rewrite bind_assoc. rewrite bind_lift. rewrite bind_assoc. rewrite Hn. rewrite bind_lift.
  rewrite He. reflexivity.
Qed.

Lemma bound_template_left_alone_witness :
  config_templates.apply_config_template fresh_org
    (fun _ _ _ => RaisesException "unreachable") (fun _ _ _ => RaisesException "unreachable")
    (JStr "N_1") [(JStr "N_1", JStr "Branch")] [(JStr "Branch", JStr "T_1")]
    (JDict [("_name_template", JStr "Branch"); ("autoBind", JBool false)]) []
  = (Ret (Success, FString [Lit "Template `"; Interp (JStr "Branch");
                            Lit "` Already Applied."]),
     [] ++ [Enter "apply_config_template"]).
Proof.
  apply (bound_template_left_alone fresh_org _ _ (JStr "N_1") _ _ _ (JStr "Branch")).
  - unfold Dict.wf. simpl. repeat constructor; simpl; intuition discriminate.
  - reflexivity.
  - reflexivity.
  - reflexivity.
  - reflexivity.
  - reflexivity.
Defined.



(** On a network bound to no template, a section naming a template of
    the organisation makes one bind call.  Its payload is the plain
    fields of the section in their order with [configTemplateId] set to
    the id of the named template, in place of any [configTemplateId] the
    section carries; no custom field reaches the backend, and the answer
    of the call decides the result. *)
Theorem bind_payload_names_template_id w unbindNetwork bindNetwork net_id bound names d
        name id tr :
  Dict.wf d -> Dict.has "_ref" d = false ->
  hashable net_id = true ->
  table_get net_id bound = None ->
  Dict.get "_name_template" d = Some name ->
  py_eq name (JStr "") = false ->
  hashable name = true ->
  table_get name names = Some id ->
  config_templates.apply_config_template w unbindNetwork bindNetwork net_id bound names
    (JDict d) tr
  = (Ret (utils.update_result
            (meraki_functions.guarded
               (bindNetwork net_id
                  (Dict.set "configTemplateId" id (filter plain_entry d))
                  (tr ++ [Enter "apply_config_template"])))),
     tr ++ [Enter "apply_config_template"]).
Proof.
  intros W R Hh Hb Hn Hblank Hhn Hid. template_enter W R.
  unfold table_has. rewrite Hh. rewrite bind_ret. rewrite Hb. cbv beta iota.
  rewrite bind_ret. cbv beta iota. rewrite Hn. rewrite bind_lift. rewrite Hblank.
  rewrite Hhn. rewrite bind_ret. rewrite Hid. reflexivity.
Qed.

Lemma bind_payload_names_template_id_witness :
  config_templates.apply_config_template fresh_org
    (fun _ _ _ => RaisesException "unreachable") (fun _ _ _ => Returns (JDict []))
    (JStr "N_1") [] [(JStr "Branch", JStr "T_1")]
    (JDict [("_name_template", JStr "Branch"); ("autoBind", JBool false);
            ("configTemplateId", JStr "T_0")]) []
  = (Ret (utils.update_result
            (meraki_functions.guarded
               ((fun _ _ _ => Returns (JDict [])) (JStr "N_1")
                  (Dict.set "configTemplateId" (JStr "T_1")
                     (filter plain_entry
                        [("_name_template", JStr "Branch"); ("autoBind", JBool false);
                         ("configTemplateId", JStr "T_0")]))
                  ([] ++ [Enter "apply_config_template"])))),
     [] ++ [Enter "apply_config_template"]).
Proof.
  apply (bind_payload_names_template_id fresh_org (fun _ _ _ => RaisesException "unreachable")
           (fun _ _ _ => Returns (JDict [])) (JStr "N_1") [] [(JStr "Branch", JStr "T_1")]
           _ (JStr "Branch") (JStr "T_1")).
  - unfold Dict.wf. simpl. repeat constructor; simpl; intuition discriminate.
  - reflexivity.
  - reflexivity.
  - reflexivity.
  - reflexivity.
  - reflexivity.
  - reflexivity.
  - reflexivity.
Defined.

(** A section that resolves to an object without [_name_template]
    never yields a status: the lookup of the missing key raises, whether
    or not the network is bound to a template, and neither operation is
    invoked before it does. *)
Theorem template_section_needs_name w unbindNetwork bindNetwork net_id bound names d tr :
  Dict.wf d -> Dict.has "_ref" d = false ->
  Dict.get "_name_template" d = None ->
  config_templates.apply_config_template w unbindNetwork bindNetwork net_id bound names
    (JDict d) tr
  = (Raise, tr ++ [Enter "apply_config_template"]).
Proof.
  intros W R Hn. template_enter W R.
  unfold table_has. destruct (hashable net_id); [|reflexivity].
  rewrite bind_ret. destruct (table_get net_id bound) as [current|]; cbv beta iota.
  - rewrite bind_assoc. rewrite bind_lift. rewrite bind_assoc. rewrite Hn. reflexivity.
  - rewrite bind_ret. cbv beta iota. rewrite Hn. reflexivity.
Qed.

Lemma template_section_needs_name_witness :
  config_templates.apply_config_template fresh_org
    (fun _ _ _ => Returns (JDict [])) (fun _ _ _ => Returns (JDict []))
    (JStr "N_1") [] [(JStr "Branch", JStr "T_1")]
    (JDict [("autoBind", JBool false)]) []
  = (Raise, [] ++ [Enter "apply_config_template"]).
Proof.
  apply template_section_needs_name.
  - unfold Dict.wf. simpl. repeat constructor; simpl; intuition discriminate.
  - reflexivity.
  - reflexivity.
Defined.

(** ** Traffic shaping *)

(** A traffic-shaping section without [_uplink_bandwidth] changes
    nothing on the backend: whatever plain fields it carries, the one
    call of the applier is the read of the uplink bandwidth, and the
    status is [Success] even when that read fails, the error text then
    standing where the bandwidth would. *)
Theorem traffic_shaping_plain_fields_not_sent w net_id d tr :
  Dict.wf d -> Dict.has "_ref" d = false ->
  Dict.get "_uplink_bandwidth" d = None ->
  utils.traffic_shaping_config w net_id (JDict d) tr
  = (Ret (Success,
          Value (JDict [("uplink_bandwidth",
                         response_of
                           (meraki_functions.guarded
                              (backend w (tr ++ [Enter "traffic_shaping"])
                                 (getNetworkApplianceTrafficShapingUplinkBandwidth net_id))))])),
     tr ++ [Enter "traffic_shaping";
            Call (getNetworkApplianceTrafficShapingUplinkBandwidth net_id)]).
Proof.
  intros W R Hu.
  unfold utils.traffic_shaping_config, utils.enter, emit.
  rewrite bind_run. cbv beta iota.
  rewrite with_ref_absent by assumption.
  unfold utils.separate. rewrite bind_ret.
  pose proof (custom_field_lookup d "_uplink_bandwidth" W eq_refl) as Cu.
  destruct (separate_custom_fields d) as [custom_fields remaining_fields].
  simpl fst in Cu. cbv beta iota. rewrite Cu, Hu. rewrite bind_ret.
  unfold meraki_functions.get_uplink_bandwidth, meraki_functions.plain.
  rewrite bind_assoc. unfold meraki_functions.sdk. rewrite bind_run. cbv beta iota.
  unfold bind, ret. rewrite <- app_assoc. reflexivity.
Qed.

Lemma traffic_shaping_plain_fields_not_sent_witness :
  utils.traffic_shaping_config offline_org (JStr "N_1")
    (JDict [("globalBandwidthLimits", JDict [("limitUp", JNum 100)])]) []
  = (Ret (Success,
          Value (JDict [("uplink_bandwidth",
                         response_of
                           (meraki_functions.guarded
                              (backend offline_org ([] ++ [Enter "traffic_shaping"])
                                 (getNetworkApplianceTrafficShapingUplinkBandwidth
                                    (JStr "N_1")))))])),
     [] ++ [Enter "traffic_shaping";
            Call (getNetworkApplianceTrafficShapingUplinkBandwidth (JStr "N_1"))]).
Proof.
  apply traffic_shaping_plain_fields_not_sent.
  - unfold Dict.wf. simpl. repeat constructor; simpl; intuition discriminate.
  - reflexivity.
  - reflexivity.
Defined.
